(** * VisaPath scoring and evaluation pipeline: a shallow embedding

    The development follows the backend services of the repository:

    - [JS]        the JavaScript primitives the services rely on
                  (numbers, [Math.round], strings, [split], [trim], regular
                  expressions used by the profile extraction);
    - [Binary64]  IEEE double precision (rounding to nearest, ties to
                  even), in which the scorers add up the weighted sum;
    - [Model]     the reference data ([IVisaType]) and the result records;
    - [V1]        [services/scoringService.ts] (rule based scorer);
    - [V2]        [services/scoringServiceV2.ts] (oracle backed scorer and
                  its basic fallback) together with the oracle boundary of
                  [services/aiAnalysisService.ts];
    - [DocParse]  [services/documentParsingService.ts] and the upload loop of
                  [controllers/evaluationController.ts];
    - [Props]     the vocabulary of the statements;
    - [Examples]  sample visa types, analyses, oracles and files.

    The definitions come first; the facts proved about them follow, grouped
    by subject.

    Modelling conventions.  A JavaScript [number] is a rational ([Q]).
    The dimension scores are computed exactly: the bounds proved about
    them do not depend on the last bit.  The weighted sum does: it can
    land within one rounding error of a half, where [Math.round] decides
    the final score.  Both scorers therefore compute it in double
    precision ([weightedScore64]), every quotient, product and sum being
    rounded by [Binary64.round]; [weightedScore] is the same expression
    over the real numbers, the reference it is compared with.
    A JavaScript string is a [string] of 8-bit characters; case mapping and
    the whitespace class are the ASCII ones.  Code that can throw returns a
    value of [Exc]. *)

From Stdlib Require Import ZArith QArith Qround Qminmax Qabs Qpower.
From Stdlib Require Import String Ascii List Bool Lia Lqa.
Import ListNotations.

Open Scope string_scope.
Open Scope Z_scope.
Open Scope Q_scope.

(* ------------------------------------------------------------------ *)
(** ** JavaScript primitives *)

Module JS.

(** [Math.round]: nearest integer, halves rounded towards +infinity. *)
Definition Math_round (x : Q) : Z := Qfloor (x + (1 # 2)).

Definition Math_min (x y : Q) : Q := Qmin x y.
Definition Math_max (x y : Q) : Q := Qmax x y.

(** [x < y] and [x >= y] on numbers. *)
Definition ltb (x y : Q) : bool := negb (Qle_bool y x).
Definition geb (x y : Q) : bool := Qle_bool y x.

(** Truthiness of a number: [0] is falsy. *)
Definition truthy (x : Q) : bool := negb (Qeq_bool x 0).

Definition ofZ (z : Z) : Q := inject_Z z.
Definition ofN (n : N) : Q := inject_Z (Z.of_N n).
Definition ofNat (n : nat) : Q := inject_Z (Z.of_nat n).

(** *** Characters *)

Definition code (c : ascii) : N := N_of_ascii c.

Definition isUpper (c : ascii) : bool :=
  ((65 <=? code c) && (code c <=? 90))%N.

Definition isDigit (c : ascii) : bool :=
  ((48 <=? code c) && (code c <=? 57))%N.

(** The class [\s] restricted to ASCII: TAB, LF, VT, FF, CR and space. *)
Definition isSpace (c : ascii) : bool :=
  ((9 <=? code c) && (code c <=? 13) || (code c =? 32))%N.

Definition lowerChar (c : ascii) : ascii :=
  if isUpper c then ascii_of_N (code c + 32) else c.

Definition upperChar (c : ascii) : ascii :=
  if ((97 <=? code c) && (code c <=? 122))%N
  then ascii_of_N (code c - 32) else c.

(** *** Strings *)

Fixpoint toLowerCase (s : string) : string :=
  match s with
  | EmptyString => EmptyString
  | String c r => String (lowerChar c) (toLowerCase r)
  end.

Fixpoint toUpperCase (s : string) : string :=
  match s with
  | EmptyString => EmptyString
  | String c r => String (upperChar c) (toUpperCase r)
  end.

Fixpoint startsWith (s p : string) : bool :=
  match p, s with
  | EmptyString, _ => true
  | String _ _, EmptyString => false
  | String a p', String b s' => Ascii.eqb a b && startsWith s' p'
  end.

(** [s.includes(sub)]. *)
Fixpoint includes (s sub : string) : bool :=
  startsWith s sub ||
  match s with
  | EmptyString => false
  | String _ r => includes r sub
  end.

(** [arr.includes(x)] and [arr.indexOf(x)] on arrays of strings. *)
Definition arrIncludes (arr : list string) (x : string) : bool :=
  existsb (String.eqb x) arr.

Fixpoint indexOf (arr : list string) (x : string) : option nat :=
  match arr with
  | [] => None
  | y :: r => if String.eqb y x then Some 0%nat
              else option_map S (indexOf r x)
  end.

(** [s.split(re)] for a separator of the form [[class]+]: the pieces
    between the maximal runs of separator characters.  A leading or a
    trailing run leaves an empty first or last piece, and the empty string
    splits into one empty piece. *)
Fixpoint dropWhile (p : ascii -> bool) (s : string) : string :=
  match s with
  | EmptyString => EmptyString
  | String c r => if p c then dropWhile p r else s
  end.

Fixpoint splitRuns (sep : ascii -> bool) (inRun : bool) (s : string)
  : string * list string :=
  match s with
  | EmptyString => (EmptyString, [])
  | String c r =>
      if sep c then
        if inRun then splitRuns sep true r
        else (EmptyString, let '(w, ws) := splitRuns sep true r in w :: ws)
      else
        let '(w, ws) := splitRuns sep false r in (String c w, ws)
  end.

Definition split (sep : ascii -> bool) (s : string) : list string :=
  let '(w, ws) := splitRuns sep false s in w :: ws.

Definition nonEmpty (s : string) : bool :=
  match s with EmptyString => false | _ => true end.

(** [s.trim()]. *)
Fixpoint trimEnd (s : string) : string :=
  match s with
  | EmptyString => EmptyString
  | String c r =>
      match trimEnd r with
      | EmptyString => if isSpace c then EmptyString else String c EmptyString
      | r' => String c r'
      end
  end.

Definition trim (s : string) : string := trimEnd (dropWhile isSpace s).

(** [arr.join(sep)]. *)
Fixpoint join (sep : string) (arr : list string) : string :=
  match arr with
  | [] => EmptyString
  | [x] => x
  | x :: r => x ++ sep ++ join sep r
  end.

(** *** The two regular expressions of the profile extraction *)

(** Longest prefix of digits: the digits as a number, and the rest. *)
Fixpoint digits (acc : N) (s : string) : N * string :=
  match s with
  | String c r =>
      if isDigit c then digits (acc * 10 + (code c - 48))%N r else (acc, s)
  | EmptyString => (acc, s)
  end.

(** [/(\d+)\+?\s*(years?|yrs?)/i] anchored at the head of [s]; the result
    is [parseInt] of group 1.  Every quantifier is followed by a character
    it cannot match, so the greedy choice is the only one. *)
Definition yearsAt (s : string) : option N :=
  match s with
  | String c _ =>
      if isDigit c then
        let '(n, r) := digits 0%N s in
        let r1 := match r with
                  | String "+"%char r' => r'
                  | _ => r
                  end in
        let r2 := toLowerCase (dropWhile isSpace r1) in
        if startsWith r2 "year" || startsWith r2 "yr" then Some n else None
      else None
  | EmptyString => None
  end.

(** [s.match(/(\d+)\+?\s*(years?|yrs?)/i)]: leftmost match. *)
Fixpoint matchYears (s : string) : option N :=
  match yearsAt s with
  | Some n => Some n
  | None => match s with
            | EmptyString => None
            | String _ r => matchYears r
            end
  end.

(** [s.match(/([abc][12])/i)]: leftmost match, group 1 as written. *)
Definition isABC (c : ascii) : bool :=
  let l := lowerChar c in
  Ascii.eqb l "a" || Ascii.eqb l "b" || Ascii.eqb l "c".

Definition is12 (c : ascii) : bool := Ascii.eqb c "1" || Ascii.eqb c "2".

Fixpoint matchCEFR (s : string) : option string :=
  match s with
  | String a ((String b _) as r) =>
      if isABC a && is12 b then Some (String a (String b EmptyString))
      else matchCEFR r
  | _ => None
  end.

(** *** Object literals used as tables

    A lookup [table[key]] on an object literal also finds the properties
    that every object inherits from [Object.prototype]: for these names
    the result is a function or an object, whatever the table holds, and
    [table[key] || dflt] does not fall back to the default. *)
Definition inheritedKeys : list string :=
  [ "constructor"; "hasOwnProperty"; "isPrototypeOf"; "propertyIsEnumerable";
    "toLocaleString"; "toString"; "valueOf"; "__proto__";
    "__defineGetter__"; "__defineSetter__"; "__lookupGetter__";
    "__lookupSetter__" ].

Definition inherited (key : string) : bool := arrIncludes inheritedKeys key.

End JS.

(* ------------------------------------------------------------------ *)
(** ** IEEE 754 double precision

    The value of an arithmetic operation on doubles is the exact result
    rounded to the nearest double, ties to the even significand.  A double
    is a multiple of 2^q, where q is the exponent of its binade minus 52
    and at least -1074 (subnormal numbers).  Overflow to infinity is not
    modelled: every quantity met here is below 2^14. *)

Module Binary64.

Definition pow2 (e : Z) : Q := 2 ^ e.

(** The integer part of the binary logarithm of a positive rational. *)
Definition ilog2 (x : Q) : Z :=
  let e := (Z.log2 (Qnum x) - Z.log2 (Zpos (Qden x)))%Z in
  if Qle_bool (pow2 e) x then e else (e - 1)%Z.

(** Nearest integer, ties to even. *)
Definition roundEven (m : Q) : Z :=
  let f := Qfloor m in
  match Qcompare (m - inject_Z f) (1 # 2) with
  | Lt => f
  | Gt => (f + 1)%Z
  | Eq => if Z.even f then f else (f + 1)%Z
  end.

(** The exponent of the unit in the last place of the doubles around [x]. *)
Definition quantum (x : Q) : Z := Z.max (ilog2 (Qabs x) - 52) (-1074).

Definition round (x : Q) : Q :=
  if Qeq_bool x 0 then 0
  else inject_Z (roundEven (x / pow2 (quantum x))) * pow2 (quantum x).

(** [Number.EPSILON]: the gap between 1 and the next double, 2^-52. *)
Definition epsilon : Q := pow2 (-52).

Definition add (x y : Q) : Q := round (x + y).
Definition mul (x y : Q) : Q := round (x * y).
Definition div (x y : Q) : Q := round (x / y).

End Binary64.

(* ------------------------------------------------------------------ *)
(** ** Reference data and shared types *)

Module Model.

(** [models/VisaType.ts]: the fields the scorers read. *)
Record IEligibilityCriteria := {
  minExperienceYears : Q;
  minEducationLevel : string;
  specializations : list string;
  languageRequirement : string
}.

Record IScoringWeights := {
  w_experience : Q;
  w_education : Q;
  w_specialization : Q;
  w_language : Q;
  w_documentQuality : Q
}.

Record IVisaType := {
  visaName : string;
  eligibilityCriteria : IEligibilityCriteria;
  scoringWeights : IScoringWeights;
  maxScoreCap : Q;
  officialLink : string
}.

Inductive ScoreCategory :=
| strong_candidate
| moderate_fit
| consider_alternatives
| not_recommended.

(** The five dimensions of a score breakdown. *)
Record Breakdown := {
  experience : Q;
  education : Q;
  specialization : Q;
  language : Q;
  documentQuality : Q
}.

(** [interface UserProfile]; [experience] is produced by [parseInt] on a
    run of digits and [documentCount] is an array length. *)
Record UserProfile := {
  p_experience : N;
  p_education : string;
  p_specialization : string;
  p_languageLevel : string;
  p_documentCount : nat;
  p_hasAllRequiredDocs : bool
}.

(** A visa type is valid when every weight lies in 0..100 and the cap is
    an integer of 0..100 (the bounds of the mongoose schema, together with
    the integrality the data model asks for). *)
Definition weight_ok (w : Q) : Prop := 0 <= w /\ w <= 100.

Definition valid_weights (w : IScoringWeights) : Prop :=
  weight_ok (w_experience w) /\ weight_ok (w_education w) /\
  weight_ok (w_specialization w) /\ weight_ok (w_language w) /\
  weight_ok (w_documentQuality w).

Definition valid_cap (c : Q) : Prop :=
  inject_Z (Qfloor c) == c /\ 0 <= c /\ c <= 100.

Definition valid_visa (v : IVisaType) : Prop :=
  valid_weights (scoringWeights v) /\ valid_cap (maxScoreCap v).

(** The six CEFR levels and the four education levels, with the strings
    the code uses for them. *)
Inductive CEFR := A1 | A2 | B1 | B2 | C1 | C2.

Definition cefr_code (l : CEFR) : string :=
  match l with
  | A1 => "a1" | A2 => "a2" | B1 => "b1"
  | B2 => "b2" | C1 => "c1" | C2 => "c2"
  end.

Definition cefr_rank (l : CEFR) : Z :=
  match l with
  | A1 => 0 | A2 => 1 | B1 => 2 | B2 => 3 | C1 => 4 | C2 => 5
  end.

(** Thrown values: an [Error] object with its message, or anything else. *)
Inductive Thrown :=
| ErrorObj (message : string)
| OtherThrown.

(** [err instanceof Error ? err.message : dflt]. *)
Definition messageOr (dflt : string) (e : Thrown) : string :=
  match e with
  | ErrorObj m => m
  | OtherThrown => dflt
  end.

(** Result of code that may throw. *)
Inductive Exc (A : Type) :=
| Ok (a : A)
| Throw (e : Thrown).
Arguments Ok {A} a.
Arguments Throw {A} e.

End Model.

(* ------------------------------------------------------------------ *)
(** ** services/scoringService.ts *)

Module V1.
Import JS Model.

(** The score breakdown is the shared [Breakdown]; of [ScoringResult] the
    embedding keeps the score, the breakdown and the category (the insight
    and reasoning texts are display strings built from them). *)
Record ScoringResult := {
  score : Z;
  scoreBreakdown : Breakdown;
  scoreCategory : ScoreCategory
}.

Definition calculateExperienceScore (years minRequired : Q) : Z :=
  if ltb years minRequired then
    let ratio := years / minRequired in
    Math_round (ratio * 50)
  else if geb years (minRequired + 10) then 100%Z
  else
    let yearsAboveMin := years - minRequired in
    Math_round (50 + (yearsAboveMin / 10) * 50).

(** The table [levels] on its own keys.  The levels of a profile and of a
    visa type are typed to these four names.  A name inherited from
    [Object.prototype] ([JS.inherited]) lies outside: the lookup yields a
    function there, and the score is no number. *)
Definition levels (k : string) : option Z :=
  if String.eqb k "high_school" then Some 40%Z
  else if String.eqb k "bachelor" then Some 65%Z
  else if String.eqb k "master" then Some 85%Z
  else if String.eqb k "phd" then Some 100%Z
  else None.

Definition calculateEducationScore (level minRequired : string) : Z :=
  let userScore := match levels level with Some n => n | None => 0%Z end in
  let requiredScore :=
    match levels minRequired with Some n => n | None => 0%Z end in
  if (userScore <? requiredScore)%Z then
    Math_round ((ofZ userScore / ofZ requiredScore) * 50)
  else userScore.

(** [requiredSpecs] is [None] when the argument is [undefined] or [null]. *)
Definition calculateSpecializationScore
    (userSpec : string) (requiredSpecs : option (list string)) : Z :=
  match requiredSpecs with
  | None => 80%Z
  | Some [] => 80%Z
  | Some reqs =>
      if arrIncludes reqs (toLowerCase userSpec) then 100%Z
      else
        let userKeywords :=
          split (fun c => isSpace c || Ascii.eqb c ",") (toLowerCase userSpec) in
        let hasPartialMatch :=
          existsb (fun req =>
            existsb (fun keyword => includes (toLowerCase req) keyword)
                    userKeywords) reqs in
        if hasPartialMatch then 75%Z else 50%Z
  end.

Definition cefrLevels : list string := ["a1"; "a2"; "b1"; "b2"; "c1"; "c2"].

Definition calculateLanguageScore (proficiency requirement : string) : Z :=
  match indexOf cefrLevels (toLowerCase proficiency),
        indexOf cefrLevels (toLowerCase requirement) with
  | Some u, Some r =>
      let userLevel := Z.of_nat u in
      let requiredLevel := Z.of_nat r in
      if (userLevel <? requiredLevel)%Z then
        let gap := (requiredLevel - userLevel)%Z in
        Z.max 30 (60 - gap * 10)
      else if (userLevel =? requiredLevel)%Z then 80%Z
      else
        let bonus := ((userLevel - requiredLevel) * 5)%Z in
        Z.min 100 (80 + bonus)
  | _, _ => 60%Z
  end.

Definition calculateDocumentScore (count : nat) (hasAllRequired : bool) : Z :=
  let score0 := 60%Z in
  let score1 := if hasAllRequired then (score0 + 25)%Z else (score0 - 20)%Z in
  let score2 :=
    if (5 <=? count)%nat then (score1 + 15)%Z
    else if (3 <=? count)%nat then (score1 + 10)%Z
    else score1 in
  Z.max 0 (Z.min 100 score2).

Definition determineScoreCategory (score : Z) : ScoreCategory :=
  if (75 <=? score)%Z then strong_candidate
  else if (60 <=? score)%Z then moderate_fit
  else if (40 <=? score)%Z then consider_alternatives
  else not_recommended.

Definition computeBreakdown (userProfile : UserProfile) (visaType : IVisaType)
  : Breakdown :=
  let c := eligibilityCriteria visaType in
  {| experience :=
       ofZ (calculateExperienceScore (ofN (p_experience userProfile))
                                     (minExperienceYears c));
     education :=
       ofZ (calculateEducationScore (p_education userProfile)
                                    (minEducationLevel c));
     specialization :=
       ofZ (calculateSpecializationScore (p_specialization userProfile)
                                         (Some (specializations c)));
     language :=
       ofZ (calculateLanguageScore (p_languageLevel userProfile)
                                   (languageRequirement c));
     documentQuality :=
       ofZ (calculateDocumentScore (p_documentCount userProfile)
                                   (p_hasAllRequiredDocs userProfile)) |}.

(** The accumulation [weightedScore += (breakdown.x / 100) * weights.x]
    read over the real numbers, without any rounding. *)
Definition weightedScore (breakdown : Breakdown) (weights : IScoringWeights)
  : Q :=
  0 + (experience breakdown / 100) * w_experience weights
    + (education breakdown / 100) * w_education weights
    + (specialization breakdown / 100) * w_specialization weights
    + (language breakdown / 100) * w_language weights
    + (documentQuality breakdown / 100) * w_documentQuality weights.

(** The same accumulation as the code runs it, in double precision: every
    quotient, product and sum is rounded to the nearest double. *)
Definition weightedScore64 (breakdown : Breakdown) (weights : IScoringWeights)
  : Q :=
  let term score weight := Binary64.mul (Binary64.div score 100) weight in
  let weightedScore := 0 in
  let weightedScore :=
    Binary64.add weightedScore
      (term (experience breakdown) (w_experience weights)) in
  let weightedScore :=
    Binary64.add weightedScore
      (term (education breakdown) (w_education weights)) in
  let weightedScore :=
    Binary64.add weightedScore
      (term (specialization breakdown) (w_specialization weights)) in
  let weightedScore :=
    Binary64.add weightedScore
      (term (language breakdown) (w_language weights)) in
  let weightedScore :=
    Binary64.add weightedScore
      (term (documentQuality breakdown) (w_documentQuality weights)) in
  weightedScore.

Definition calculateScore (userProfile : UserProfile) (visaType : IVisaType)
  : ScoringResult :=
  let breakdown := computeBreakdown userProfile visaType in
  let weights := scoringWeights visaType in
  let cappedScore :=
    Math_min (weightedScore64 breakdown weights) (maxScoreCap visaType) in
  let finalScore := Math_round cappedScore in
  let category := determineScoreCategory finalScore in
  {| score := finalScore;
     scoreBreakdown := breakdown;
     scoreCategory := category |}.

(** *** Profile extraction

    [extractUserProfile]: the regular expressions run on the lower-cased
    summary. *)

Definition extractEducation (summary : string) : string :=
  if includes summary "phd" || includes summary "doctorate" then "phd"
  else if includes summary "master" || includes summary "msc"
          || includes summary "mba" then "master"
  else if includes summary "bachelor" || includes summary "bsc"
          || includes summary "ba " then "bachelor"
  else if includes summary "high school" || includes summary "diploma"
  then "high_school"
  else "bachelor".

Definition knownSpecializations : list string :=
  ["technology"; "engineering"; "medicine"; "business"; "arts"; "science";
   "education"].

(** The loop [for (const spec of specializations)] with its [break]. *)
Fixpoint firstIncluded (summary : string) (specs : list string) : string :=
  match specs with
  | [] => "general"
  | spec :: r => if includes summary spec then spec else firstIncluded summary r
  end.

Definition extractUserProfile {A : Type} (professionalSummary : string)
    (documents : list A) : UserProfile :=
  let summary := toLowerCase professionalSummary in
  {| p_experience :=
       match matchYears summary with Some n => n | None => 0%N end;
     p_education := extractEducation summary;
     p_specialization := firstIncluded summary knownSpecializations;
     p_languageLevel :=
       match matchCEFR summary with Some l => toLowerCase l | None => "b2" end;
     p_documentCount := List.length documents;
     p_hasAllRequiredDocs := (3 <=? List.length documents)%nat |}.

(** *** Insights *)

Record Insights := {
  strengths : list string;
  improvements : list string;
  nextSteps : list string
}.

(** [if (c) list.push(msg)]. *)
Definition pushIf (c : bool) (msg : string) : list string :=
  if c then [msg] else [].

(** [s.replace('_', ' ')]: the first occurrence only. *)
Fixpoint replaceFirst (from to : ascii) (s : string) : string :=
  match s with
  | EmptyString => EmptyString
  | String c r =>
      if Ascii.eqb c from then String to r
      else String c (replaceFirst from to r)
  end.

Section Insights.
(** The conversion of a number to its text in a template literal. *)
Variable numberToString : Q -> string.

Definition generateInsights (breakdown : Breakdown) (userProfile : UserProfile)
    (visaType : IVisaType) (finalScore : Z) : Insights :=
  let c := eligibilityCriteria visaType in
  {| strengths :=
       pushIf (geb (experience breakdown) 80)
         ("Strong professional background with "
          ++ numberToString (ofN (p_experience userProfile))
          ++ " years of experience")
       ++ pushIf (geb (education breakdown) 85)
            ("Advanced educational qualification ("
             ++ replaceFirst "_" " " (p_education userProfile) ++ " degree)")
       ++ pushIf (geb (specialization breakdown) 90)
            ("Excellent specialization match for " ++ visaName visaType)
       ++ pushIf (geb (language breakdown) 85)
            ("Strong language proficiency ("
             ++ toUpperCase (p_languageLevel userProfile) ++ ")")
       ++ pushIf (geb (documentQuality breakdown) 80)
            "Comprehensive documentation provided";
     improvements :=
       pushIf (ltb (experience breakdown) 60)
         ("Gain more relevant work experience (minimum "
          ++ numberToString (minExperienceYears c) ++ " years required)")
       ++ pushIf (ltb (education breakdown) 65)
            ("Consider pursuing higher education (minimum "
             ++ replaceFirst "_" " " (minEducationLevel c) ++ " required)")
       ++ pushIf (ltb (language breakdown) 70)
            ("Improve language proficiency to "
             ++ toUpperCase (languageRequirement c) ++ " level")
       ++ pushIf (ltb (documentQuality breakdown) 70)
            "Ensure all required documents are complete and up-to-date"
       ++ pushIf (ltb (specialization breakdown) 60)
            "Consider gaining experience in specialized areas relevant to this visa type";
     nextSteps :=
       (if (75 <=? finalScore)%Z then
          [ "Prepare comprehensive application for " ++ visaName visaType;
            "Gather all supporting documentation and certifications";
            "Consider consulting with an immigration attorney" ]
        else if (60 <=? finalScore)%Z then
          [ "Address the improvement areas mentioned above";
            "Gather additional supporting evidence for your application";
            "Consider alternative visa options that may be a better fit" ]
        else
          [ "Focus on building qualifications in key areas (experience, education)";
            "Explore alternative visa types that match your current profile";
            "Consider professional development and certifications" ])
       ++ [ "Visit official website: "
            ++ (if nonEmpty (officialLink visaType) then officialLink visaType
                else "Contact immigration authority") ] |}.

(** The insights that [calculateScore] returns with its result. *)
Definition insightsOf (userProfile : UserProfile) (visaType : IVisaType)
  : Insights :=
  generateInsights (computeBreakdown userProfile visaType) userProfile visaType
                   (score (calculateScore userProfile visaType)).

End Insights.

End V1.

(* ------------------------------------------------------------------ *)
(** ** services/documentParsingService.ts and the upload loop *)

Module DocParse.
Import JS Model.

Record ParsedDocument := {
  fileName : string;
  documentType : string;
  extractedText : string;
  wordCount : nat;
  parseSuccess : bool;
  error : option string
}.

(** What one run sees of the file system and of the two extraction
    libraries: each call returns its text or throws. *)
Record FileEnv := {
  readFileSync : string -> Exc string;
  pdf : string -> Exc string;
  mammoth_extractRawText : string -> Exc string
}.

(** [path.extname] (posix flavour): the suffix of the last path segment
    that starts at its last dot; empty when there is no dot, when the only
    dot opens the segment, and for the segment [..].  Slashes that end the
    path are skipped. *)
Fixpoint dropTrailingSlashes (s : string) : string :=
  match s with
  | EmptyString => EmptyString
  | String c r =>
      match dropTrailingSlashes r with
      | EmptyString => if Ascii.eqb c "/" then EmptyString
                       else String c EmptyString
      | r' => String c r'
      end
  end.

Fixpoint basename (acc s : string) : string :=
  match s with
  | EmptyString => acc
  | String c r => if Ascii.eqb c "/" then basename r r else basename acc r
  end.

Fixpoint lastDot (s : string) : option string :=
  match s with
  | EmptyString => None
  | String c r =>
      match lastDot r with
      | Some e => Some e
      | None => if Ascii.eqb c "." then Some s else None
      end
  end.

Definition extname (p : string) : string :=
  let p := dropTrailingSlashes p in
  match basename p p with
  | EmptyString => EmptyString
  | String c r =>
      if String.eqb (String c r) ".." then EmptyString
      else match lastDot r with Some e => e | None => EmptyString end
  end.

Section Extraction.
Variable env : FileEnv.

Definition rethrow (pre : string) (e : Thrown) : Thrown :=
  ErrorObj (pre ++ messageOr "Unknown error" e).

Definition parsePDF (filePath : string) : Exc string :=
  match readFileSync env filePath with
  | Throw e => Throw (rethrow "Failed to parse PDF: " e)
  | Ok dataBuffer =>
      match pdf env dataBuffer with
      | Throw e => Throw (rethrow "Failed to parse PDF: " e)
      | Ok text => Ok text
      end
  end.

Definition parseDOCX (filePath : string) : Exc string :=
  match mammoth_extractRawText env filePath with
  | Throw e => Throw (rethrow "Failed to parse DOCX: " e)
  | Ok value => Ok value
  end.

(** [text.replace(/[^\x20-\x7E\n\r]/g, ' ')]. *)
Definition printable (c : ascii) : bool :=
  ((32 <=? code c) && (code c <=? 126) || (code c =? 10) || (code c =? 13))%N.

Fixpoint stripNonPrintable (s : string) : string :=
  match s with
  | EmptyString => EmptyString
  | String c r =>
      String (if printable c then c else " "%char) (stripNonPrintable r)
  end.

Definition parseDOC (filePath : string) : Exc string :=
  match mammoth_extractRawText env filePath with
  | Ok value => Ok value
  | Throw e =>
      match readFileSync env filePath with
      | Ok text => Ok (stripNonPrintable text)
      | Throw _ => Throw (rethrow "Failed to parse DOC: " e)
      end
  end.

(** The local variables of [parseDocument] after a [switch] that ran to
    its end. *)
Record Locals := {
  l_extractedText : string;
  l_parseSuccess : bool;
  l_error : option string
}.

Definition extracted (r : Exc string) : Exc Locals :=
  match r with
  | Ok text =>
      Ok {| l_extractedText := text; l_parseSuccess := true; l_error := None |}
  | Throw e => Throw e
  end.

Definition isImageExt (ext : string) : bool :=
  String.eqb ext ".jpg" || String.eqb ext ".jpeg" || String.eqb ext ".png".

Definition isTextExt (ext : string) : bool :=
  String.eqb ext ".pdf" || String.eqb ext ".docx" ||
  String.eqb ext ".doc" || String.eqb ext ".txt".

(** The body of the [try] block: the [switch] on the extension. *)
Definition dispatch (ext filePath : string) : Exc Locals :=
  if String.eqb ext ".pdf" then extracted (parsePDF filePath)
  else if String.eqb ext ".docx" then extracted (parseDOCX filePath)
  else if String.eqb ext ".doc" then extracted (parseDOC filePath)
  else if String.eqb ext ".txt" then extracted (readFileSync env filePath)
  else if isImageExt ext then
    Ok {| l_extractedText := "[Image file - OCR not implemented]";
          l_parseSuccess := false;
          l_error := Some "Image file requires OCR for text extraction" |}
  else
    Ok {| l_extractedText := EmptyString;
          l_parseSuccess := false;
          l_error := Some ("Unsupported file type: " ++ ext) |}.

(** [text.split(/\s+/).filter(word => word.length > 0).length]. *)
Definition countWords (text : string) : nat :=
  List.length (filter nonEmpty (split isSpace text)).

Definition parseDocument (filePath fileName documentType : string)
  : Exc ParsedDocument :=
  let ext := toLowerCase (extname fileName) in
  let locals :=
    match dispatch ext filePath with
    | Ok l => l
    | Throw err =>
        {| l_extractedText := EmptyString;
           l_parseSuccess := false;
           l_error := Some (messageOr "Unknown parsing error" err) |}
    end in
  let wordCount := countWords (l_extractedText locals) in
  Ok {| fileName := fileName;
        documentType := documentType;
        extractedText := trim (l_extractedText locals);
        wordCount := wordCount;
        parseSuccess := l_parseSuccess locals;
        error := l_error locals |}.

(** An uploaded file as multer hands it over. *)
Record UploadedFile := {
  path : string;
  originalname : string;
  fieldname : string
}.

(** [file.fieldname || 'other']. *)
Definition fieldOrOther (f : UploadedFile) : string :=
  if nonEmpty (fieldname f) then fieldname f else "other".

(** The loop of [createEvaluation] over the uploaded files: one entry is
    pushed per file, from [parseDocument] or from the [catch] clause. *)
Fixpoint parseUploads (uploadedFiles : list UploadedFile)
  : list ParsedDocument :=
  match uploadedFiles with
  | [] => []
  | file :: rest =>
      (match parseDocument (path file) (originalname file) (fieldOrOther file)
       with
       | Ok parsed => parsed
       | Throw e =>
           {| fileName := originalname file;
              documentType := fieldOrOther file;
              extractedText := EmptyString;
              wordCount := 0;
              parseSuccess := false;
              error := Some (messageOr "Unknown error" e) |}
       end) :: parseUploads rest
  end.

End Extraction.

(** The word count in the words of the data model: the number of maximal
    runs of non-whitespace characters. *)
Fixpoint countRuns (inWord : bool) (s : string) : nat :=
  match s with
  | EmptyString => 0
  | String c r =>
      if isSpace c then countRuns false r
      else (if inWord then 0 else 1) + countRuns true r
  end.

Definition spec_wordCount (text : string) : nat := countRuns false text.

(** [parseMultipleDocuments] and [combineDocumentText]. *)
Record DocumentRef := {
  d_filePath : string;
  d_fileName : string;
  d_documentType : string
}.

Definition newline : string := String (ascii_of_N 10) EmptyString.

Section Combining.
Variable env : FileEnv.

Fixpoint parseMultipleDocuments (documents : list DocumentRef)
  : Exc (list ParsedDocument) :=
  match documents with
  | [] => Ok []
  | doc :: rest =>
      match parseDocument env (d_filePath doc) (d_fileName doc)
                          (d_documentType doc) with
      | Throw e => Throw e
      | Ok parsed =>
          match parseMultipleDocuments rest with
          | Throw e => Throw e
          | Ok results => Ok (parsed :: results)
          end
      end
  end.

End Combining.

Definition combineDocumentText (parsedDocuments : list ParsedDocument) : string :=
  join (newline ++ newline)
    (map (fun doc => "--- " ++ toUpperCase (documentType doc) ++ ": "
                     ++ fileName doc ++ " ---" ++ newline ++ extractedText doc)
       (filter (fun doc => parseSuccess doc && nonEmpty (extractedText doc))
               parsedDocuments)).

(** Every character of a string satisfies a test. *)
Fixpoint allChars (p : ascii -> bool) (s : string) : bool :=
  match s with
  | EmptyString => true
  | String c r => p c && allChars p r
  end.

End DocParse.

(* ------------------------------------------------------------------ *)
(** ** services/aiAnalysisService.ts and services/scoringServiceV2.ts *)

Module V2.
Import JS Model DocParse.

(** *** The oracle's payload

    A field is an [option] when the scorer calls a method on it (so that
    its absence throws a [TypeError]); the other fields are read as
    values.  [ai_o1aCriteria] is [None] when the field is missing or is not
    an array. *)
Record O1ACriteriaAnalysis := {
  criteriaName : string;
  evidenceFound : option (list string);
  evidenceQuality : option string;
  c_score : Q;
  specificGaps : option (list string)
}.

Record AIProfileAnalysis := {
  ai_o1aCriteria : option (list O1ACriteriaAnalysis);
  ai_criteriaMet : Q;
  ai_yearsOfExperience : Q;
  ai_educationLevel : option string;
  ai_fieldOfExpertise : option string;
  ai_languageProficiency : option string;
  ai_hasNationalInternationalRecognition : bool;
  ai_hasOriginalContributions : bool;
  ai_overallScore : Q;
  ai_approvalLikelihood : option string;
  ai_strengths : list string;
  ai_criticalWeaknesses : option (list string);
  ai_nextSteps : list string;
  ai_documentQuality : option string
}.

Record PriorityAction := {
  priority : Z;
  action : string;
  timeline : string;
  impact : string
}.

Record DetailedRecommendations := {
  priorityActions : list PriorityAction;
  longTermStrategy : string;
  resourceLinks : list string
}.

(** The arguments that [analyzeO1AApplication] writes into its request. *)
Record AnalysisRequest := {
  q_professionalSummary : string;
  q_documentContents : string;
  q_requiredYears : Q;
  q_requiredEducation : string;
  q_fieldOfWork : string
}.

(** One answer of the chat-completion endpoint, as the caller meets it:
    the request is rejected (service error, network failure, timeout), the
    message has no content, the content is not the JSON of an object, or it
    parses to a payload. *)
Inductive Completion (A : Type) :=
| Rejected (e : Thrown)
| NoContent
| Unparsable (msg : string)
| Json (a : A).
Arguments Rejected {A} e.
Arguments NoContent {A}.
Arguments Unparsable {A} msg.
Arguments Json {A} a.

(** The oracle: whether a key is configured, and the answer to each
    request as a function of the request and of the number of requests
    already sent.  [transient n] tells whether the failure of the request
    sent as number [n] is one that the client library sends again: a
    connection error, a timeout, or an answer with status 408, 409, 429 or
    5xx. *)
Record Oracle := {
  hasApiKey : bool;
  analysisReply : AnalysisRequest -> nat -> Completion AIProfileAnalysis;
  recommendationsReply :
    AIProfileAnalysis -> string -> nat -> Completion DetailedRecommendations;
  transient : nat -> bool
}.

(** *** Computations that count the requests sent and may throw *)

Definition M (A : Type) : Type := nat -> Exc A * nat.

Definition ret {A} (a : A) : M A := fun n => (Ok a, n).
Definition throw {A} (e : Thrown) : M A := fun n => (Throw e, n).
Definition bind {A B} (c : M A) (k : A -> M B) : M B :=
  fun n => match c n with
           | (Ok a, n') => k a n'
           | (Throw e, n') => (Throw e, n')
           end.
Definition tryCatch {A} (c : M A) (h : Thrown -> M A) : M A :=
  fun n => match c n with
           | (Ok a, n') => (Ok a, n')
           | (Throw e, n') => h e n'
           end.
Definition lift {A} (x : Exc A) : M A := fun n => (x, n).

Notation "x <- c ;; k" := (bind c (fun x => k))
  (at level 61, c at next level, right associativity).

(** A method call on a value that may be [undefined]. *)
Definition defined {A} (x : option A) : Exc A :=
  match x with
  | Some a => Ok a
  | None => Throw (ErrorObj "Cannot read properties of undefined")
  end.

(** String interpolation of a value that may be [undefined]. *)
Definition shown (x : option string) : string :=
  match x with Some s => s | None => "undefined" end.

Section WithOracle.
Variable oracle : Oracle.

Definition getOpenAIClient : M unit :=
  if hasApiKey oracle then ret tt
  else throw (ErrorObj
    "OPENAI_API_KEY is not configured. Please add it to your .env file. Get your API key from: https://platform.openai.com/api-keys").

(** The client is built as [new OpenAI({ apiKey })], without options: the
    library's default of two retries applies. *)
Definition maxRetries : nat := 2.

(** One call of the client: the request is sent, and sent again while it
    fails transiently and retries remain.  The result is the last answer
    and the number of requests sent so far. *)
Fixpoint send {A} (retriesRemaining : nat) (reply : nat -> Completion A)
    (n : nat) : Completion A * nat :=
  match reply n, retriesRemaining with
  | Rejected e, S retries =>
      if transient oracle n then send retries reply (S n)
      else (Rejected e, S n)
  | completion, _ => (completion, S n)
  end.

(** [await openai.chat.completions.create(...)]. *)
Definition create {A} (reply : nat -> Completion A) : M (Completion A) :=
  fun n => let '(completion, n') := send maxRetries reply n in
           (Ok completion, n').

(** Content of the completion, parsed: the [await], the emptiness test and
    [JSON.parse]. *)
Definition parsed {A} (c : Completion A) : M A :=
  match c with
  | Rejected e => throw e
  | NoContent => throw (ErrorObj "No response from OpenAI")
  | Unparsable msg => throw (ErrorObj msg)
  | Json a => ret a
  end.

Definition analyzeO1AApplication (request : AnalysisRequest)
  : M AIProfileAnalysis :=
  tryCatch
    (_ <- getOpenAIClient ;;
     completion <- create (analysisReply oracle request) ;;
     analysis <- parsed completion ;;
     match ai_o1aCriteria analysis with
     | None => throw (ErrorObj "Invalid analysis structure returned from AI")
     | Some _ => ret analysis
     end)
    (fun error =>
       throw (ErrorObj ("AI analysis failed: " ++ messageOr "Unknown error" error))).

Definition fallbackRecommendations : DetailedRecommendations :=
  {| priorityActions :=
       [ {| priority := 1;
            action := "Consult with an immigration attorney for personalized guidance";
            timeline := "Immediate";
            impact := "high" |} ];
     longTermStrategy :=
       "Focus on building strong evidence for O-1A criteria. Document all achievements and obtain letters of recommendation.";
     resourceLinks :=
       ["https://www.uscis.gov/working-in-the-united-states/temporary-workers/o-1-visa-individuals-with-extraordinary-ability-or-achievement"] |}.

(** The request text is built before the [try]: it joins
    [criticalWeaknesses] and, for every criterion scored below 60, its
    gaps.  Kept here: the name and the joined gaps of each such criterion. *)
Fixpoint weakCriteriaLines (cs : list O1ACriteriaAnalysis)
  : Exc (list (string * string)) :=
  match cs with
  | [] => Ok []
  | c :: r =>
      if ltb (c_score c) 60 then
        match defined (specificGaps c) with
        | Throw e => Throw e
        | Ok gaps =>
            match weakCriteriaLines r with
            | Throw e => Throw e
            | Ok ls => Ok ((criteriaName c, join ", " gaps) :: ls)
            end
        end
      else weakCriteriaLines r
  end.

Definition generatePersonalizedRecommendations
    (analysis : AIProfileAnalysis) (visaType targetField : string)
  : M DetailedRecommendations :=
  _ <- lift (defined (ai_criticalWeaknesses analysis)) ;;
  criteria <- lift (defined (ai_o1aCriteria analysis)) ;;
  _ <- lift (weakCriteriaLines criteria) ;;
  tryCatch
    (_ <- getOpenAIClient ;;
     completion <- create (recommendationsReply oracle analysis targetField) ;;
     parsed completion)
    (fun _ => ret fallbackRecommendations).

End WithOracle.

(** *** Helper functions for score calculation *)

(** The last line divides by [minRequired] only when [years] is more than
    two below it; a division by zero then yields minus infinity, which
    [Math.max] turns into 0, the value the rational model gives as well. *)
Definition calculateExperienceFromAI (years minRequired : Q) : Q :=
  if geb years (minRequired + 5) then 90
  else if geb years (minRequired + 3) then 80
  else if geb years minRequired then 70
  else if geb years (minRequired - 1) then 50
  else if geb years (minRequired - 2) then 30
  else Math_max 0 ((years / minRequired) * 40).

(** The table [levels] on its own keys; names inherited from
    [Object.prototype] ([JS.inherited]) lie outside, as for the first
    scorer. *)
Definition levels (k : string) : option Q :=
  if String.eqb k "high_school" then Some 30
  else if String.eqb k "bachelor" then Some 60
  else if String.eqb k "master" then Some 80
  else if String.eqb k "phd" then Some 100
  else None.

Definition calculateEducationFromAI (level required : string) : Q :=
  let requiredScore := match levels required with Some n => n | None => 60 end in
  let userScore := match levels level with Some n => n | None => 30 end in
  if geb userScore requiredScore then userScore
  else (userScore / requiredScore) * 50.

Definition calculateSpecializationScore (field : string) (allowed : list string)
  : Q :=
  let fieldLower := toLowerCase field in
  if existsb (fun spec => String.eqb fieldLower (toLowerCase spec)) allowed
  then 100
  else if existsb (fun spec => includes fieldLower (toLowerCase spec)
                               || includes (toLowerCase spec) fieldLower)
                  allowed
  then 70
  else 40.

Definition cefrLevels : list string := ["a1"; "a2"; "b1"; "b2"; "c1"; "c2"].

Definition calculateLanguageScore (level required : string) : Q :=
  match indexOf cefrLevels (toLowerCase level),
        indexOf cefrLevels (toLowerCase required) with
  | Some u, Some r =>
      let userIndex := Z.of_nat u in
      let requiredIndex := Z.of_nat r in
      if (requiredIndex <=? userIndex)%Z then
        ofZ (70 + (userIndex - requiredIndex) * 10)
      else
        let gap := (requiredIndex - userIndex)%Z in
        ofZ (Z.max 20 (60 - gap * 15))
  | _, _ => 60
  end.

Definition parsedCount (documents : list ParsedDocument) : nat :=
  List.length (filter parseSuccess documents).

Definition calculateDocumentQualityFromAI
    (quality : option string) (documents : list ParsedDocument) : Q :=
  let baseScore0 :=
    match quality with
    | Some q =>
        if String.eqb q "excellent" then 95
        else if String.eqb q "good" then 75
        else if String.eqb q "fair" then 50
        else if String.eqb q "poor" then 25
        else 40
    | None => 40
    end in
  let baseScore1 :=
    if (5 <=? parsedCount documents)%nat then baseScore0 + 5 else baseScore0 in
  let baseScore2 :=
    if (8 <=? parsedCount documents)%nat then baseScore1 + 5 else baseScore1 in
  Math_min 100 baseScore2.

(** *** Results *)

Record O1AScores := {
  o1aCriteriaMet : Q;
  nationalRecognition : Q;
  originalContributions : Q
}.

(** [interface ScoringResult] without the [reasoning] text. *)
Record ScoringResult := {
  score : Z;
  scoreBreakdown : Breakdown;
  o1aBreakdown : option O1AScores;
  scoreCategory : ScoreCategory;
  strengths : list string;
  improvements : list string;
  nextSteps : list string;
  aiAnalysis : option AIProfileAnalysis;
  detailedRecommendations : option DetailedRecommendations
}.

(** [visaType.maxScoreCap ? Math.min(finalScore, visaType.maxScoreCap)
    : finalScore]. *)
Definition applyCap (finalScore maxScoreCap : Q) : Q :=
  if truthy maxScoreCap then Math_min finalScore maxScoreCap else finalScore.

(** The inline thresholds of [calculateBasicScore], read on the capped
    score before it is rounded. *)
Definition categoryOfCapped (cappedScore : Q) : ScoreCategory :=
  if geb cappedScore 75 then strong_candidate
  else if geb cappedScore 60 then moderate_fit
  else if geb cappedScore 40 then consider_alternatives
  else not_recommended.

(** The category of the oracle path, read on [approvalLikelihood]. *)
Definition categoryOfLikelihood (approvalLikelihood : option string)
  : ScoreCategory :=
  match approvalLikelihood with
  | Some l =>
      if String.eqb l "very_high" || String.eqb l "high" then strong_candidate
      else if String.eqb l "moderate" then moderate_fit
      else if String.eqb l "low" then consider_alternatives
      else not_recommended
  | None => not_recommended
  end.

(** [buildO1AReasoning]: the text is not kept, only the method calls on
    fields of the analysis, each of which throws on a missing field. *)
Fixpoint criteriaPrintable (cs : list O1ACriteriaAnalysis) : Exc unit :=
  match cs with
  | [] => Ok tt
  | c :: r =>
      match defined (evidenceQuality c), defined (evidenceFound c),
            defined (specificGaps c) with
      | Ok _, Ok _, Ok _ => criteriaPrintable r
      | Throw e, _, _ => Throw e
      | _, Throw e, _ => Throw e
      | _, _, Throw e => Throw e
      end
  end.

Definition buildO1AReasoning (analysis : AIProfileAnalysis) : Exc unit :=
  match defined (ai_approvalLikelihood analysis) with
  | Throw e => Throw e
  | Ok _ =>
  match defined (ai_o1aCriteria analysis) with
  | Throw e => Throw e
  | Ok cs =>
  match criteriaPrintable cs with
  | Throw e => Throw e
  | Ok _ =>
  match defined (ai_educationLevel analysis),
        defined (ai_languageProficiency analysis),
        defined (ai_documentQuality analysis) with
  | Ok _, Ok _, Ok _ => Ok tt
  | Throw e, _, _ => Throw e
  | _, Throw e, _ => Throw e
  | _, _, Throw e => Throw e
  end end end end.

(** *** Fallback basic scoring *)

Fixpoint findSpecialization (summary : string) (specs : list string) : string :=
  match specs with
  | [] => "general"
  | spec :: r =>
      if includes summary (toLowerCase spec) then spec
      else findSpecialization summary r
  end.

Definition basicBreakdown (professionalSummary : string)
    (parsedDocuments : list ParsedDocument) (visaType : IVisaType) : Breakdown :=
  let summary := toLowerCase professionalSummary in
  let experience :=
    match matchYears summary with Some n => n | None => 0%N end in
  let education :=
    if includes summary "phd" then "phd"
    else if includes summary "master" then "master"
    else if includes summary "bachelor" then "bachelor"
    else "high_school" in
  let specialization :=
    findSpecialization summary (specializations (eligibilityCriteria visaType)) in
  let languageLevel :=
    match matchCEFR summary with Some l => toLowerCase l | None => "b2" end in
  let c := eligibilityCriteria visaType in
  {| Model.experience :=
       calculateExperienceFromAI (ofN experience) (minExperienceYears c);
     Model.education := calculateEducationFromAI education (minEducationLevel c);
     Model.specialization :=
       calculateSpecializationScore specialization (specializations c);
     Model.language := calculateLanguageScore languageLevel (languageRequirement c);
     Model.documentQuality :=
       if (3 <=? parsedCount parsedDocuments)%nat then 70 else 40 |}.

(** The weighted sum of [calculateBasicScore] read over the real numbers,
    without any rounding. *)
Definition weightedScore (breakdown : Breakdown) (weights : IScoringWeights) : Q :=
  (Model.experience breakdown * w_experience weights / 100) +
  (Model.education breakdown * w_education weights / 100) +
  (Model.specialization breakdown * w_specialization weights / 100) +
  (Model.language breakdown * w_language weights / 100) +
  (Model.documentQuality breakdown * w_documentQuality weights / 100).

(** The same sum as the code runs it, in double precision: each product
    is rounded, then its quotient by 100, then each sum. *)
Definition weightedScore64 (breakdown : Breakdown) (weights : IScoringWeights)
  : Q :=
  let term score weight := Binary64.div (Binary64.mul score weight) 100 in
  Binary64.add
    (Binary64.add
       (Binary64.add
          (Binary64.add
             (term (Model.experience breakdown) (w_experience weights))
             (term (Model.education breakdown) (w_education weights)))
          (term (Model.specialization breakdown) (w_specialization weights)))
       (term (Model.language breakdown) (w_language weights)))
    (term (Model.documentQuality breakdown) (w_documentQuality weights)).

Definition calculateBasicScore (professionalSummary : string)
    (parsedDocuments : list ParsedDocument) (visaType : IVisaType)
  : ScoringResult :=
  let breakdown := basicBreakdown professionalSummary parsedDocuments visaType in
  let weights := scoringWeights visaType in
  let finalScore := weightedScore64 breakdown weights in
  let cappedScore := applyCap finalScore (maxScoreCap visaType) in
  let category := categoryOfCapped cappedScore in
  {| score := Math_round cappedScore;
     scoreBreakdown := breakdown;
     o1aBreakdown := None;
     scoreCategory := category;
     strengths :=
       ["Basic profile extraction - AI analysis recommended for detailed evaluation"];
     improvements := ["Upload detailed documentation for AI-powered analysis"];
     nextSteps := ["Visit official website: " ++ officialLink visaType];
     aiAnalysis := None;
     detailedRecommendations := None |}.

(** *** Oracle backed scoring *)

Section Scoring.
Variable oracle : Oracle.

Definition o1aBreakdownOf (aiAnalysis : AIProfileAnalysis)
    (parsedDocuments : list ParsedDocument) (visaType : IVisaType)
  : Exc (Breakdown * O1AScores) :=
  let c := eligibilityCriteria visaType in
  match defined (ai_fieldOfExpertise aiAnalysis),
        defined (ai_languageProficiency aiAnalysis) with
  | Ok field, Ok level =>
      Ok ({| Model.experience :=
               calculateExperienceFromAI (ai_yearsOfExperience aiAnalysis)
                                         (minExperienceYears c);
             Model.education :=
               calculateEducationFromAI (shown (ai_educationLevel aiAnalysis))
                                        (minEducationLevel c);
             Model.specialization :=
               calculateSpecializationScore field (specializations c);
             Model.language :=
               calculateLanguageScore level (languageRequirement c);
             Model.documentQuality :=
               calculateDocumentQualityFromAI (ai_documentQuality aiAnalysis)
                                              parsedDocuments |},
          {| o1aCriteriaMet := (ai_criteriaMet aiAnalysis / 8) * 100;
             nationalRecognition :=
               if ai_hasNationalInternationalRecognition aiAnalysis
               then 100 else 0;
             originalContributions :=
               if ai_hasOriginalContributions aiAnalysis then 100 else 0 |})
  | Throw e, _ => Throw e
  | _, Throw e => Throw e
  end.

Definition calculateO1AScore (professionalSummary documentContents : string)
    (parsedDocuments : list ParsedDocument) (visaType : IVisaType)
  : M ScoringResult :=
  let c := eligibilityCriteria visaType in
  tryCatch
    (aiAnalysis <- analyzeO1AApplication oracle
        {| q_professionalSummary := professionalSummary;
           q_documentContents := documentContents;
           q_requiredYears := minExperienceYears c;
           q_requiredEducation := minEducationLevel c;
           q_fieldOfWork := join ", " (specializations c) |} ;;
     detailedRecommendations <-
       generatePersonalizedRecommendations oracle aiAnalysis
         (visaName visaType) (shown (ai_fieldOfExpertise aiAnalysis)) ;;
     breakdown <- lift (o1aBreakdownOf aiAnalysis parsedDocuments visaType) ;;
     let finalScore := ai_overallScore aiAnalysis in
     let cappedScore := applyCap finalScore (maxScoreCap visaType) in
     let category := categoryOfLikelihood (ai_approvalLikelihood aiAnalysis) in
     _ <- lift (buildO1AReasoning aiAnalysis) ;;
     weaknesses <- lift (defined (ai_criticalWeaknesses aiAnalysis)) ;;
     ret {| score := Math_round cappedScore;
            scoreBreakdown := fst breakdown;
            o1aBreakdown := Some (snd breakdown);
            scoreCategory := category;
            strengths := ai_strengths aiAnalysis;
            improvements := weaknesses;
            nextSteps := ai_nextSteps aiAnalysis;
            aiAnalysis := Some aiAnalysis;
            detailedRecommendations := Some detailedRecommendations |})
    (fun _ => ret (calculateBasicScore professionalSummary parsedDocuments visaType)).

Definition nl : string := String (ascii_of_N 10) EmptyString.

Definition documentHeader (doc : ParsedDocument) : string :=
  "--- " ++ toUpperCase (documentType doc) ++ ": " ++ fileName doc ++ " ---"
  ++ nl ++ extractedText doc.

(** The local [documentContents] of [calculateScoreWithAI]. *)
Definition documentContents (parsedDocuments : list ParsedDocument) : string :=
  join (nl ++ nl)
    (map documentHeader
       (filter (fun doc => parseSuccess doc && nonEmpty (extractedText doc))
               parsedDocuments)).

Definition isO1 (visaType : IVisaType) : bool :=
  includes (visaName visaType) "O-1A" || includes (visaName visaType) "O-1".

Definition calculateScoreWithAI (professionalSummary : string)
    (parsedDocuments : list ParsedDocument) (visaType : IVisaType)
  : M ScoringResult :=
  if isO1 visaType
  then calculateO1AScore professionalSummary (documentContents parsedDocuments)
                         parsedDocuments visaType
  else ret (calculateBasicScore professionalSummary parsedDocuments visaType).

End Scoring.

(** *** Profile extraction (kept for the callers of the first scorer) *)

Definition extractUserProfile {A : Type} (professionalSummary : string)
    (documents : list A) : UserProfile :=
  let summary := toLowerCase professionalSummary in
  {| p_experience :=
       match matchYears summary with Some n => n | None => 0%N end;
     p_education :=
       if includes summary "phd" then "phd"
       else if includes summary "master" then "master"
       else if includes summary "bachelor" then "bachelor"
       else "high_school";
     p_specialization := V1.firstIncluded summary V1.knownSpecializations;
     p_languageLevel :=
       match matchCEFR summary with Some l => toLowerCase l | None => "b2" end;
     p_documentCount := List.length documents;
     p_hasAllRequiredDocs := (3 <=? List.length documents)%nat |}.

(** An analysis none of whose fields is missing where the scorer calls a
    method on it. *)
Definition criterionComplete (c : O1ACriteriaAnalysis) : bool :=
  match evidenceFound c, evidenceQuality c, specificGaps c with
  | Some _, Some _, Some _ => true
  | _, _, _ => false
  end.

Definition wellFormed (a : AIProfileAnalysis) : bool :=
  match ai_o1aCriteria a, ai_criticalWeaknesses a, ai_fieldOfExpertise a,
        ai_languageProficiency a, ai_approvalLikelihood a,
        ai_educationLevel a, ai_documentQuality a with
  | Some cs, Some _, Some _, Some _, Some _, Some _, Some _ =>
      forallb criterionComplete cs
  | _, _, _, _, _, _, _ => false
  end.

End V2.

(* ------------------------------------------------------------------ *)
(** ** Vocabulary of the statements *)

Module Props.
Import JS Model DocParse.

(** The weighted sum in the words of the scorer's contract: each
    dimension score times its weight over 100. *)
Definition spec_weightedSum (b : Breakdown) (w : IScoringWeights) : Q :=
  experience b * (w_experience w / 100) +
  education b * (w_education w / 100) +
  specialization b * (w_specialization w / 100) +
  language b * (w_language w / 100) +
  documentQuality b * (w_documentQuality w / 100).

(** The final score of the contract: the weighted sum rounded to the
    nearest integer, then capped. *)
Definition spec_finalScore (b : Breakdown) (visaType : IVisaType) : Z :=
  Z.min (Math_round (spec_weightedSum b (scoringWeights visaType)))
        (Qfloor (maxScoreCap visaType)).

(** A final score within the range of a visa type. *)
Definition in_range (score : Z) (visaType : IVisaType) : Prop :=
  0 <= inject_Z score /\ inject_Z score <= maxScoreCap visaType.

Definition breakdown_nonneg (b : Breakdown) : Prop :=
  0 <= experience b /\ 0 <= education b /\ 0 <= specialization b /\
  0 <= language b /\ 0 <= documentQuality b.

(** The five scores of a breakdown lie between 0 and [hi]. *)
Definition scores_within (hi : Q) (b : Breakdown) : Prop :=
  (0 <= experience b /\ experience b <= hi) /\
  (0 <= education b /\ education b <= hi) /\
  (0 <= specialization b /\ specialization b <= hi) /\
  (0 <= language b /\ language b <= hi) /\
  (0 <= documentQuality b /\ documentQuality b <= hi).

(** The distance within which the weighted sum computed in double
    precision stays from the exact one: 2^-40. *)
Definition eps64 : Q := Binary64.pow2 (-40).

(** [x] is farther than [eps] from every half-integer k + 1/2, the points
    where [Math.round] jumps. *)
Definition awayFromHalves (x eps : Q) : Prop :=
  forall k : Z,
    inject_Z k + (1 # 2) <= x - eps \/ x + eps < inject_Z k + (1 # 2).

(** The request that [calculateO1AScore] sends for a submission. *)
Definition requestOf (professionalSummary documentContents : string)
    (visaType : IVisaType) : V2.AnalysisRequest :=
  let c := eligibilityCriteria visaType in
  {| V2.q_professionalSummary := professionalSummary;
     V2.q_documentContents := documentContents;
     V2.q_requiredYears := minExperienceYears c;
     V2.q_requiredEducation := minEducationLevel c;
     V2.q_fieldOfWork := join ", " (specializations c) |}.

(** What the analysis call started as request number [n] ends with, and
    the number of requests sent by then. *)
Definition analysisCall (oracle : V2.Oracle) (request : V2.AnalysisRequest)
    (n : nat) : V2.Completion V2.AIProfileAnalysis * nat :=
  V2.send oracle V2.maxRetries (V2.analysisReply oracle request) n.

(** The analysis call fails: no key is configured, the request is
    rejected for good (service error, timeout), the answer is empty or is
    not JSON, or the parsed answer has no [o1aCriteria] array. *)
Definition analysisFails (oracle : V2.Oracle) (request : V2.AnalysisRequest)
    (n : nat) : Prop :=
  V2.hasApiKey oracle = false \/
  match fst (analysisCall oracle request n) with
  | V2.Json a => V2.ai_o1aCriteria a = None
  | _ => True
  end.

(** The requests sent by the analysis call: none without a key. *)
Definition afterAnalysis (oracle : V2.Oracle) (request : V2.AnalysisRequest)
    (n : nat) : nat :=
  if V2.hasApiKey oracle then snd (analysisCall oracle request n) else n.

(** What the recommendation call started as request number [n] ends
    with. *)
Definition recommendationsCall (oracle : V2.Oracle)
    (a : V2.AIProfileAnalysis) (n : nat)
  : V2.Completion V2.DetailedRecommendations * nat :=
  V2.send oracle V2.maxRetries
    (V2.recommendationsReply oracle a (V2.shown (V2.ai_fieldOfExpertise a))) n.

(** A result that was built from the oracle's analysis [a]. *)
Definition oracleBacked (r : V2.ScoringResult) (a : V2.AIProfileAnalysis)
    (visaType : IVisaType) : Prop :=
  V2.aiAnalysis r = Some a /\
  V2.score r
  = Math_round (V2.applyCap (V2.ai_overallScore a) (maxScoreCap visaType)) /\
  V2.scoreCategory r = V2.categoryOfLikelihood (V2.ai_approvalLikelihood a).

(** The names of [O1A_OFFICIAL_CRITERIA], and the test that an analysis
    lacks the assessment of one of them. *)
Definition officialCriteriaNames : list string :=
  [ "Major Awards or Prizes"; "Membership in Associations";
    "Published Material About You"; "Judging Others' Work";
    "Original Contributions"; "Scholarly Articles";
    "Critical/Essential Capacity"; "High Salary" ].

Definition criterionMissing (a : V2.AIProfileAnalysis) : bool :=
  match V2.ai_o1aCriteria a with
  | None => true
  | Some cs =>
      negb (forallb (fun name =>
                       existsb (fun c => String.eqb (V2.criteriaName c) name) cs)
                    officialCriteriaNames)
  end.

(** Matching relations of the specialization dimension. *)
Definition exactMatch (field : string) (allowed : list string) : Prop :=
  exists spec, In spec allowed /\ toLowerCase field = toLowerCase spec.

Definition allLowerCase (allowed : list string) : Prop :=
  forall spec, In spec allowed -> toLowerCase spec = spec.

(** The extraction of a file with a given extension fails, and the
    message it fails with: for a PDF the read or the PDF library throws,
    for .docx the Word library throws, for .txt the read throws; for .doc
    the Word library throws and so does the read of the raw text, and the
    message is that of the Word library. *)
Inductive extractionFails (env : FileEnv) (filePath : string)
  : string -> string -> Prop :=
| pdf_unreadable e :
    readFileSync env filePath = Throw e ->
    extractionFails env filePath ".pdf"
      ("Failed to parse PDF: " ++ messageOr "Unknown error" e)
| pdf_rejected dataBuffer e :
    readFileSync env filePath = Ok dataBuffer ->
    pdf env dataBuffer = Throw e ->
    extractionFails env filePath ".pdf"
      ("Failed to parse PDF: " ++ messageOr "Unknown error" e)
| docx_rejected e :
    mammoth_extractRawText env filePath = Throw e ->
    extractionFails env filePath ".docx"
      ("Failed to parse DOCX: " ++ messageOr "Unknown error" e)
| doc_rejected_and_unreadable e readError :
    mammoth_extractRawText env filePath = Throw e ->
    readFileSync env filePath = Throw readError ->
    extractionFails env filePath ".doc"
      ("Failed to parse DOC: " ++ messageOr "Unknown error" e)
| txt_unreadable e :
    readFileSync env filePath = Throw e ->
    extractionFails env filePath ".txt"
      (messageOr "Unknown parsing error" e).

End Props.

(* ------------------------------------------------------------------ *)
(** ** Sample data *)

Module Examples.
Import JS Model DocParse.

Definition weights_30_25_20_15_10 : IScoringWeights :=
  {| w_experience := 30; w_education := 25; w_specialization := 20;
     w_language := 15; w_documentQuality := 10 |}.

(** The O-1A entry of [scripts/seedVisaTypes.ts]. *)
Definition o1a : IVisaType :=
  {| visaName := "O-1A Visa";
     eligibilityCriteria :=
       {| minExperienceYears := 5;
          minEducationLevel := "bachelor";
          specializations :=
            ["science"; "education"; "business"; "athletics"; "technology"];
          languageRequirement := "b2" |};
     scoringWeights := weights_30_25_20_15_10;
     maxScoreCap := 85;
     officialLink := "https://www.uscis.gov/working-in-the-united-states/temporary-workers/o-1-visa-individuals-with-extraordinary-ability-or-achievement" |}.

(** The same entry with the lowest cap the schema admits. *)
Definition o1aCapZero : IVisaType :=
  {| visaName := visaName o1a;
     eligibilityCriteria := eligibilityCriteria o1a;
     scoringWeights := scoringWeights o1a;
     maxScoreCap := 0;
     officialLink := officialLink o1a |}.

(** A visa type that names no specialization. *)
Definition anyField : IVisaType :=
  {| visaName := "Working Holiday";
     eligibilityCriteria :=
       {| minExperienceYears := 0;
          minEducationLevel := "high_school";
          specializations := [];
          languageRequirement := "b1" |};
     scoringWeights := weights_30_25_20_15_10;
     maxScoreCap := 78;
     officialLink := EmptyString |}.

(** A visa type whose allowed specialization is stored capitalised. *)
Definition capitalised : IVisaType :=
  {| visaName := "Skilled Worker";
     eligibilityCriteria :=
       {| minExperienceYears := 5;
          minEducationLevel := "bachelor";
          specializations := ["Technology"];
          languageRequirement := "b1" |};
     scoringWeights := weights_30_25_20_15_10;
     maxScoreCap := 85;
     officialLink := EmptyString |}.

(** The Skilled Independent and Express Entry entries of
    [scripts/seedVisaTypes.ts]. *)
Definition skilledIndependent : IVisaType :=
  {| visaName := "Skilled Independent Visa (Subclass 189)";
     eligibilityCriteria :=
       {| minExperienceYears := 3;
          minEducationLevel := "bachelor";
          specializations :=
            ["technology"; "healthcare"; "engineering"; "education"];
          languageRequirement := "b2" |};
     scoringWeights :=
       {| w_experience := 30; w_education := 26; w_specialization := 20;
          w_language := 16; w_documentQuality := 8 |};
     maxScoreCap := 85;
     officialLink := "https://immi.homeaffairs.gov.au/visas/getting-a-visa/visa-listing/skilled-independent-189" |}.

Definition expressEntry : IVisaType :=
  {| visaName := "Express Entry (Federal Skilled Worker)";
     eligibilityCriteria :=
       {| minExperienceYears := 1;
          minEducationLevel := "bachelor";
          specializations :=
            ["technology"; "healthcare"; "engineering"; "skilled_trades"];
          languageRequirement := "b2" |};
     scoringWeights :=
       {| w_experience := 30; w_education := 28; w_specialization := 17;
          w_language := 18; w_documentQuality := 7 |};
     maxScoreCap := 88;
     officialLink := "https://www.canada.ca/en/immigration-refugees-citizenship/services/immigrate-canada/express-entry.html" |}.

(** A profile whose weighted sum for [skilledIndependent] is 59.5 in exact
    arithmetic, and a summary whose weighted sum for [expressEntry] is
    55.5. *)
Definition graduate : UserProfile :=
  {| p_experience := 3;
     p_education := "master";
     p_specialization := "general";
     p_languageLevel := "a1";
     p_documentCount := 3;
     p_hasAllRequiredDocs := true |}.

Definition summary2 : string :=
  "I have 2 years of experience, a Bachelor degree, English B1".

Definition summary8 : string :=
  "I have 8 years of experience, a Master degree in science, English b1".

Definition profile : UserProfile :=
  {| p_experience := 5;
     p_education := "bachelor";
     p_specialization := "technology";
     p_languageLevel := "b2";
     p_documentCount := 0;
     p_hasAllRequiredDocs := false |}.

Definition criterion (name : string) (s : Q) : V2.O1ACriteriaAnalysis :=
  {| V2.criteriaName := name;
     V2.evidenceFound := Some [];
     V2.evidenceQuality := Some "weak";
     V2.c_score := s;
     V2.specificGaps := Some ["no independent evidence"] |}.

Definition allCriteria : list V2.O1ACriteriaAnalysis :=
  map (fun name => criterion name 30) Props.officialCriteriaNames.

(** A well-formed analysis with a given overall score and likelihood. *)
Definition analysis (criteria : list V2.O1ACriteriaAnalysis)
    (overall : Q) (likelihood : string) : V2.AIProfileAnalysis :=
  {| V2.ai_o1aCriteria := Some criteria;
     V2.ai_criteriaMet := 1;
     V2.ai_yearsOfExperience := 12;
     V2.ai_educationLevel := Some "phd";
     V2.ai_fieldOfExpertise := Some "science";
     V2.ai_languageProficiency := Some "c1";
     V2.ai_hasNationalInternationalRecognition := false;
     V2.ai_hasOriginalContributions := true;
     V2.ai_overallScore := overall;
     V2.ai_approvalLikelihood := Some likelihood;
     V2.ai_strengths := ["Doctoral degree"];
     V2.ai_criticalWeaknesses := Some ["No major awards"];
     V2.ai_nextSteps := ["Collect recommendation letters"];
     V2.ai_documentQuality := Some "good" |}.

(** An oracle that always answers with the same analysis, and whose
    recommendation request is rejected. *)
Definition answering (a : V2.AIProfileAnalysis) : V2.Oracle :=
  {| V2.hasApiKey := true;
     V2.analysisReply := fun _ _ => V2.Json a;
     V2.recommendationsReply := fun _ _ _ => V2.Rejected OtherThrown;
     V2.transient := fun _ => false |}.

(** An oracle whose every request times out. *)
Definition timingOut : V2.Oracle :=
  {| V2.hasApiKey := true;
     V2.analysisReply := fun _ _ => V2.Rejected (ErrorObj "Request timed out.");
     V2.recommendationsReply :=
       fun _ _ _ => V2.Rejected (ErrorObj "Request timed out.");
     V2.transient := fun _ => true |}.

(** A file system where every read and every extraction fails. *)
Definition brokenFiles : FileEnv :=
  {| readFileSync := fun _ => Throw (ErrorObj "ENOENT: no such file or directory");
     pdf := fun _ => Throw (ErrorObj "Invalid PDF structure");
     mammoth_extractRawText := fun _ => Throw OtherThrown |}.

Definition upload (name : string) : UploadedFile :=
  {| path := "uploads/" ++ name; originalname := name; fieldname := "resume" |}.

(** The same analysis as [analysis], without its [languageProficiency]. *)
Definition withoutLanguage (criteria : list V2.O1ACriteriaAnalysis)
    (overall : Q) (likelihood : string) : V2.AIProfileAnalysis :=
  {| V2.ai_o1aCriteria := Some criteria;
     V2.ai_criteriaMet := 1;
     V2.ai_yearsOfExperience := 12;
     V2.ai_educationLevel := Some "phd";
     V2.ai_fieldOfExpertise := Some "science";
     V2.ai_languageProficiency := None;
     V2.ai_hasNationalInternationalRecognition := false;
     V2.ai_hasOriginalContributions := true;
     V2.ai_overallScore := overall;
     V2.ai_approvalLikelihood := Some likelihood;
     V2.ai_strengths := ["Doctoral degree"];
     V2.ai_criticalWeaknesses := Some ["No major awards"];
     V2.ai_nextSteps := ["Collect recommendation letters"];
     V2.ai_documentQuality := Some "good" |}.

(** A file system with one legacy Word file that the extraction library
    rejects: its bytes start with a control character. *)
Definition legacyFiles : FileEnv :=
  {| readFileSync := fun _ =>
       Ok (String (ascii_of_N 1) " Curriculum vitae" ++ String (ascii_of_N 0) " ");
     pdf := fun _ => Throw (ErrorObj "Invalid PDF structure");
     mammoth_extractRawText := fun _ =>
       Throw (ErrorObj "Can't find end of central directory") |}.

End Examples.

(* ------------------------------------------------------------------ *)
(** ** Scales shared by the later statements *)

Module Scales.
Import JS Model.

Inductive EducationLevel := HighSchool | Bachelor | Master | PhD.

Definition education_code (l : EducationLevel) : string :=
  match l with
  | HighSchool => "high_school" | Bachelor => "bachelor"
  | Master => "master" | PhD => "phd"
  end.

Definition education_rank (l : EducationLevel) : Z :=
  match l with
  | HighSchool => 0 | Bachelor => 1 | Master => 2 | PhD => 3
  end.

(** The string of a category in a result record. *)
Definition categoryName (c : ScoreCategory) : string :=
  match c with
  | strong_candidate => "strong_candidate"
  | moderate_fit => "moderate_fit"
  | consider_alternatives => "consider_alternatives"
  | not_recommended => "not_recommended"
  end.

(** A breakdown whose five scores lie in 0..100. *)
Definition within_0_100 (x : Q) : Prop := 0 <= x /\ x <= 100.

Definition breakdown_in_range (b : Breakdown) : Prop :=
  within_0_100 (experience b) /\ within_0_100 (education b) /\
  within_0_100 (specialization b) /\ within_0_100 (language b) /\
  within_0_100 (documentQuality b).


End Scales.

(* ------------------------------------------------------------------ *)
(** ** services/pdfService.ts, pdfServiceV2.ts and pdfServiceV3.ts:
       the helpers that turn a score into what is drawn *)

Module Reports.
Import JS Model.

(** [colors[category] || dflt] over the four category keys.  For a name
    inherited from [Object.prototype] the lookup yields a function or an
    object, the same in every table, and no string: [None]. *)
Definition byCategory (strong moderate consider notRecommended dflt : string)
    (category : string) : option string :=
  if String.eqb category "strong_candidate" then Some strong
  else if String.eqb category "moderate_fit" then Some moderate
  else if String.eqb category "consider_alternatives" then Some consider
  else if String.eqb category "not_recommended" then Some notRecommended
  else if inherited category then None
  else Some dflt.

(** pdfService.ts. *)
Module PdfV1.

Definition getScoreColor : string -> option string :=
  byCategory "#10b981" "#3b82f6" "#f59e0b" "#ef4444" "#6b7280".

Definition getCategoryLabel : string -> option string :=
  byCategory "Strong Candidate" "Moderate Fit" "Consider Alternatives"
             "Not Recommended" "Evaluated".

End PdfV1.

Record Rect := {
  rect_x : Q;
  rect_y : Q;
  rect_width : Q;
  rect_height : Q
}.

(** What a score bar puts on the page, and where the cursor is left. *)
Record ScoreBar := {
  labelAt : Q * Q;
  background : Rect;
  filled : Rect;
  barColor : string;
  scoreText : Q * Q;
  cursorAfter : Q
}.

Definition COLORS_success : string := "#10b981".
Definition COLORS_warning : string := "#f59e0b".
Definition COLORS_danger : string := "#ef4444".
Definition COLORS_info : string := "#3b82f6".
Definition COLORS_text_muted : string := "#6b7280".

Definition getBarColor (score : Q) : string :=
  if geb score 80 then COLORS_success
  else if geb score 60 then COLORS_info
  else if geb score 40 then COLORS_warning
  else COLORS_danger.

(** pdfServiceV2.ts. *)
Module PdfV2.

Definition getScoreColor : string -> option string :=
  byCategory "#10b981" "#3b82f6" "#f59e0b" "#ef4444" COLORS_text_muted.

Definition getCategoryLabel : string -> option string :=
  byCategory "STRONG CANDIDATE" "MODERATE FIT" "CONSIDER ALTERNATIVES"
             "NOT RECOMMENDED" "EVALUATED".

Definition getApprovalLikelihood (score : Q) : string :=
  if geb score 75 then "High - Strong application"
  else if geb score 60 then "Moderate - Competitive with improvements"
  else if geb score 40 then "Low - Significant improvements needed"
  else "Very Low - Consider alternative visa options".

(** [drawScoreBar] at the cursor [y]. *)
Definition drawScoreBar (y : Q) (score : Q) : ScoreBar :=
  let barWidth := 300 in
  let barHeight := 18 in
  let x := 80 in
  let fillWidth := (score / 100) * barWidth in
  {| labelAt := (x, y);
     background := {| rect_x := x + 200; rect_y := y;
                      rect_width := barWidth; rect_height := barHeight |};
     filled := {| rect_x := x + 200; rect_y := y;
                  rect_width := fillWidth; rect_height := barHeight |};
     barColor := getBarColor score;
     scoreText := (x + 200 + barWidth + 10, y + 3);
     cursorAfter := y + barHeight + 3 |}.

End PdfV2.

(** pdfServiceV3.ts. *)
Module PdfV3.

Definition getScoreColor : string -> option string :=
  byCategory COLORS_success COLORS_info COLORS_warning COLORS_danger
             COLORS_text_muted.

Definition getCategoryLabel : string -> option string :=
  byCategory "STRONG CANDIDATE" "MODERATE FIT" "CONSIDER ALTERNATIVES"
             "NOT RECOMMENDED" "EVALUATED".

Definition getApprovalLikelihood (score : Q) : string :=
  if geb score 75 then "High Approval Likelihood"
  else if geb score 60 then "Moderate Approval Likelihood"
  else if geb score 40 then "Low Approval Likelihood"
  else "Very Low Approval Likelihood".

(** [drawCompactScoreBar] at the cursor [y]. *)
Definition drawCompactScoreBar (y : Q) (score : Q) : ScoreBar :=
  let barWidth := 250 in
  let barHeight := 14 in
  let x := 70 in
  let barX := x + 180 in
  let fillWidth := (score / 100) * barWidth in
  {| labelAt := (x, y + 2);
     background := {| rect_x := barX; rect_y := y;
                      rect_width := barWidth; rect_height := barHeight |};
     filled := {| rect_x := barX; rect_y := y;
                  rect_width := fillWidth; rect_height := barHeight |};
     barColor := getBarColor score;
     scoreText := (barX + barWidth + 10, y + 2);
     cursorAfter := y + barHeight + 4 |}.

End PdfV3.

(** The filled rectangle lies within the background one. *)
Definition fillInside (b : ScoreBar) : Prop :=
  rect_x (filled b) == rect_x (background b) /\
  rect_y (filled b) == rect_y (background b) /\
  rect_height (filled b) == rect_height (background b) /\
  0 <= rect_width (filled b) /\
  rect_width (filled b) <= rect_width (background b).

End Reports.

(* ------------------------------------------------------------------ *)
(** ** utils/ApiError.ts and middleware/errorHandler.ts *)

Module Http.
Import JS Model.

Record ZodIssue := {
  issue_path : list string;
  issue_message : string
}.

(** The class of a thrown error, as [instanceof] sees it. *)
Inductive ErrorClass :=
| IsZodError (errors : list ZodIssue)
| IsApiError (statusCode : Z) (details : option string) (isOperational : bool)
| IsError.

Record JsError := {
  kind : ErrorClass;
  name : string;
  message : string;
  stack : option string
}.

Section ApiError.
(** The stack trace captured when the error is constructed. *)
Variable trace : option string.

(** [new ApiError(statusCode, message, details = null, isOperational = true)];
    the [name] is the one inherited from [Error]. *)
Definition newApiError (statusCode : Z) (message : string)
    (details : option string) (isOperational : bool) : JsError :=
  {| kind := IsApiError statusCode details isOperational;
     name := "Error";
     message := message;
     stack := trace |}.

(** A parameter with a default value. *)
Definition orDefault (dflt : string) (given : option string) : string :=
  match given with Some m => m | None => dflt end.

Definition badRequest (message : string) (details : option string) : JsError :=
  newApiError 400 message details true.

Definition unauthorized (message details : option string) : JsError :=
  newApiError 401 (orDefault "Unauthorized" message) details true.

Definition forbidden (message details : option string) : JsError :=
  newApiError 403 (orDefault "Forbidden" message) details true.

Definition notFound (message details : option string) : JsError :=
  newApiError 404 (orDefault "Resource not found" message) details true.

Definition unprocessableEntity (message : string) (details : option string)
  : JsError :=
  newApiError 422 message details true.

Definition internal (message details : option string) : JsError :=
  newApiError 500 (orDefault "Internal server error" message) details false.

End ApiError.

Inductive Details :=
| IssueList (fields : list (string * string))
| DetailText (text : string)
| ErrorItself (err : JsError).

Record ErrorBody := {
  e_statusCode : Z;
  e_message : string;
  e_details : option Details;
  e_stack : option string
}.

Record Response := {
  status : Z;
  success : bool;
  error : ErrorBody
}.

(** [x && { details: x }] for a string: absent and empty are falsy. *)
Definition truthyText (x : option string) : option Details :=
  match x with
  | Some t => if nonEmpty t then Some (DetailText t) else None
  | None => None
  end.

Definition envIs (NODE_ENV : option string) (value : string) : bool :=
  match NODE_ENV with Some e => String.eqb e value | None => false end.

Definition errorHandler (NODE_ENV : option string) (err : JsError) : Response :=
  match kind err with
  | IsZodError errors =>
      {| status := 422; success := false;
         error := {| e_statusCode := 422;
                     e_message := "Validation failed";
                     e_details :=
                       Some (IssueList
                               (map (fun e => (join "." (issue_path e),
                                               issue_message e)) errors));
                     e_stack := None |} |}
  | _ =>
  if String.eqb (name err) "ValidationError" then
    {| status := 422; success := false;
       error := {| e_statusCode := 422;
                   e_message := "Validation failed";
                   e_details := Some (DetailText (message err));
                   e_stack := None |} |}
  else if String.eqb (name err) "CastError" then
    {| status := 400; success := false;
       error := {| e_statusCode := 400;
                   e_message := "Invalid ID format";
                   e_details := Some (DetailText (message err));
                   e_stack := None |} |}
  else if String.eqb (name err) "MulterError" then
    let message :=
      if String.eqb (message err) "File too large"
      then "File size exceeds maximum limit (10MB)"
      else message err in
    {| status := 400; success := false;
       error := {| e_statusCode := 400;
                   e_message := "File upload error";
                   e_details := Some (DetailText message);
                   e_stack := None |} |}
  else
    match kind err with
    | IsApiError statusCode details _ =>
        {| status := statusCode; success := false;
           error := {| e_statusCode := statusCode;
                       e_message := message err;
                       e_details := truthyText details;
                       e_stack :=
                         if envIs NODE_ENV "development" then stack err
                         else None |} |}
    | _ =>
        let statusCode := 500%Z in
        let message :=
          if envIs NODE_ENV "production" then "Internal server error"
          else message err in
        {| status := statusCode; success := false;
           error := {| e_statusCode := statusCode;
                       e_message := message;
                       e_details :=
                         if envIs NODE_ENV "development"
                         then Some (ErrorItself err) else None;
                       e_stack :=
                         if envIs NODE_ENV "development" then stack err
                         else None |} |}
    end
  end.

End Http.

(* ------------------------------------------------------------------ *)
(** ** middleware/validateApiKey.ts *)

Module Auth.
Import JS Model Http.

Record Partner := {
  partnerId : string;
  isActive : bool;
  allowedOrigins : option (list string)
}.

(** The parts of a request the middleware reads and writes. *)
Record Request := {
  header_x_api_key : option string;
  header_origin : option string;
  partner : option Partner
}.

(** How the middleware hands over: [next()] or [next(error)]. *)
Inductive Handover :=
| Next (req : Request)
| NextError (e : JsError).

(** A header that is present and not empty. *)
Definition given (h : option string) : option string :=
  match h with
  | Some v => if nonEmpty v then Some v else None
  | None => None
  end.

Section Middleware.
Variable trace : option string.
(** [hashApiKey] (an HMAC) and [Partner.findOne({ apiKey })], which may
    throw. *)
Variable hashApiKey : string -> string.
Variable findOne : string -> JsError + option Partner.

Definition attach (req : Request) (p : Partner) : Request :=
  {| header_x_api_key := header_x_api_key req;
     header_origin := header_origin req;
     partner := Some p |}.

(** The lookup both middlewares share: hash, find, reject the unknown and
    the inactive partner. *)
Definition activePartner (apiKey : string) : JsError + Partner :=
  match findOne (hashApiKey apiKey) with
  | inl e => inl e
  | inr None => inl (unauthorized trace (Some "Invalid API key") None)
  | inr (Some p) =>
      if isActive p then inr p
      else inl (forbidden trace (Some "Partner account is inactive") None)
  end.

Definition originRejected (p : Partner) (origin : option string) : bool :=
  match allowedOrigins p, given origin with
  | Some (o :: os), Some origin => negb (arrIncludes (o :: os) origin)
  | _, _ => false
  end.

Definition validateApiKey (req : Request) : Handover :=
  match given (header_x_api_key req) with
  | None => Next req
  | Some apiKey =>
      match activePartner apiKey with
      | inl e => NextError e
      | inr p =>
          if originRejected p (header_origin req) then
            NextError (forbidden trace
                         (Some "Origin not allowed for this API key") None)
          else Next (attach req p)
      end
  end.

Definition requireApiKey (req : Request) : Handover :=
  match given (header_x_api_key req) with
  | None => NextError (unauthorized trace (Some "API key is required") None)
  | Some apiKey =>
      match activePartner apiKey with
      | inl e => NextError e
      | inr p => Next (attach req p)
      end
  end.

(** The first statement of the partner controllers. *)
Definition partnerGuard (req : Request) : JsError + Partner :=
  match partner req with
  | None =>
      inl (unauthorized trace (Some "Partner authentication required") None)
  | Some p => inr p
  end.

End Middleware.

End Auth.

(* ------------------------------------------------------------------ *)
(** ** controllers/visaController.ts: the catalogue of countries *)

Module Catalog.
Import JS Model.

Record RequiredDocument := {
  documentType : string;
  isRequired : bool;
  rd_description : string
}.

(** A stored visa type: the scoring data and the catalogue fields. *)
Record VisaDocument := {
  countryCode : string;
  countryName : string;
  visaTypeId : string;
  description : string;
  requiredDocuments : list RequiredDocument;
  scoring : IVisaType;
  processingTimeWeeks : Q;
  successRatePercent : option Q
}.

Record VisaSummary := {
  s_visaTypeId : string;
  s_visaName : string;
  s_description : string;
  s_requiredDocuments : list RequiredDocument;
  s_minExperienceYears : Q;
  s_minEducationLevel : string;
  s_maxScoreCap : Q;
  s_processingTimeWeeks : Q;
  s_successRatePercent : option Q
}.

Record Country := {
  c_countryCode : string;
  c_countryName : string;
  c_visaTypes : list VisaSummary
}.

Definition summarize (visa : VisaDocument) : VisaSummary :=
  {| s_visaTypeId := visaTypeId visa;
     s_visaName := visaName (scoring visa);
     s_description := description visa;
     s_requiredDocuments := requiredDocuments visa;
     s_minExperienceYears :=
       minExperienceYears (eligibilityCriteria (scoring visa));
     s_minEducationLevel :=
       minEducationLevel (eligibilityCriteria (scoring visa));
     s_maxScoreCap := maxScoreCap (scoring visa);
     s_processingTimeWeeks := processingTimeWeeks visa;
     s_successRatePercent := successRatePercent visa |}.

(** A [Map] keyed by strings: the entries in insertion order. *)
Definition CountriesMap : Type := list (string * Country).

Fixpoint has (m : CountriesMap) (key : string) : bool :=
  match m with
  | [] => false
  | (k, _) :: r => String.eqb k key || has r key
  end.

(** [m.set(key, value)]: a new key goes last, a known key keeps its place. *)
Fixpoint set (m : CountriesMap) (key : string) (value : Country) : CountriesMap :=
  match m with
  | [] => [(key, value)]
  | (k, v) :: r =>
      if String.eqb k key then (k, value) :: r else (k, v) :: set r key value
  end.

(** [m.get(key).visaTypes.push(summary)]: the object held by the map is
    the one that is changed. *)
Fixpoint pushVisa (m : CountriesMap) (key : string) (summary : VisaSummary)
  : CountriesMap :=
  match m with
  | [] => []
  | (k, v) :: r =>
      if String.eqb k key then
        (k, {| c_countryCode := c_countryCode v;
               c_countryName := c_countryName v;
               c_visaTypes := c_visaTypes v ++ [summary] |}) :: r
      else (k, v) :: pushVisa r key summary
  end.

(** The body of [visaTypes.forEach]. *)
Definition addVisa (countriesMap : CountriesMap) (visa : VisaDocument)
  : CountriesMap :=
  let m :=
    if has countriesMap (countryCode visa) then countriesMap
    else set countriesMap (countryCode visa)
           {| c_countryCode := countryCode visa;
              c_countryName := countryName visa;
              c_visaTypes := [] |} in
  pushVisa m (countryCode visa) (summarize visa).

(** [getAllCountries] on the visa types that the query returned: the
    [data] of the response. *)
Definition getAllCountries (visaTypes : list VisaDocument) : list Country :=
  map snd (fold_left addVisa visaTypes []).

Definition ofCountry (code : string) (visa : VisaDocument) : bool :=
  String.eqb (countryCode visa) code.

(** The country codes of a list of visa types, each at its first
    occurrence. *)
Fixpoint firstCodes (seen : list string) (visaTypes : list VisaDocument)
  : list string :=
  match visaTypes with
  | [] => []
  | v :: r =>
      if arrIncludes seen (countryCode v) then firstCodes seen r
      else countryCode v :: firstCodes (countryCode v :: seen) r
  end.

(** The group of one country code, in the words of the response: the name
    of the first visa type stored under the code, and the summaries of all
    of them in the order of the query. *)
Definition nameOf (code : string) (visaTypes : list VisaDocument) : string :=
  match find (ofCountry code) visaTypes with
  | Some v => countryName v
  | None => EmptyString
  end.

Definition groupOf (visaTypes : list VisaDocument) (code : string) : Country :=
  {| c_countryCode := code;
     c_countryName := nameOf code visaTypes;
     c_visaTypes := map summarize (filter (ofCountry code) visaTypes) |}.

(** An entry of the map after further visa types were added: those of its
    code are appended to its list. *)
Definition withVisas (visaTypes : list VisaDocument) (entry : string * Country)
  : string * Country :=
  (fst entry,
   {| c_countryCode := c_countryCode (snd entry);
      c_countryName := c_countryName (snd entry);
      c_visaTypes :=
        c_visaTypes (snd entry)
        ++ map summarize (filter (ofCountry (fst entry)) visaTypes) |}).

End Catalog.

(* ------------------------------------------------------------------ *)
(** ** The web client: utils/api.ts, context/EvaluationContext.tsx and the
       evaluation wizard *)

Module Frontend.
Import JS Model.

(** *** utils/api.ts *)

(** [mapping[category] || 'moderate']. *)
Definition mapScoreCategory (category : string) : string :=
  if String.eqb category "strong_candidate" then "strong"
  else if String.eqb category "moderate_fit" then "moderate"
  else if String.eqb category "consider_alternatives" then "consider"
  else if String.eqb category "not_recommended" then "consider"
  else "moderate".

(** [s.split(sep)] for a one-character separator. *)
Fixpoint splitChar (sep : ascii) (s : string) : list string :=
  match s with
  | EmptyString => [EmptyString]
  | String c r =>
      if Ascii.eqb c sep then EmptyString :: splitChar sep r
      else match splitChar sep r with
           | w :: ws => String c w :: ws
           | [] => [String c EmptyString]
           end
  end.

(** [w.charAt(0).toUpperCase() + w.slice(1)]. *)
Definition capitalize (w : string) : string :=
  match w with
  | EmptyString => EmptyString
  | String c r => String (upperChar c) r
  end.

(** The display name that [mapBackendCountries] gives a document type. *)
Definition documentName (documentType : string) : string :=
  join " " (map capitalize (splitChar "_" documentType)).

(** [s.replaceAll(from, to)] for characters. *)
Fixpoint replaceChar (from to : ascii) (s : string) : string :=
  match s with
  | EmptyString => EmptyString
  | String c r =>
      String (if Ascii.eqb c from then to else c) (replaceChar from to r)
  end.

(** *** components/Results/ScoreDisplay.tsx *)

Definition getColor (score : Q) : string :=
  if geb score 75 then "text-green-500"
  else if geb score 50 then "text-orange-500"
  else "text-red-500".

(** *** components/EvaluationWizard/Step3Documents.tsx: the upload widget *)

Definition acceptedExtensions : list string :=
  [".pdf"; ".doc"; ".docx"; ".jpg"; ".jpeg"; ".png"].

(** *** context/EvaluationContext.tsx *)

Record PersonalInfo := {
  firstName : string;
  lastName : string;
  email : string;
  phone : string;
  currentLocation : string;
  professionalSummary : string
}.

Record UploadedFile := {
  id : string;
  documentId : string;
  file : string;
  uploadProgress : Z;
  uploaded : bool
}.

Record EvaluationState := {
  personalInfo : PersonalInfo;
  targetCountry : string;
  visaType : string;
  uploadedDocuments : list UploadedFile;
  currentStep : Z;
  loading : bool;
  error : option string;
  evaluationId : option string
}.

Definition initialState : EvaluationState :=
  {| personalInfo :=
       {| firstName := EmptyString; lastName := EmptyString;
          email := EmptyString; phone := EmptyString;
          currentLocation := EmptyString;
          professionalSummary := EmptyString |};
     targetCountry := EmptyString;
     visaType := EmptyString;
     uploadedDocuments := [];
     currentStep := 1;
     loading := false;
     error := None;
     evaluationId := None |}.

Definition updatePersonalInfo (prev : EvaluationState) (data : PersonalInfo)
  : EvaluationState :=
  {| personalInfo := data;
     targetCountry := targetCountry prev;
     visaType := visaType prev;
     uploadedDocuments := uploadedDocuments prev;
     currentStep := currentStep prev;
     loading := loading prev;
     error := error prev;
     evaluationId := evaluationId prev |}.

Definition selectCountryAndVisa (prev : EvaluationState)
    (country visa : string) : EvaluationState :=
  {| personalInfo := personalInfo prev;
     targetCountry := country;
     visaType := visa;
     uploadedDocuments := uploadedDocuments prev;
     currentStep := currentStep prev;
     loading := loading prev;
     error := error prev;
     evaluationId := evaluationId prev |}.

Definition setDocuments (prev : EvaluationState) (docs : list UploadedFile)
  : EvaluationState :=
  {| personalInfo := personalInfo prev;
     targetCountry := targetCountry prev;
     visaType := visaType prev;
     uploadedDocuments := docs;
     currentStep := currentStep prev;
     loading := loading prev;
     error := error prev;
     evaluationId := evaluationId prev |}.

(** [addDocument]; [newId] is the random identifier it draws. *)
Definition addDocument (newId : string) (prev : EvaluationState)
    (documentId file : string) : EvaluationState :=
  setDocuments prev
    (uploadedDocuments prev
     ++ [ {| id := newId; documentId := documentId; file := file;
             uploadProgress := 100; uploaded := true |} ]).

Definition removeDocument (prev : EvaluationState) (id0 : string)
  : EvaluationState :=
  setDocuments prev
    (filter (fun doc => negb (String.eqb (id doc) id0))
            (uploadedDocuments prev)).

Definition setCurrentStep (prev : EvaluationState) (step : Z)
  : EvaluationState :=
  {| personalInfo := personalInfo prev;
     targetCountry := targetCountry prev;
     visaType := visaType prev;
     uploadedDocuments := uploadedDocuments prev;
     currentStep := step;
     loading := loading prev;
     error := error prev;
     evaluationId := evaluationId prev |}.

Definition setLoading (prev : EvaluationState) (loading0 : bool)
  : EvaluationState :=
  {| personalInfo := personalInfo prev;
     targetCountry := targetCountry prev;
     visaType := visaType prev;
     uploadedDocuments := uploadedDocuments prev;
     currentStep := currentStep prev;
     loading := loading0;
     error := error prev;
     evaluationId := evaluationId prev |}.

Definition setEvaluationId (prev : EvaluationState) (id0 : string)
  : EvaluationState :=
  {| personalInfo := personalInfo prev;
     targetCountry := targetCountry prev;
     visaType := visaType prev;
     uploadedDocuments := uploadedDocuments prev;
     currentStep := currentStep prev;
     loading := loading prev;
     error := error prev;
     evaluationId := Some id0 |}.

Definition resetForm (prev : EvaluationState) : EvaluationState :=
  initialState.

(** *** components/EvaluationWizard *)

Definition handleNext (state : EvaluationState) : EvaluationState :=
  setCurrentStep state (currentStep state + 1).

Definition handleBack (state : EvaluationState) : EvaluationState :=
  setCurrentStep state (currentStep state - 1).

Definition handleEdit (state : EvaluationState) (step : Z) : EvaluationState :=
  setCurrentStep state step.

(** [state.uploadedDocuments.find(doc => doc.documentId === documentId)]. *)
Definition getUploadedDoc (state : EvaluationState) (documentId0 : string)
  : option UploadedFile :=
  find (fun doc => String.eqb (documentId doc) documentId0)
       (uploadedDocuments state).

Definition isDocumentUploaded (state : EvaluationState) (documentId0 : string)
  : bool :=
  existsb (fun doc => String.eqb (documentId doc) documentId0)
          (uploadedDocuments state).

(** A required document as the client holds it: its id and the flag. *)
Definition allRequiredDocsUploaded (state : EvaluationState)
    (requiredDocs : list (string * bool)) : bool :=
  forallb (fun doc => isDocumentUploaded state (fst doc))
          (filter snd requiredDocs).

(** What the user can do.  Each action belongs to the step component that
    [WizardContainer] renders for the current step. *)
Inductive Action :=
| SubmitPersonal (data : PersonalInfo)
| ChooseCountryAndVisa (countryCode visaId : string)
| Upload (documentId file newId : string)
| Remove (documentId : string)
| Continue (requiredDocs : list (string * bool))
| Back
| EditPersonal
| EditCountryAndVisa
| EditDocuments
| StartSubmit
| FinishSubmit (response : option string).

(** The state after an action, or [None] when the current step offers no
    such control or the control is disabled. *)
Definition act (state : EvaluationState) (a : Action) : option EvaluationState :=
  match a with
  | SubmitPersonal data =>
      if (currentStep state =? 1)%Z
      then Some (handleNext (updatePersonalInfo state data))
      else None
  | ChooseCountryAndVisa countryCode visaId =>
      if (currentStep state =? 2)%Z
         && nonEmpty countryCode && nonEmpty visaId
      then Some (handleNext (selectCountryAndVisa state countryCode visaId))
      else None
  | Upload documentId0 file0 newId =>
      if (currentStep state =? 3)%Z then
        match getUploadedDoc state documentId0 with
        | None => Some (addDocument newId state documentId0 file0)
        | Some _ => None
        end
      else None
  | Remove documentId0 =>
      if (currentStep state =? 3)%Z then
        match getUploadedDoc state documentId0 with
        | Some uploaded0 => Some (removeDocument state (id uploaded0))
        | None => Some state
        end
      else None
  | Continue requiredDocs =>
      if (currentStep state =? 3)%Z
         && allRequiredDocsUploaded state requiredDocs
      then Some (handleNext state)
      else None
  | Back =>
      if (2 <=? currentStep state)%Z && (currentStep state <=? 4)%Z
      then Some (handleBack state)
      else None
  | EditPersonal =>
      if (currentStep state =? 4)%Z then Some (handleEdit state 1) else None
  | EditCountryAndVisa =>
      if (currentStep state =? 4)%Z then Some (handleEdit state 2) else None
  | EditDocuments =>
      if (currentStep state =? 4)%Z then Some (handleEdit state 3) else None
  | StartSubmit =>
      if (currentStep state =? 4)%Z then Some (setLoading state true) else None
  | FinishSubmit response =>
      if (currentStep state =? 4)%Z then
        Some (setLoading
                (match response with
                 | Some evaluationId0 => setEvaluationId state evaluationId0
                 | None => state
                 end) false)
      else None
  end.

(** The states a session can be in. *)
Inductive reachable : EvaluationState -> Prop :=
| reach_initial : reachable initialState
| reach_act : forall state a state',
    reachable state -> act state a = Some state' -> reachable state'.

End Frontend.

(* ------------------------------------------------------------------ *)
(** ** Sample partners and requests *)

Module Samples.
Import JS Model Http Auth.

Definition acme : Partner :=
  {| partnerId := "acme";
     isActive := true;
     allowedOrigins := Some ["https://acme.example"] |}.

Definition dormant : Partner :=
  {| partnerId := "dormant"; isActive := false; allowedOrigins := None |}.

Definition hash (apiKey : string) : string := "hmac:" ++ apiKey.

Definition directory (hashedKey : string) : JsError + option Partner :=
  if String.eqb hashedKey "hmac:vsk_acme" then inr (Some acme)
  else if String.eqb hashedKey "hmac:vsk_dormant" then inr (Some dormant)
  else inr None.

Definition request (apiKey origin : option string) : Request :=
  {| header_x_api_key := apiKey; header_origin := origin; partner := None |}.

End Samples.

(* ------------------------------------------------------------------ *)
(** ** Numbers *)

Section Numbers.
Import JS Model Props.
Lemma Math_round_comp (x y : Q) : x == y -> Math_round x = Math_round y.
Proof. intros H. unfold Math_round. now rewrite H. Qed.

Lemma Math_round_ofZ (z : Z) : Math_round (inject_Z z) = z.
Proof.
  unfold Math_round.
  apply Z.le_antisymm.
  - assert (H : inject_Z z + (1 # 2) < inject_Z (z + 1)).
    { rewrite inject_Z_plus. change (inject_Z 1) with 1. lra. }
    assert (H2 := Qfloor_le (inject_Z z + (1 # 2))).
    assert (H3 : inject_Z (Qfloor (inject_Z z + (1 # 2))) < inject_Z (z + 1)) by lra.
    rewrite <- Zlt_Qlt in H3. lia.
  - rewrite <- (Qfloor_Z z) at 1. apply Qfloor_resp_le. lra.
Qed.

Lemma Math_round_mono (x y : Q) : x <= y -> (Math_round x <= Math_round y)%Z.
Proof. intros H. apply Qfloor_resp_le. lra. Qed.

Lemma Math_round_nonneg (x : Q) : 0 <= x -> (0 <= Math_round x)%Z.
Proof.
  intros H. change 0%Z with (Math_round (inject_Z 0)) at 1.
  apply Math_round_mono. exact H.
Qed.

Lemma ltb_true_iff x y : ltb x y = true <-> x < y.
Proof.
  unfold ltb. rewrite negb_true_iff.
  destruct (Qle_bool y x) eqn:E.
  - apply Qle_bool_iff in E. split; [discriminate | lra].
  - split; [intros _ | reflexivity].
    apply Qnot_le_lt. intros H. apply Qle_bool_iff in H. congruence.
Qed.

Lemma ltb_false_iff x y : ltb x y = false <-> y <= x.
Proof.
  unfold ltb. rewrite negb_false_iff. apply Qle_bool_iff.
Qed.

Lemma geb_true_iff x y : geb x y = true <-> y <= x.
Proof. apply Qle_bool_iff. Qed.

Lemma geb_false_iff x y : geb x y = false <-> x < y.
Proof.
  unfold geb. destruct (Qle_bool y x) eqn:E.
  - apply Qle_bool_iff in E. split; [discriminate | lra].
  - split; [intros _ | reflexivity].
    apply Qnot_le_lt. intros H. apply Qle_bool_iff in H. congruence.
Qed.

Lemma Qdiv_nonneg (x y : Q) : 0 <= x -> 0 <= y -> 0 <= x / y.
Proof.
  intros Hx Hy. unfold Qdiv. apply Qmult_le_0_compat; [exact Hx |].
  apply Qinv_le_0_compat. exact Hy.
Qed.

Lemma ofZ_nonneg z : (0 <= z)%Z -> 0 <= ofZ z.
Proof. intros H. unfold ofZ. change 0 with (inject_Z 0). now rewrite <- Zle_Qle. Qed.

Lemma ofN_nonneg n : 0 <= ofN n.
Proof. apply ofZ_nonneg. lia. Qed.

(** Rounding a number capped at an integer cap. *)
Lemma round_capped_bounds x c :
  valid_cap c -> 0 <= x ->
  0 <= inject_Z (Math_round (Math_min x c)) /\ inject_Z (Math_round (Math_min x c)) <= c.
Proof.
  intros (Hi & H0 & H100) Hx. split.
  - apply ofZ_nonneg, Math_round_nonneg. unfold Math_min.
    apply Q.min_glb; assumption.
  - rewrite <- Hi at 2. rewrite <- Zle_Qle.
    rewrite <- (Math_round_ofZ (Qfloor c)).
    apply Math_round_mono. rewrite Hi. apply Q.le_min_r.
Qed.

Lemma round_min_swap x c :
  inject_Z (Qfloor c) == c ->
  Math_round (Math_min x c) = Z.min (Math_round x) (Qfloor c).
Proof.
  intros Hi. unfold Math_min.
  destruct (Qlt_le_dec c x) as [H | H].
  - rewrite (Math_round_comp (Qmin x c) (inject_Z (Qfloor c))).
    + rewrite Math_round_ofZ. symmetry. apply Z.min_r.
      rewrite <- (Math_round_ofZ (Qfloor c)) at 1.
      apply Math_round_mono. lra.
    + rewrite Q.min_r by lra. now symmetry.
  - rewrite (Math_round_comp (Qmin x c) x) by (apply Q.min_l; exact H).
    symmetry. apply Z.min_l.
    rewrite <- (Math_round_ofZ (Qfloor c)).
    apply Math_round_mono. lra.
Qed.

End Numbers.

(* ------------------------------------------------------------------ *)
(** ** Double precision: the error of the weighted sums *)

Section Doubles.
Import JS Model Props.

Lemma pow2_pos e : 0 < Binary64.pow2 e.
Proof. apply Qpower_0_lt. reflexivity. Qed.

Lemma pow2_le a b : (a <= b)%Z -> Binary64.pow2 a <= Binary64.pow2 b.
Proof. intros H. apply Qpower_le_compat_l; [exact H | discriminate]. Qed.

Lemma pow2_Z n : (0 <= n)%Z -> Binary64.pow2 n == inject_Z (2 ^ n).
Proof. intros H. unfold Binary64.pow2. now rewrite Zpower_Qpower. Qed.

Lemma pow2_succ e : Binary64.pow2 (e + 1) == 2 * Binary64.pow2 e.
Proof. unfold Binary64.pow2. rewrite Qpower_plus by discriminate. ring. Qed.

Lemma Qdiv_le_cross a b p d :
  0 <= a -> a <= p -> 0 < d -> d <= b -> a / b <= p / d.
Proof.
  intros Ha Hap Hd Hdb.
  apply Qle_shift_div_l; [exact Hd |].
  assert (E : a / b * d == a * d / b) by (field; lra).
  rewrite E. apply Qle_shift_div_r; [lra |]. nra.
Qed.

(** [ilog2] never exceeds the binary logarithm. *)
Lemma ilog2_le x : 0 < x -> Binary64.pow2 (Binary64.ilog2 x) <= x.
Proof.
  intros Hx. unfold Binary64.ilog2. cbv zeta.
  destruct (Qle_bool _ x) eqn:E; [now apply Qle_bool_iff |].
  destruct x as [p d]. cbn [Qnum Qden].
  assert (Hp : (0 < p)%Z).
  { unfold Qlt in Hx. cbn in Hx. lia. }
  set (lp := Z.log2 p). set (ld := Z.log2 (Z.pos d)).
  assert (Hlp := Z.log2_spec p Hp). assert (Hld := Z.log2_spec (Z.pos d) eq_refl).
  fold lp in Hlp. fold ld in Hld.
  assert (Hlp0 : (0 <= lp)%Z) by apply Z.log2_nonneg.
  assert (Hld0 : (0 <= ld)%Z) by apply Z.log2_nonneg.
  replace (lp - ld - 1)%Z with (lp - (ld + 1))%Z by lia.
  unfold Binary64.pow2. rewrite Qpower_minus by discriminate.
  fold (Binary64.pow2 lp). fold (Binary64.pow2 (ld + 1)).
  rewrite (pow2_Z lp), (pow2_Z (ld + 1)) by lia.
  rewrite (Qmake_Qdiv p d).
  assert (A : inject_Z (2 ^ lp) <= inject_Z p) by (rewrite <- Zle_Qle; lia).
  assert (B : inject_Z (Z.pos d) <= inject_Z (2 ^ (ld + 1)))
    by (rewrite <- Zle_Qle; rewrite <- Z.add_1_r in Hld; lia).
  assert (D : 0 < inject_Z (Z.pos d)) by reflexivity.
  assert (P : 0 <= inject_Z (2 ^ lp)).
  { change 0 with (inject_Z 0). rewrite <- Zle_Qle. apply Z.pow_nonneg. lia. }
  apply Qdiv_le_cross; lra.
Qed.

(** It falls short of it by less than one: [ilog2] is the integer part
    of the binary logarithm. *)
Lemma ilog2_lt x : 0 < x -> x < Binary64.pow2 (Binary64.ilog2 x + 1).
Proof.
  intros Hx. unfold Binary64.ilog2. cbv zeta.
  destruct (Qle_bool _ x) eqn:E.
  - destruct x as [p d]. cbn [Qnum Qden] in *.
    assert (Hp : (0 < p)%Z).
    { unfold Qlt in Hx. cbn in Hx. lia. }
    set (lp := Z.log2 p). set (ld := Z.log2 (Z.pos d)).
    assert (Hlp := Z.log2_spec p Hp). assert (Hld := Z.log2_spec (Z.pos d) eq_refl).
    fold lp in Hlp. fold ld in Hld.
    assert (Hlp0 : (0 <= lp)%Z) by apply Z.log2_nonneg.
    assert (Hld0 : (0 <= ld)%Z) by apply Z.log2_nonneg.
    replace (lp - ld + 1)%Z with (lp + 1 - ld)%Z by lia.
    unfold Binary64.pow2. rewrite Qpower_minus by discriminate.
    fold (Binary64.pow2 (lp + 1)). fold (Binary64.pow2 ld).
    rewrite (pow2_Z (lp + 1)), (pow2_Z ld) by lia.
    rewrite (Qmake_Qdiv p d).
    assert (A : inject_Z p < inject_Z (2 ^ (lp + 1)))
      by (rewrite <- Zlt_Qlt; rewrite <- Z.add_1_r in Hlp; lia).
    assert (B : inject_Z (2 ^ ld) <= inject_Z (Z.pos d))
      by (rewrite <- Zle_Qle; lia).
    assert (D : 0 < inject_Z (2 ^ ld)).
    { change 0 with (inject_Z 0). rewrite <- Zlt_Qlt. apply Z.pow_pos_nonneg; lia. }
    assert (P : 0 < inject_Z p) by (change 0 with (inject_Z 0); now rewrite <- Zlt_Qlt).
    apply Qlt_shift_div_l; [lra |].
    assert (D' : 0 < inject_Z (Z.pos d)) by reflexivity.
    assert (T : inject_Z p / inject_Z (Z.pos d) * inject_Z (Z.pos d)
                == inject_Z p) by (field; lra).
    assert (T0 : 0 < inject_Z p / inject_Z (Z.pos d))
      by (apply Qlt_shift_div_l; lra).
    set (t := inject_Z p / inject_Z (Z.pos d)) in *.
    assert (M : t * inject_Z (2 ^ ld) <= t * inject_Z (Z.pos d))
      by (apply Qmult_le_l; assumption).
    lra.
  - replace (Z.log2 (Qnum x) - Z.log2 (Z.pos (Qden x)) - 1 + 1)%Z
      with (Z.log2 (Qnum x) - Z.log2 (Z.pos (Qden x)))%Z by lia.
    apply Qnot_le_lt. intros H. apply Qle_bool_iff in H. congruence.
Qed.

Lemma roundEven_error m :
  - (1 # 2) <= inject_Z (Binary64.roundEven m) - m /\
  inject_Z (Binary64.roundEven m) - m <= 1 # 2.
Proof.
  unfold Binary64.roundEven. cbv zeta.
  pose proof (Qfloor_le m) as Hl. pose proof (Qlt_floor m) as Hu.
  rewrite inject_Z_plus in Hu. change (inject_Z 1) with 1 in Hu.
  destruct (Qcompare_spec (m - inject_Z (Qfloor m)) (1 # 2)) as [E | E | E].
  - destruct (Z.even (Qfloor m));
      [| rewrite inject_Z_plus; change (inject_Z 1) with 1]; lra.
  - lra.
  - rewrite inject_Z_plus; change (inject_Z 1) with 1. lra.
Qed.

Lemma Qabs_bounds x b :
  - b <= x -> x <= b -> ~ x == 0 -> 0 < Qabs x /\ Qabs x <= b.
Proof.
  intros Hl Hu Hx. apply Qabs_case; intros H; split; lra.
Qed.

Lemma quantum_le x K :
  (-1022 <= K)%Z -> - Binary64.pow2 K <= x -> x <= Binary64.pow2 K -> ~ x == 0 ->
  (Binary64.quantum x <= K - 52)%Z.
Proof.
  intros HK Hl Hu Hx. unfold Binary64.quantum.
  destruct (Qabs_bounds x (Binary64.pow2 K) Hl Hu Hx) as [Ha Hb].
  assert (H := ilog2_le (Qabs x) Ha).
  assert (L : (Binary64.ilog2 (Qabs x) <= K)%Z).
  { apply (Qpower_le_compat_l_inv 2); [| reflexivity].
    fold (Binary64.pow2 (Binary64.ilog2 (Qabs x))). fold (Binary64.pow2 K). lra. }
  lia.
Qed.

(** The error of one rounding: half a unit in the last place of the
    binade that holds the exact result. *)
Lemma round_error x K :
  (-1022 <= K)%Z -> - Binary64.pow2 K <= x -> x <= Binary64.pow2 K ->
  - Binary64.pow2 (K - 53) <= Binary64.round x - x /\
  Binary64.round x - x <= Binary64.pow2 (K - 53).
Proof.
  intros HK Hl Hu. assert (P := pow2_pos (K - 53)). unfold Binary64.round.
  destruct (Qeq_bool x 0) eqn:E.
  - apply Qeq_bool_iff in E. lra.
  - assert (Hx : ~ x == 0).
    { intros H. apply Qeq_bool_iff in H. congruence. }
    assert (Hq := quantum_le x K HK Hl Hu Hx).
    set (q := Binary64.quantum x) in *.
    assert (Hp := pow2_pos q).
    assert (Hle := pow2_le q (K - 52) Hq).
    assert (E2 : Binary64.pow2 (K - 52) == 2 * Binary64.pow2 (K - 53)).
    { replace (K - 52)%Z with (K - 53 + 1)%Z by lia. apply pow2_succ. }
    destruct (roundEven_error (x / Binary64.pow2 q)) as [R1 R2].
    set (n := inject_Z (Binary64.roundEven (x / Binary64.pow2 q))) in *.
    assert (Ex : x == x / Binary64.pow2 q * Binary64.pow2 q) by (field; lra).
    set (m := x / Binary64.pow2 q) in *.
    assert (D : n * Binary64.pow2 q - x == (n - m) * Binary64.pow2 q)
      by (rewrite Ex at 1; ring).
    rewrite D. split; nra.
Qed.

Lemma epsilon_pos : 0 < Binary64.epsilon.
Proof. reflexivity. Qed.

Lemma epsilon_small : Binary64.epsilon <= 1 # 1000000.
Proof. apply Qle_bool_iff. reflexivity. Qed.

Lemma round_error_2 x :
  - (2) <= x -> x <= 2 -> - Binary64.epsilon <= Binary64.round x - x /\ Binary64.round x - x <= Binary64.epsilon.
Proof.
  intros Hl Hu. destruct (round_error x 1) as [A B]; [lia | | |].
  - change (Binary64.pow2 1) with 2. exact Hl.
  - change (Binary64.pow2 1) with 2. exact Hu.
  - assert (E : Binary64.pow2 (1 - 53) == Binary64.epsilon) by reflexivity.
    rewrite E in A, B. split; assumption.
Qed.

Lemma round_error_128 x :
  - (128) <= x -> x <= 128 ->
  - (64 * Binary64.epsilon) <= Binary64.round x - x /\ Binary64.round x - x <= 64 * Binary64.epsilon.
Proof.
  intros Hl Hu.
  assert (E0 : Binary64.pow2 7 == 128) by reflexivity.
  destruct (round_error x 7) as [A B]; [lia | rewrite E0; exact Hl | rewrite E0; exact Hu |].
  assert (E : Binary64.pow2 (7 - 53) == 64 * Binary64.epsilon) by reflexivity.
  rewrite E in A, B. split; assumption.
Qed.

Lemma round_error_1024 x :
  - (1024) <= x -> x <= 1024 ->
  - (512 * Binary64.epsilon) <= Binary64.round x - x /\ Binary64.round x - x <= 512 * Binary64.epsilon.
Proof.
  intros Hl Hu.
  assert (E0 : Binary64.pow2 10 == 1024) by reflexivity.
  destruct (round_error x 10) as [A B]; [lia | rewrite E0; exact Hl | rewrite E0; exact Hu |].
  assert (E : Binary64.pow2 (10 - 53) == 512 * Binary64.epsilon) by reflexivity.
  rewrite E in A, B. split; assumption.
Qed.

Lemma round_error_16384 x :
  - (16384) <= x -> x <= 16384 ->
  - (8192 * Binary64.epsilon) <= Binary64.round x - x /\ Binary64.round x - x <= 8192 * Binary64.epsilon.
Proof.
  intros Hl Hu.
  assert (E0 : Binary64.pow2 14 == 16384) by reflexivity.
  destruct (round_error x 14) as [A B]; [lia | rewrite E0; exact Hl | rewrite E0; exact Hu |].
  assert (E : Binary64.pow2 (14 - 53) == 8192 * Binary64.epsilon) by reflexivity.
  rewrite E in A, B. split; assumption.
Qed.

(** One term of the first scorer: [(score / 100) * weight]. *)
Lemma V1_term_error s w :
  0 <= s -> s <= 120 -> 0 <= w -> w <= 100 ->
  let t := Binary64.mul (Binary64.div s 100) w in
  (- (164 * Binary64.epsilon) <= t - s / 100 * w /\ t - s / 100 * w <= 164 * Binary64.epsilon) /\
  (0 <= s / 100 * w /\ s / 100 * w <= 120).
Proof.
  intros Hs0 Hs Hw0 Hw. cbv zeta. unfold Binary64.mul, Binary64.div.
  assert (U := epsilon_pos). assert (U1 := epsilon_small).
  assert (Q0 : 0 <= s / 100) by (apply Qdiv_nonneg; lra).
  assert (Q1 : s / 100 <= 12 # 10) by (apply Qle_shift_div_r; lra).
  destruct (round_error_2 (s / 100)) as [D1 D2]; [lra | lra |].
  set (d := Binary64.round (s / 100)) in *.
  set (q := s / 100) in *.
  assert (P : - (100 * Binary64.epsilon) <= d * w - q * w /\ d * w - q * w <= 100 * Binary64.epsilon).
  { assert (E : d * w - q * w == (d - q) * w) by ring. rewrite E. split; nra. }
  assert (QW : 0 <= q * w /\ q * w <= 120) by (split; nra).
  destruct (round_error_128 (d * w)) as [M1 M2]; [lra | lra |].
  split; [split; lra | exact QW].
Qed.

(** One term of the second scorer: [score * weight / 100]. *)
Lemma V2_term_error s w :
  0 <= s -> s <= 120 -> 0 <= w -> w <= 100 ->
  let t := Binary64.div (Binary64.mul s w) 100 in
  (- (146 * Binary64.epsilon) <= t - s * w / 100 /\ t - s * w / 100 <= 146 * Binary64.epsilon) /\
  (0 <= s * w / 100 /\ s * w / 100 <= 120).
Proof.
  intros Hs0 Hs Hw0 Hw. cbv zeta. unfold Binary64.mul, Binary64.div.
  assert (U := epsilon_pos). assert (U1 := epsilon_small).
  assert (SW : 0 <= s * w /\ s * w <= 12000) by (split; nra).
  destruct (round_error_16384 (s * w)) as [M1 M2]; [lra | lra |].
  set (m := Binary64.round (s * w)) in *.
  set (p := s * w) in *.
  assert (E : m / 100 - p / 100 == (m - p) / 100) by field.
  assert (D : - (82 * Binary64.epsilon) <= m / 100 - p / 100 /\ m / 100 - p / 100 <= 82 * Binary64.epsilon).
  { rewrite E. split.
    - apply Qle_shift_div_l; lra.
    - apply Qle_shift_div_r; lra. }
  assert (P1 : p / 100 <= 120) by (apply Qle_shift_div_r; lra).
  assert (P0 : 0 <= p / 100) by (apply Qdiv_nonneg; lra).
  destruct (round_error_128 (m / 100)) as [R1 R2]; [lra | lra |].
  split; split; lra.
Qed.


Lemma roundEven_nonneg m : 0 <= m -> (0 <= Binary64.roundEven m)%Z.
Proof.
  intros H. unfold Binary64.roundEven. cbv zeta.
  assert (F : (0 <= Qfloor m)%Z).
  { change 0%Z with (Qfloor (inject_Z 0)). now apply Qfloor_resp_le. }
  destruct (Qcompare _ _); [destruct (Z.even _) | |]; lia.
Qed.

Lemma round_nonneg x : 0 <= x -> 0 <= Binary64.round x.
Proof.
  intros H. unfold Binary64.round.
  destruct (Qeq_bool x 0); [lra |].
  assert (P := pow2_pos (Binary64.quantum x)).
  apply Qmult_le_0_compat; [| lra].
  change 0 with (inject_Z 0). rewrite <- Zle_Qle.
  apply roundEven_nonneg, Qdiv_nonneg; lra.
Qed.

Lemma V1_weighted64_nonneg b w :
  breakdown_nonneg b -> valid_weights w -> 0 <= V1.weightedScore64 b w.
Proof.
  intros (H1 & H2 & H3 & H4 & H5) ([A1 _] & [A2 _] & [A3 _] & [A4 _] & [A5 _]).
  unfold V1.weightedScore64, Binary64.add, Binary64.mul, Binary64.div. cbv zeta.
  assert (P : forall x y, 0 <= x -> 0 <= y ->
                0 <= Binary64.round (Binary64.round (x / 100) * y)).
  { intros x y Hx Hy. apply round_nonneg, Qmult_le_0_compat; [| exact Hy].
    apply round_nonneg, Qdiv_nonneg; lra. }
  assert (S : forall x y, 0 <= x -> 0 <= y -> 0 <= Binary64.round (x + y)).
  { intros x y Hx Hy. apply round_nonneg. lra. }
  repeat apply S; try apply P; try assumption. lra.
Qed.

Lemma V2_weighted64_nonneg b w :
  breakdown_nonneg b -> valid_weights w -> 0 <= V2.weightedScore64 b w.
Proof.
  intros (H1 & H2 & H3 & H4 & H5) ([A1 _] & [A2 _] & [A3 _] & [A4 _] & [A5 _]).
  unfold V2.weightedScore64, Binary64.add, Binary64.mul, Binary64.div. cbv zeta.
  assert (P : forall x y, 0 <= x -> 0 <= y ->
                0 <= Binary64.round (Binary64.round (x * y) / 100)).
  { intros x y Hx Hy. apply round_nonneg, Qdiv_nonneg; [| lra].
    apply round_nonneg. now apply Qmult_le_0_compat. }
  assert (S : forall x y, 0 <= x -> 0 <= y -> 0 <= Binary64.round (x + y)).
  { intros x y Hx Hy. apply round_nonneg. lra. }
  repeat apply S; apply P; assumption.
Qed.

Lemma eps64_value : eps64 == 4096 * Binary64.epsilon.
Proof. reflexivity. Qed.

(** The weighted sum of the first scorer in double precision stays within
    2^-40 of the exact weighted sum. *)
Lemma V1_weighted64_error b w :
  scores_within 120 b -> valid_weights w ->
  V1.weightedScore b w - eps64 <= V1.weightedScore64 b w /\
  V1.weightedScore64 b w <= V1.weightedScore b w + eps64.
Proof.
  intros ([A1 B1] & [A2 B2] & [A3 B3] & [A4 B4] & [A5 B5])
         ([C1 D1] & [C2 D2] & [C3 D3] & [C4 D4] & [C5 D5]).
  assert (U := epsilon_pos). assert (U1 := epsilon_small).
  rewrite eps64_value.
  unfold V1.weightedScore64, V1.weightedScore, Binary64.add. cbv zeta.
  destruct (V1_term_error _ _ A1 B1 C1 D1) as [[L1 R1] [P1 Q1]].
  destruct (V1_term_error _ _ A2 B2 C2 D2) as [[L2 R2] [P2 Q2]].
  destruct (V1_term_error _ _ A3 B3 C3 D3) as [[L3 R3] [P3 Q3]].
  destruct (V1_term_error _ _ A4 B4 C4 D4) as [[L4 R4] [P4 Q4]].
  destruct (V1_term_error _ _ A5 B5 C5 D5) as [[L5 R5] [P5 Q5]].
  cbv zeta in *.
  set (t1 := Binary64.mul _ _) in *. set (e1 := experience b / 100 * _) in *.
  set (t2 := Binary64.mul _ (w_education w)) in *.
  set (e2 := education b / 100 * _) in *.
  set (t3 := Binary64.mul _ (w_specialization w)) in *.
  set (e3 := specialization b / 100 * _) in *.
  set (t4 := Binary64.mul _ (w_language w)) in *.
  set (e4 := language b / 100 * _) in *.
  set (t5 := Binary64.mul _ (w_documentQuality w)) in *.
  set (e5 := documentQuality b / 100 * _) in *.
  destruct (round_error_1024 (0 + t1)) as [X1 Y1]; [lra | lra |].
  set (a1 := Binary64.round (0 + t1)) in *.
  destruct (round_error_1024 (a1 + t2)) as [X2 Y2]; [lra | lra |].
  set (a2 := Binary64.round (a1 + t2)) in *.
  destruct (round_error_1024 (a2 + t3)) as [X3 Y3]; [lra | lra |].
  set (a3 := Binary64.round (a2 + t3)) in *.
  destruct (round_error_1024 (a3 + t4)) as [X4 Y4]; [lra | lra |].
  set (a4 := Binary64.round (a3 + t4)) in *.
  destruct (round_error_1024 (a4 + t5)) as [X5 Y5]; [lra | lra |].
  split; lra.
Qed.

(** So does the weighted sum of the second scorer. *)
Lemma V2_weighted64_error b w :
  scores_within 120 b -> valid_weights w ->
  V2.weightedScore b w - eps64 <= V2.weightedScore64 b w /\
  V2.weightedScore64 b w <= V2.weightedScore b w + eps64.
Proof.
  intros ([A1 B1] & [A2 B2] & [A3 B3] & [A4 B4] & [A5 B5])
         ([C1 D1] & [C2 D2] & [C3 D3] & [C4 D4] & [C5 D5]).
  assert (U := epsilon_pos). assert (U1 := epsilon_small).
  rewrite eps64_value.
  unfold V2.weightedScore64, V2.weightedScore, Binary64.add. cbv zeta.
  destruct (V2_term_error _ _ A1 B1 C1 D1) as [[L1 R1] [P1 Q1]].
  destruct (V2_term_error _ _ A2 B2 C2 D2) as [[L2 R2] [P2 Q2]].
  destruct (V2_term_error _ _ A3 B3 C3 D3) as [[L3 R3] [P3 Q3]].
  destruct (V2_term_error _ _ A4 B4 C4 D4) as [[L4 R4] [P4 Q4]].
  destruct (V2_term_error _ _ A5 B5 C5 D5) as [[L5 R5] [P5 Q5]].
  cbv zeta in *.
  set (t1 := Binary64.div (Binary64.mul (experience b) _) 100) in *.
  set (e1 := experience b * _ / 100) in *.
  set (t2 := Binary64.div (Binary64.mul (education b) _) 100) in *.
  set (e2 := education b * _ / 100) in *.
  set (t3 := Binary64.div (Binary64.mul (specialization b) _) 100) in *.
  set (e3 := specialization b * _ / 100) in *.
  set (t4 := Binary64.div (Binary64.mul (language b) _) 100) in *.
  set (e4 := language b * _ / 100) in *.
  set (t5 := Binary64.div (Binary64.mul (documentQuality b) _) 100) in *.
  set (e5 := documentQuality b * _ / 100) in *.
  destruct (round_error_1024 (t1 + t2)) as [X2 Y2]; [lra | lra |].
  set (a2 := Binary64.round (t1 + t2)) in *.
  destruct (round_error_1024 (a2 + t3)) as [X3 Y3]; [lra | lra |].
  set (a3 := Binary64.round (a2 + t3)) in *.
  destruct (round_error_1024 (a3 + t4)) as [X4 Y4]; [lra | lra |].
  set (a4 := Binary64.round (a3 + t4)) in *.
  destruct (round_error_1024 (a4 + t5)) as [X5 Y5]; [lra | lra |].
  split; lra.
Qed.

(** [Math.round] of two numbers that no half-integer separates. *)
Lemma Qfloor_unique (z : Z) (x : Q) :
  inject_Z z <= x -> x < inject_Z (z + 1) -> Qfloor x = z.
Proof.
  intros H1 H2. apply Z.le_antisymm.
  - assert (H3 := Qfloor_le x).
    assert (H4 : inject_Z (Qfloor x) < inject_Z (z + 1)) by lra.
    rewrite <- Zlt_Qlt in H4. lia.
  - rewrite <- (Qfloor_Z z). now apply Qfloor_resp_le.
Qed.

Lemma Math_round_near x y eps :
  0 <= eps -> x - eps <= y -> y <= x + eps -> awayFromHalves x eps ->
  Math_round y = Math_round x.
Proof.
  intros He Hl Hu Haway. unfold Math_round.
  set (k := Qfloor (x + (1 # 2))).
  assert (K1 := Qfloor_le (x + (1 # 2))). assert (K2 := Qlt_floor (x + (1 # 2))).
  fold k in K1, K2. rewrite inject_Z_plus in K2. change (inject_Z 1) with 1 in K2.
  apply Qfloor_unique.
  - destruct (Haway (k + -1)%Z) as [H | H];
      rewrite inject_Z_plus in H; change (inject_Z (-1)) with (-1) in H; lra.
  - rewrite inject_Z_plus. change (inject_Z 1) with 1.
    destruct (Haway k) as [H | H]; lra.
Qed.

Lemma Math_round_within_1 x y :
  x - 1 <= y -> y <= x + 1 ->
  (Math_round x - 1 <= Math_round y)%Z /\ (Math_round y <= Math_round x + 1)%Z.
Proof.
  intros Hl Hu.
  assert (S1 : forall a k, Math_round (a + inject_Z k) = (Math_round a + k)%Z).
  { intros a k. unfold Math_round. 
    assert (K1 := Qfloor_le (a + (1 # 2))). assert (K2 := Qlt_floor (a + (1 # 2))).
    rewrite inject_Z_plus in K2.
    apply Qfloor_unique; rewrite ?inject_Z_plus; lra. }
  split.
  - replace (Math_round x - 1)%Z with (Math_round x + -1)%Z by lia.
    rewrite <- (S1 x (-1)%Z). apply Math_round_mono.
    change (inject_Z (-1)) with (-1). lra.
  - rewrite <- (S1 x 1%Z). apply Math_round_mono.
    change (inject_Z 1) with 1. lra.
Qed.

End Doubles.

(* ------------------------------------------------------------------ *)
(** ** The rule based scorer *)

Section V1Facts.
Import JS Model Props.

(** V1 dimension scores are non-negative. *)
Lemma V1_experience_nonneg years m :
  0 <= years -> (0 <= V1.calculateExperienceScore years m)%Z.
Proof.
  intros Hy. unfold V1.calculateExperienceScore.
  destruct (ltb years m) eqn:L.
  - apply ltb_true_iff in L. apply Math_round_nonneg.
    apply Qmult_le_0_compat; [| lra]. apply Qdiv_nonneg; lra.
  - apply ltb_false_iff in L. destruct (geb years (m + 10)); [lia |].
    apply Math_round_nonneg.
    assert (0 <= (years - m) / 10) by (apply Qdiv_nonneg; lra).
    assert (0 <= (years - m) / 10 * 50) by (apply Qmult_le_0_compat; lra).
    lra.
Qed.

Lemma V1_levels_nonneg k : (0 <= match V1.levels k with Some n => n | None => 0 end)%Z.
Proof.
  unfold V1.levels.
  repeat match goal with |- context [if ?b then _ else _] => destruct b end; lia.
Qed.

Lemma V1_education_nonneg l m : (0 <= V1.calculateEducationScore l m)%Z.
Proof.
  unfold V1.calculateEducationScore.
  pose proof (V1_levels_nonneg l) as Hl. pose proof (V1_levels_nonneg m) as Hm.
  destruct (_ <? _)%Z; [| exact Hl].
  apply Math_round_nonneg. apply Qmult_le_0_compat; [| lra].
  apply Qdiv_nonneg; apply ofZ_nonneg; assumption.
Qed.

Lemma V1_specialization_nonneg u rs : (0 <= V1.calculateSpecializationScore u rs)%Z.
Proof.
  unfold V1.calculateSpecializationScore.
  destruct rs as [[|r rs]|]; try lia.
  repeat match goal with |- context [if ?b then _ else _] => destruct b end; lia.
Qed.

Lemma V1_language_nonneg p r : (0 <= V1.calculateLanguageScore p r)%Z.
Proof.
  unfold V1.calculateLanguageScore.
  destruct (indexOf _ _) as [u|]; [| lia].
  destruct (indexOf _ _) as [q|]; [| lia].
  repeat match goal with |- context [if ?b then _ else _] => destruct b eqn:? end; lia.
Qed.

Lemma V1_document_nonneg c h : (0 <= V1.calculateDocumentScore c h)%Z.
Proof. unfold V1.calculateDocumentScore. lia. Qed.

Lemma V1_breakdown_nonneg p v : breakdown_nonneg (V1.computeBreakdown p v).
Proof.
  unfold breakdown_nonneg, V1.computeBreakdown;
    cbn [experience education specialization language documentQuality].
  repeat split; apply ofZ_nonneg.
  - apply V1_experience_nonneg, ofN_nonneg.
  - apply V1_education_nonneg.
  - apply V1_specialization_nonneg.
  - apply V1_language_nonneg.
  - apply V1_document_nonneg.
Qed.


Lemma V1_score_bounds p v :
  valid_visa v ->
  0 <= inject_Z (V1.score (V1.calculateScore p v)) /\
  inject_Z (V1.score (V1.calculateScore p v)) <= maxScoreCap v.
Proof.
  intros [Hw Hc]. unfold V1.calculateScore; cbn [V1.score].
  apply round_capped_bounds; [exact Hc |].
  apply V1_weighted64_nonneg; [apply V1_breakdown_nonneg | exact Hw].
Qed.

End V1Facts.

(* ------------------------------------------------------------------ *)
(** ** The oracle backed scorer and its fallback *)

Section V2Facts.
Import JS Model DocParse Props.

Lemma V2_experience_nonneg years m : 0 <= V2.calculateExperienceFromAI years m.
Proof.
  unfold V2.calculateExperienceFromAI.
  repeat match goal with |- context [if ?b then _ else _] => destruct b end;
    try lra.
  apply Q.le_max_l.
Qed.

Lemma V2_levels_pos k d : 0 < d ->
  0 < match V2.levels k with Some n => n | None => d end.
Proof.
  intros Hd. unfold V2.levels.
  repeat match goal with |- context [if ?b then _ else _] => destruct b end;
    lra.
Qed.

Lemma V2_education_nonneg l r : 0 <= V2.calculateEducationFromAI l r.
Proof.
  unfold V2.calculateEducationFromAI.
  assert (Hr := V2_levels_pos r 60). assert (Hl := V2_levels_pos l 30).
  destruct (geb _ _); [lra |].
  apply Qmult_le_0_compat; [| lra]. apply Qdiv_nonneg; lra.
Qed.

Lemma V2_specialization_nonneg f a : 0 <= V2.calculateSpecializationScore f a.
Proof.
  unfold V2.calculateSpecializationScore.
  repeat match goal with |- context [if ?b then _ else _] => destruct b end;
    lra.
Qed.

Lemma V2_language_nonneg l r : 0 <= V2.calculateLanguageScore l r.
Proof.
  unfold V2.calculateLanguageScore.
  destruct (indexOf _ _) as [u|]; [| lra].
  destruct (indexOf _ _) as [q|]; [| lra].
  destruct (_ <=? _)%Z eqn:E; apply ofZ_nonneg; lia.
Qed.

Lemma V2_basicBreakdown_nonneg s docs v :
  breakdown_nonneg (V2.basicBreakdown s docs v).
Proof.
  unfold breakdown_nonneg, V2.basicBreakdown;
    cbn [experience education specialization language documentQuality].
  repeat split.
  - apply V2_experience_nonneg.
  - apply V2_education_nonneg.
  - apply V2_specialization_nonneg.
  - apply V2_language_nonneg.
  - destruct (_ <=? _)%nat; lra.
Qed.

Lemma applyCap_min x c : ~ c == 0 -> V2.applyCap x c = Math_min x c.
Proof.
  intros H. unfold V2.applyCap, truthy.
  destruct (Qeq_bool c 0) eqn:E; [| reflexivity].
  apply Qeq_bool_iff in E. contradiction.
Qed.

Lemma V2_basic_score_bounds s docs v :
  valid_visa v -> ~ maxScoreCap v == 0 ->
  in_range (V2.score (V2.calculateBasicScore s docs v)) v.
Proof.
  intros [Hw Hc] H0. unfold V2.calculateBasicScore, in_range; cbn [V2.score].
  rewrite applyCap_min by exact H0.
  apply round_capped_bounds; [exact Hc |].
  apply V2_weighted64_nonneg; [apply V2_basicBreakdown_nonneg | exact Hw].
Qed.

Section O1A.
Variable oracle : V2.Oracle.

(** A call of the client sends at least one request and at most one more
    than the retries it was given. *)
Lemma send_bounds {A} retries (reply : nat -> V2.Completion A) : forall n,
  (S n <= snd (V2.send oracle retries reply n) <= n + S retries)%nat.
Proof.
  induction retries as [| r IH]; intros n; cbn [V2.send].
  - destruct (reply n); cbn; lia.
  - destruct (reply n); cbn; try lia.
    destruct (V2.transient oracle n); cbn; [| lia].
    specialize (IH (S n)). lia.
Qed.

(** An answer that a call ends with is the answer to one of its requests. *)
Lemma send_answer {A} retries (reply : nat -> V2.Completion A) a : forall n,
  fst (V2.send oracle retries reply n) = V2.Json a ->
  exists k, reply k = V2.Json a.
Proof.
  induction retries as [| r IH]; intros n; cbn [V2.send].
  - destruct (reply n) eqn:E; cbn; intros H; try discriminate H.
    exists n. congruence.
  - destruct (reply n) eqn:E; cbn; try (intros H; discriminate H).
    + destruct (V2.transient oracle n); cbn; [apply IH | discriminate].
    + intros H. exists n. congruence.
Qed.

(** A request whose failure is not transient, or that does not fail, is
    sent once. *)
Lemma send_once {A} retries (reply : nat -> V2.Completion A) n :
  match reply n with
  | V2.Rejected _ => V2.transient oracle n = false
  | _ => True
  end ->
  V2.send oracle retries reply n = (reply n, S n).
Proof.
  destruct retries; cbn [V2.send]; destruct (reply n); try reflexivity.
  now intros ->.
Qed.

Lemma analyze_cases request n :
  (exists a, V2.analyzeO1AApplication oracle request n
             = (Ok a, snd (analysisCall oracle request n)) /\
             V2.hasApiKey oracle = true /\
             fst (analysisCall oracle request n) = V2.Json a /\
             V2.ai_o1aCriteria a <> None) \/
  (exists e, V2.analyzeO1AApplication oracle request n
             = (Throw e, afterAnalysis oracle request n) /\
             analysisFails oracle request n).
Proof.
  unfold V2.analyzeO1AApplication, V2.tryCatch, V2.bind, V2.getOpenAIClient,
    V2.create, V2.parsed, analysisFails, afterAnalysis, analysisCall.
  destruct (V2.hasApiKey oracle); cbn -[V2.send].
  - destruct (V2.send oracle V2.maxRetries (V2.analysisReply oracle request) n)
      as [[e | | msg | a] n']; cbn;
      try (right; eexists; split; [reflexivity | now right]).
    destruct (V2.ai_o1aCriteria a) eqn:E; cbn.
    + left. exists a. rewrite E. repeat split; congruence.
    + right. eexists; split; [reflexivity | now right].
  - right. eexists; split; [reflexivity | now left].
Qed.

(** The recommendations: a missing field throws before any request;
    otherwise the call is made, and its failure is replaced by the canned
    recommendations. *)
Lemma recommendations_cases a vt n :
  V2.hasApiKey oracle = true ->
  (exists e,
     V2.generatePersonalizedRecommendations oracle a vt
       (V2.shown (V2.ai_fieldOfExpertise a)) n = (Throw e, n)) \/
  V2.generatePersonalizedRecommendations oracle a vt
    (V2.shown (V2.ai_fieldOfExpertise a)) n
  = (Ok match fst (recommendationsCall oracle a n) with
        | V2.Json recs => recs
        | _ => V2.fallbackRecommendations
        end,
     snd (recommendationsCall oracle a n)).
Proof.
  intros Hk.
  unfold V2.generatePersonalizedRecommendations, V2.bind, V2.lift, V2.tryCatch,
    V2.getOpenAIClient, V2.create, V2.ret, recommendationsCall.
  rewrite Hk.
  destruct (V2.defined (V2.ai_criticalWeaknesses a)); cbn -[V2.send];
    [| eauto].
  destruct (V2.defined (V2.ai_o1aCriteria a)); cbn -[V2.send]; [| eauto].
  destruct (V2.weakCriteriaLines _); cbn -[V2.send]; [| eauto].
  right. destruct (V2.send oracle V2.maxRetries _ n) as [[e | | msg | recs] n'];
    reflexivity.
Qed.

Lemma analysisCall_bounds request n :
  (S n <= snd (analysisCall oracle request n) <= n + 3)%nat.
Proof. apply (send_bounds V2.maxRetries). Qed.

Lemma recommendationsCall_bounds a n :
  (S n <= snd (recommendationsCall oracle a n) <= n + 3)%nat.
Proof. apply (send_bounds V2.maxRetries). Qed.

Lemma afterAnalysis_bounds request n :
  (n <= afterAnalysis oracle request n <= n + 3)%nat.
Proof.
  unfold afterAnalysis. pose proof (analysisCall_bounds request n).
  destruct (V2.hasApiKey oracle); lia.
Qed.

Ltac fallback_case :=
  do 2 eexists; split; [reflexivity | split; [lia | now left]].

Ltac name_request s dc v :=
  change {| V2.q_professionalSummary := s;
     V2.q_documentContents := dc;
     V2.q_requiredYears := minExperienceYears (eligibilityCriteria v);
     V2.q_requiredEducation := minEducationLevel (eligibilityCriteria v);
     V2.q_fieldOfWork := join ", " (specializations (eligibilityCriteria v)) |}
    with (requestOf s dc v).

(** [calculateO1AScore] always returns, after at most two calls of the
    client: either the fallback result, or a result built from an analysis
    the oracle gave. *)
Lemma calculateO1AScore_cases s dc docs v n :
  exists r n',
    V2.calculateO1AScore oracle s dc docs v n = (Ok r, n') /\
    (n' <= n + 6)%nat /\
    (r = V2.calculateBasicScore s docs v \/
     exists a k, V2.analysisReply oracle (requestOf s dc v) k = V2.Json a /\
                 V2.ai_o1aCriteria a <> None /\
                 oracleBacked r a v).
Proof.
  unfold V2.calculateO1AScore. name_request s dc v.
  unfold V2.tryCatch at 1. unfold V2.bind at 1.
  destruct (analyze_cases (requestOf s dc v) n)
    as [(a & Ha & Hk & Hr & Hc) | (e & He & Hf)].
  - rewrite Ha. unfold V2.bind at 1.
    pose proof (analysisCall_bounds (requestOf s dc v) n) as B1.
    set (n1 := snd (analysisCall oracle (requestOf s dc v) n)) in *.
    pose proof (recommendationsCall_bounds a n1) as B2.
    destruct (recommendations_cases a (visaName v) n1 Hk)
      as [(e & Hg) | Hg]; rewrite Hg; [fallback_case |].
    unfold V2.bind, V2.lift, V2.ret.
    destruct (V2.o1aBreakdownOf a docs v) as [bd|e2]; [| fallback_case].
    destruct (V2.buildO1AReasoning a) as [u|e2]; [| fallback_case].
    destruct (V2.defined (V2.ai_criticalWeaknesses a)) as [w|e2];
      [| fallback_case].
    do 2 eexists; split; [reflexivity |]. split; [lia |].
    right. destruct (send_answer _ _ a n Hr) as [k Hk'].
    exists a, k. repeat split; auto.
  - rewrite He. cbn. do 2 eexists. split; [reflexivity |].
    pose proof (afterAnalysis_bounds (requestOf s dc v) n).
    split; [lia | now left].
Qed.

Lemma calculateO1AScore_fallback s dc docs v n :
  analysisFails oracle (requestOf s dc v) n ->
  V2.calculateO1AScore oracle s dc docs v n
  = (Ok (V2.calculateBasicScore s docs v),
     afterAnalysis oracle (requestOf s dc v) n).
Proof.
  intros Hf.
  unfold V2.calculateO1AScore. name_request s dc v.
  unfold V2.tryCatch at 1. unfold V2.bind at 1.
  destruct (analyze_cases (requestOf s dc v) n)
    as [(a & Ha & Hk & Hr & Hc) | (e & He & _)].
  - exfalso. destruct Hf as [Hf | Hf]; [congruence |].
    rewrite Hr in Hf. contradiction.
  - now rewrite He.
Qed.

End O1A.

End V2Facts.

(* ------------------------------------------------------------------ *)
(** ** Ranges of the dimension scores *)

Section Ranges.
Import JS Model DocParse Props Scales.

Lemma Qdiv_le_1 (x y : Q) : 0 <= x -> x <= y -> 0 < y -> x / y <= 1.
Proof.
  intros Hx Hxy Hy. apply Qle_shift_div_r; [exact Hy | lra].
Qed.

Lemma Math_round_le (x : Q) (k : Z) : x <= inject_Z k -> (Math_round x <= k)%Z.
Proof.
  intros H. rewrite <- (Math_round_ofZ k). now apply Math_round_mono.
Qed.

Lemma ofZ_le_100 z : (z <= 100)%Z -> ofZ z <= 100.
Proof.
  intros H. unfold ofZ. change 100 with (inject_Z 100). now rewrite <- Zle_Qle.
Qed.

Lemma V1_experience_le_100 years m :
  0 <= years -> (V1.calculateExperienceScore years m <= 100)%Z.
Proof.
  intros Hy. unfold V1.calculateExperienceScore.
  destruct (ltb years m) eqn:L.
  - apply ltb_true_iff in L. apply Math_round_le.
    assert (H : years / m <= 1) by (apply Qdiv_le_1; lra).
    change (inject_Z 100) with 100. lra.
  - apply ltb_false_iff in L.
    destruct (geb years (m + 10)) eqn:G; [lia |].
    apply geb_false_iff in G. apply Math_round_le.
    assert (H : (years - m) / 10 <= 1) by (apply Qdiv_le_1; lra).
    change (inject_Z 100) with 100. lra.
Qed.

Lemma V1_levels_le_100 k :
  (match V1.levels k with Some n => n | None => 0 end <= 100)%Z.
Proof.
  unfold V1.levels.
  repeat match goal with |- context [if ?b then _ else _] => destruct b end; lia.
Qed.

Lemma V1_education_le_100 l m : (V1.calculateEducationScore l m <= 100)%Z.
Proof.
  unfold V1.calculateEducationScore.
  pose proof (V1_levels_le_100 l) as Hl. pose proof (V1_levels_nonneg l) as Hl0.
  pose proof (V1_levels_nonneg m) as Hm0.
  destruct (_ <? _)%Z eqn:E; [| exact Hl].
  apply Z.ltb_lt in E. apply Math_round_le.
  set (u := match V1.levels l with Some n => n | None => 0%Z end) in *.
  set (r := match V1.levels m with Some n => n | None => 0%Z end) in *.
  assert (H : ofZ u / ofZ r <= 1).
  { apply Qdiv_le_1.
    - now apply ofZ_nonneg.
    - unfold ofZ. rewrite <- Zle_Qle. lia.
    - unfold ofZ. change 0 with (inject_Z 0). rewrite <- Zlt_Qlt. lia. }
  change (inject_Z 100) with 100. lra.
Qed.

Lemma V1_specialization_le_100 u rs :
  (V1.calculateSpecializationScore u rs <= 100)%Z.
Proof.
  unfold V1.calculateSpecializationScore.
  destruct rs as [[|r rs]|]; try lia.
  repeat match goal with |- context [if ?b then _ else _] => destruct b end; lia.
Qed.

Lemma V1_language_le_100 p r : (V1.calculateLanguageScore p r <= 100)%Z.
Proof.
  unfold V1.calculateLanguageScore.
  destruct (indexOf _ _) as [u|]; [| lia].
  destruct (indexOf _ _) as [q|]; [| lia].
  repeat match goal with
         | |- context [if ?b then _ else _] => destruct b eqn:?
         end; lia.
Qed.

Lemma V1_document_le_100 c h : (V1.calculateDocumentScore c h <= 100)%Z.
Proof. unfold V1.calculateDocumentScore. lia. Qed.

Lemma V1_breakdown_in_range (p : UserProfile) (v : IVisaType) :
  breakdown_in_range (V1.computeBreakdown p v).
Proof.
  destruct (V1_breakdown_nonneg p v) as (H1 & H2 & H3 & H4 & H5).
  unfold breakdown_in_range, within_0_100.
  repeat split; try assumption;
    unfold V1.computeBreakdown;
    cbn [experience education specialization language documentQuality];
    apply ofZ_le_100.
  - apply V1_experience_le_100, ofN_nonneg.
  - apply V1_education_le_100.
  - apply V1_specialization_le_100.
  - apply V1_language_le_100.
  - apply V1_document_le_100.
Qed.

Lemma V2_experience_le_90 years m :
  0 <= years -> V2.calculateExperienceFromAI years m <= 90.
Proof.
  intros Hy. unfold V2.calculateExperienceFromAI.
  destruct (geb years (m + 5)); [lra |].
  destruct (geb years (m + 3)); [lra |].
  destruct (geb years m); [lra |].
  destruct (geb years (m - 1)); [lra |].
  destruct (geb years (m - 2)) eqn:G; [lra |].
  apply geb_false_iff in G.
  assert (H : years / m <= 1) by (apply Qdiv_le_1; lra).
  unfold Math_max. apply Q.max_lub; lra.
Qed.

Lemma V2_levels_le_100 k d :
  d <= 100 -> match V2.levels k with Some n => n | None => d end <= 100.
Proof.
  intros Hd. unfold V2.levels.
  repeat match goal with |- context [if ?b then _ else _] => destruct b end;
    lra.
Qed.

Lemma V2_education_le_100 l r : V2.calculateEducationFromAI l r <= 100.
Proof.
  unfold V2.calculateEducationFromAI.
  assert (Hr := V2_levels_pos r 60 ltac:(lra)).
  assert (Hl := V2_levels_pos l 30 ltac:(lra)).
  assert (Hu := V2_levels_le_100 l 30 ltac:(lra)).
  set (u := match V2.levels l with Some n => n | None => 30 end) in *.
  set (q := match V2.levels r with Some n => n | None => 60 end) in *.
  cbv zeta. destruct (geb u q) eqn:G; [exact Hu |].
  apply geb_false_iff in G.
  assert (H : u / q <= 1) by (apply Qdiv_le_1; lra).
  lra.
Qed.

Lemma indexOf_lt arr x : forall n,
  indexOf arr x = Some n -> (n < List.length arr)%nat.
Proof.
  induction arr as [| y r IH]; intros n; cbn [indexOf List.length];
    [discriminate |].
  destruct (String.eqb y x).
  - intros H. injection H as <-. lia.
  - destruct (indexOf r x) as [k |]; [| discriminate].
    cbn [option_map]. intros H. injection H as <-.
    specialize (IH k eq_refl). lia.
Qed.

Lemma V2_language_bounds l r :
  20 <= V2.calculateLanguageScore l r /\ V2.calculateLanguageScore l r <= 120.
Proof.
  unfold V2.calculateLanguageScore.
  destruct (indexOf V2.cefrLevels (toLowerCase l)) as [u |] eqn:Eu; [| lra].
  destruct (indexOf V2.cefrLevels (toLowerCase r)) as [q |] eqn:Eq; [| lra].
  apply indexOf_lt in Eu. apply indexOf_lt in Eq.
  cbn [V2.cefrLevels List.length] in Eu, Eq. cbv zeta.
  change 20 with (inject_Z 20). change 120 with (inject_Z 120). unfold ofZ.
  destruct (Z.leb_spec (Z.of_nat q) (Z.of_nat u)); rewrite <- !Zle_Qle; lia.
Qed.

Lemma V1_breakdown_within (p : UserProfile) (v : IVisaType) :
  scores_within 120 (V1.computeBreakdown p v).
Proof.
  destruct (V1_breakdown_in_range p v)
    as ([A1 B1] & [A2 B2] & [A3 B3] & [A4 B4] & [A5 B5]).
  unfold scores_within. repeat split; lra.
Qed.

Lemma V2_basicBreakdown_within s docs (v : IVisaType) :
  scores_within 120 (V2.basicBreakdown s docs v).
Proof.
  destruct (V2_basicBreakdown_nonneg s docs v) as (H1 & H2 & H3 & H4 & H5).
  unfold scores_within. repeat split; try assumption;
    unfold V2.basicBreakdown;
    cbn [experience education specialization language documentQuality].
  - pose proof (V2_experience_le_90
                  (ofN match matchYears (toLowerCase s) with
                       | Some n => n | None => 0%N end)
                  (minExperienceYears (eligibilityCriteria v))
                  (ofN_nonneg _)). lra.
  - pose proof (V2_education_le_100
                  (if includes (toLowerCase s) "phd" then "phd"
                   else if includes (toLowerCase s) "master" then "master"
                   else if includes (toLowerCase s) "bachelor" then "bachelor"
                   else "high_school")
                  (minEducationLevel (eligibilityCriteria v))). lra.
  - unfold V2.calculateSpecializationScore.
    repeat match goal with |- context [if ?b then _ else _] => destruct b end;
      lra.
  - apply V2_language_bounds.
  - destruct (_ <=? _)%nat; lra.
Qed.

End Ranges.

(* ------------------------------------------------------------------ *)
(** ** Final score, weighting and category *)

Section ScoreClaims.
Import JS Model DocParse Props.

Lemma V1_weighted_spec b w : V1.weightedScore b w == spec_weightedSum b w.
Proof. unfold V1.weightedScore, spec_weightedSum. field. Qed.

Lemma V2_weighted_spec b w : V2.weightedScore b w == spec_weightedSum b w.
Proof. unfold V2.weightedScore, spec_weightedSum. field. Qed.

Lemma calculateScoreWithAI_total oracle s docs v n :
  exists r n',
    V2.calculateScoreWithAI oracle s docs v n = (Ok r, n') /\
    (n' <= n + 6)%nat.
Proof.
  unfold V2.calculateScoreWithAI.
  destruct (V2.isO1 v).
  - destruct (calculateO1AScore_cases oracle s (V2.documentContents docs)
                docs v n) as (r & n' & H & Hn & _).
    exists r, n'; split; auto.
  - do 2 eexists. split; [reflexivity | lia].
Qed.

(** The inline thresholds of the fallback agree with
    [determineScoreCategory] of the rounded score away from the three
    boundary values. *)
Lemma categoryOfCapped_round c :
  Math_round c <> 40%Z -> Math_round c <> 60%Z -> Math_round c <> 75%Z ->
  V2.categoryOfCapped c = V1.determineScoreCategory (Math_round c).
Proof.
  intros N40 N60 N75.
  assert (R : forall k : Z, inject_Z k <= c -> (k <= Math_round c)%Z).
  { intros k H. rewrite <- (Math_round_ofZ k). now apply Math_round_mono. }
  assert (L : forall k : Z, c < inject_Z k -> (Math_round c <= k)%Z).
  { intros k H. rewrite <- (Math_round_ofZ k). apply Math_round_mono. lra. }
  unfold V2.categoryOfCapped, V1.determineScoreCategory.
  destruct (geb c 75) eqn:G75.
  { apply geb_true_iff in G75. apply (R 75%Z) in G75.
    apply Z.leb_le in G75. now rewrite G75. }
  apply geb_false_iff in G75. apply (L 75%Z) in G75.
  assert (E75 : (75 <=? Math_round c)%Z = false) by (apply Z.leb_gt; lia).
  rewrite E75.
  destruct (geb c 60) eqn:G60.
  { apply geb_true_iff in G60. apply (R 60%Z) in G60.
    apply Z.leb_le in G60. now rewrite G60. }
  apply geb_false_iff in G60. apply (L 60%Z) in G60.
  assert (E60 : (60 <=? Math_round c)%Z = false) by (apply Z.leb_gt; lia).
  rewrite E60.
  destruct (geb c 40) eqn:G40.
  { apply geb_true_iff in G40. apply (R 40%Z) in G40.
    apply Z.leb_le in G40. now rewrite G40. }
  apply geb_false_iff in G40. apply (L 40%Z) in G40.
  assert (E40 : (40 <=? Math_round c)%Z = false) by (apply Z.leb_gt; lia).
  now rewrite E40.
Qed.

Lemma valid_o1a : valid_visa Examples.o1a.
Proof.
  unfold valid_visa, valid_weights, weight_ok, valid_cap.
  repeat split; try (vm_compute; discriminate); reflexivity.
Defined.

Lemma o1a_cap_nonzero : ~ maxScoreCap Examples.o1a == 0.
Proof. vm_compute. discriminate. Defined.

End ScoreClaims.

(* ------------------------------------------------------------------ *)
(** ** The claims on the final score *)

Section FinalScore.
Import JS Model DocParse Props.

(** C1, as amended.  For every valid visa type the final score of V1
    [calculateScore] lies in [0, maxScoreCap].  When the cap is not 0 the
    same holds for V2 [calculateBasicScore], and [calculateO1AScore]
    returns a result whose final score lies in [0, maxScoreCap] whenever
    the overall score of every analysis the oracle may answer is not
    negative. *)
Theorem C1_final_score_in_range (v : IVisaType) :
  valid_visa v ->
  (forall p, in_range (V1.score (V1.calculateScore p v)) v) /\
  (~ maxScoreCap v == 0 ->
   (forall s docs, in_range (V2.score (V2.calculateBasicScore s docs v)) v) /\
   (forall oracle s dc docs n,
      (forall k a, V2.analysisReply oracle (requestOf s dc v) k = V2.Json a ->
                   0 <= V2.ai_overallScore a) ->
      exists r n',
        V2.calculateO1AScore oracle s dc docs v n = (Ok r, n') /\
        in_range (V2.score r) v)).
Proof.
  intros Hv. split; [intros p; now apply V1_score_bounds |].
  intros H0. split; [intros s docs; now apply V2_basic_score_bounds |].
  intros oracle s dc docs n Hpos.
  destruct (calculateO1AScore_cases oracle s dc docs v n)
    as (r & n' & Hr & _ & [Hb | (a & k & Ha & _ & _ & Hs & _)]);
    exists r, n'; (split; [exact Hr |]).
  - rewrite Hb. now apply V2_basic_score_bounds.
  - rewrite Hs, applyCap_min by exact H0.
    apply round_capped_bounds; [apply Hv | exact (Hpos _ _ Ha)].
Qed.

Lemma C1_final_score_in_range_witness :
  in_range (V1.score (V1.calculateScore Examples.profile Examples.o1a))
           Examples.o1a /\
  in_range (V2.score (V2.calculateBasicScore Examples.summary8 [] Examples.o1a))
           Examples.o1a /\
  exists r n',
    V2.calculateO1AScore (Examples.answering
                            (Examples.analysis Examples.allCriteria 25 "low"))
      Examples.summary8 EmptyString [] Examples.o1a 0%nat = (Ok r, n') /\
    in_range (V2.score r) Examples.o1a.
Proof.
  destruct (C1_final_score_in_range Examples.o1a valid_o1a) as [H1 H2].
  destruct (H2 o1a_cap_nonzero) as [H3 H4].
  split; [apply H1 |]. split; [apply H3 |].
  apply H4. intros k a H. cbn in H. injection H as <-.
  vm_compute. discriminate.
Defined.

(** C1 as stated fails: with the cap 0, which the claim admits, the
    fallback path reports 75; and an oracle answering the overall score
    -10 makes the oracle path report -10. *)
Lemma C1_counterexample :
  valid_visa Examples.o1aCapZero /\
  V2.score (V2.calculateBasicScore Examples.summary8 [] Examples.o1aCapZero)
  = 75%Z /\
  ~ in_range 75 Examples.o1aCapZero /\
  valid_visa Examples.o1a /\
  (exists r,
     V2.calculateO1AScore
       (Examples.answering (Examples.analysis Examples.allCriteria (-10) "very_low"))
       Examples.summary8 EmptyString [] Examples.o1a 0%nat = (Ok r, 2%nat) /\
     V2.score r = (-10)%Z) /\
  ~ in_range (-10) Examples.o1a.
Proof.
  split.
  { unfold valid_visa, valid_weights, weight_ok, valid_cap; cbn.
    repeat split; lra. }
  split; [vm_compute; reflexivity |].
  split.
  { unfold in_range; cbn. intros [_ H]. revert H. apply Qlt_not_le.
    reflexivity. }
  split; [exact valid_o1a |].
  split.
  { eexists. split; [vm_compute; reflexivity | reflexivity]. }
  unfold in_range. intros [H _]. revert H. apply Qlt_not_le. reflexivity.
Qed.

Lemma eps64_le_1 : 0 <= eps64 /\ eps64 <= 1.
Proof. split; apply Qle_bool_iff; reflexivity. Qed.

(** The final score computed from a sum [f] that lies within 2^-40 of the
    exact sum [x]. *)
Lemma final_score_near (f x c : Q) :
  inject_Z (Qfloor c) == c ->
  x - eps64 <= f -> f <= x + eps64 ->
  let spec := Z.min (Math_round x) (Qfloor c) in
  (spec - 1 <= Math_round (Math_min f c))%Z /\
  (Math_round (Math_min f c) <= spec + 1)%Z /\
  (awayFromHalves x eps64 -> Math_round (Math_min f c) = spec).
Proof.
  intros Hi L U. cbv zeta. rewrite round_min_swap by exact Hi.
  destruct eps64_le_1 as [E0 E1].
  destruct (Math_round_within_1 x f) as [R1 R2]; [lra | lra |].
  split; [lia |]. split; [lia |].
  intros Haway. now rewrite (Math_round_near x f eps64 E0 L U Haway).
Qed.

Lemma awayFromHalves_between (x eps : Q) (k0 : Z) :
  inject_Z k0 + (1 # 2) <= x - eps ->
  x + eps < inject_Z (k0 + 1) + (1 # 2) ->
  awayFromHalves x eps.
Proof.
  intros H1 H2 k. destruct (Z_le_gt_dec k k0) as [H | H].
  - left. rewrite Zle_Qle in H. lra.
  - right. assert (H' : (k0 + 1 <= k)%Z) by lia.
    rewrite Zle_Qle in H'. lra.
Qed.

(** C2, as amended.  Both scorers compute the weighted sum in double
    precision.  For a valid visa type the sum computed by V1
    [calculateScore] stays within 2^-40 of the exact weighted sum of the
    five breakdown scores, each times weight/100; the final score is
    within 1 of that exact sum rounded to the nearest integer and then
    capped, and equal to it whenever the exact sum is farther than 2^-40
    from every half-integer.  When the cap is not 0 the same holds for V2
    [calculateBasicScore].  The oracle path returns either that fallback
    result or a result whose final score is the oracle's own overall score,
    rounded and capped: its breakdown is not weighted into the final
    score. *)
Theorem C2_final_score_formula (v : IVisaType) :
  valid_visa v ->
  (forall p,
     let r := V1.calculateScore p v in
     let b := V1.scoreBreakdown r in
     let exactSum := spec_weightedSum b (scoringWeights v) in
     (exactSum - eps64 <= V1.weightedScore64 b (scoringWeights v) /\
      V1.weightedScore64 b (scoringWeights v) <= exactSum + eps64) /\
     (spec_finalScore b v - 1 <= V1.score r)%Z /\
     (V1.score r <= spec_finalScore b v + 1)%Z /\
     (awayFromHalves exactSum eps64 -> V1.score r = spec_finalScore b v)) /\
  (~ maxScoreCap v == 0 ->
   (forall s docs,
      let r := V2.calculateBasicScore s docs v in
      let b := V2.scoreBreakdown r in
      let exactSum := spec_weightedSum b (scoringWeights v) in
      (exactSum - eps64 <= V2.weightedScore64 b (scoringWeights v) /\
       V2.weightedScore64 b (scoringWeights v) <= exactSum + eps64) /\
      (spec_finalScore b v - 1 <= V2.score r)%Z /\
      (V2.score r <= spec_finalScore b v + 1)%Z /\
      (awayFromHalves exactSum eps64 -> V2.score r = spec_finalScore b v)) /\
   (forall oracle s dc docs n,
      exists r n',
        V2.calculateO1AScore oracle s dc docs v n = (Ok r, n') /\
        (r = V2.calculateBasicScore s docs v \/
         exists a,
           V2.aiAnalysis r = Some a /\
           V2.score r = Z.min (Math_round (V2.ai_overallScore a))
                              (Qfloor (maxScoreCap v))))).
Proof.
  intros (Hw & Hi & _ & _). split.
  - intros p. cbv zeta.
    unfold V1.calculateScore, spec_finalScore; cbn [V1.score V1.scoreBreakdown].
    destruct (V1_weighted64_error _ _ (V1_breakdown_within p v) Hw) as [L U].
    rewrite V1_weighted_spec in L, U.
    split; [now split |]. now apply final_score_near.
  - intros H0. split.
    + intros s docs. cbv zeta.
      unfold V2.calculateBasicScore, spec_finalScore;
        cbn [V2.score V2.scoreBreakdown].
      rewrite applyCap_min by exact H0.
      destruct (V2_weighted64_error _ _ (V2_basicBreakdown_within s docs v) Hw)
        as [L U].
      rewrite V2_weighted_spec in L, U.
      split; [now split |]. now apply final_score_near.
    + intros oracle s dc docs n.
      destruct (calculateO1AScore_cases oracle s dc docs v n)
        as (r & n' & Hr & _ & [Hb | (a & k & _ & _ & Ha & Hs & _)]);
        exists r, n'; (split; [exact Hr |]); [now left | right].
      exists a. split; [exact Ha |].
      rewrite Hs, applyCap_min by exact H0. now apply round_min_swap.
Qed.

Lemma C2_final_score_formula_witness :
  V1.score (V1.calculateScore Examples.profile Examples.o1a)
  = spec_finalScore
      (V1.scoreBreakdown (V1.calculateScore Examples.profile Examples.o1a))
      Examples.o1a /\
  V2.score (V2.calculateBasicScore Examples.summary8 [] Examples.o1a)
  = spec_finalScore
      (V2.scoreBreakdown (V2.calculateBasicScore Examples.summary8 [] Examples.o1a))
      Examples.o1a.
Proof.
  destruct (C2_final_score_formula Examples.o1a valid_o1a) as [H1 H2].
  destruct (H1 Examples.profile) as (_ & _ & _ & E1).
  destruct (H2 o1a_cap_nonzero) as [H3 _].
  destruct (H3 Examples.summary8 []) as (_ & _ & _ & E2).
  split.
  - apply E1. apply (awayFromHalves_between _ _ 66);
      [vm_compute; discriminate | vm_compute; reflexivity].
  - apply E2. apply (awayFromHalves_between _ _ 74);
      [vm_compute; discriminate | vm_compute; reflexivity].
Defined.

(** C2 as stated fails on the oracle path: the analysis below yields the
    breakdown 90/100/100/80/75, whose weighted sum rounds to 92 and caps at
    85, while the reported final score is the oracle's overall score 25.
    It also fails on the rule based paths when the exact sum is a
    half-integer.  For the Skilled Independent visa the breakdown
    50/85/50/30/95 has the exact sum 59.5, which rounds to 60; the code
    accumulates 59.49999999999999 and reports 59.  For Express Entry the
    breakdown 70/60/40/45/40 has the exact sum 55.5, which rounds to 56;
    the fallback of the second scorer adds up 55.49999999999999 and
    reports 55. *)
Lemma C2_counterexample :
  (exists r,
     V2.calculateO1AScore
       (Examples.answering (Examples.analysis Examples.allCriteria 25 "low"))
       Examples.summary8 EmptyString [] Examples.o1a 0%nat = (Ok r, 2%nat) /\
     V2.score r = 25%Z /\
     spec_finalScore (V2.scoreBreakdown r) Examples.o1a = 85%Z) /\
  (let r := V1.calculateScore Examples.graduate Examples.skilledIndependent in
   valid_visa Examples.skilledIndependent /\
   V1.scoreBreakdown r
   = {| experience := 50; education := 85; specialization := 50;
        language := 30; documentQuality := 95 |} /\
   spec_weightedSum (V1.scoreBreakdown r)
     (scoringWeights Examples.skilledIndependent) == 119 # 2 /\
   spec_finalScore (V1.scoreBreakdown r) Examples.skilledIndependent = 60%Z /\
   V1.score r = 59%Z) /\
  (let r := V2.calculateBasicScore Examples.summary2 [] Examples.expressEntry in
   valid_visa Examples.expressEntry /\
   ~ maxScoreCap Examples.expressEntry == 0 /\
   V2.scoreBreakdown r
   = {| experience := 70; education := 60; specialization := 40;
        language := 45; documentQuality := 40 |} /\
   spec_weightedSum (V2.scoreBreakdown r)
     (scoringWeights Examples.expressEntry) == 111 # 2 /\
   spec_finalScore (V2.scoreBreakdown r) Examples.expressEntry = 56%Z /\
   V2.score r = 55%Z).
Proof.
  split; [| split].
  - eexists. split; [vm_compute; reflexivity |].
    split; vm_compute; reflexivity.
  - cbv zeta. split.
    { unfold valid_visa, valid_weights, weight_ok, valid_cap.
      repeat split; try (vm_compute; discriminate); reflexivity. }
    repeat split; vm_compute; reflexivity.
  - cbv zeta. split.
    { unfold valid_visa, valid_weights, weight_ok, valid_cap.
      repeat split; try (vm_compute; discriminate); reflexivity. }
    split; [vm_compute; discriminate |].
    repeat split; vm_compute; reflexivity.
Qed.

End FinalScore.

(* ------------------------------------------------------------------ *)
(** ** The claims on the category and on the oracle fallback *)

Section CategoryAndFallback.
Import JS Model DocParse Props.

(** C3, as amended.  [determineScoreCategory] is the total threshold
    function: at least 75 strong_candidate, at least 60 moderate_fit, at
    least 40 consider_alternatives, otherwise not_recommended, with the six
    boundary values of the claim.  V1 [calculateScore] assigns that function
    of its final score.  V2 [calculateBasicScore] assigns it too whenever
    its final score is not exactly 40, 60 or 75.  On the oracle path the
    result is the fallback one or its category is read off the oracle's
    approval likelihood, not off the score. *)
Theorem C3_category_assignment :
  (forall s : Z,
     (V1.determineScoreCategory s = strong_candidate <-> (75 <= s)%Z) /\
     (V1.determineScoreCategory s = moderate_fit <-> (60 <= s < 75)%Z) /\
     (V1.determineScoreCategory s = consider_alternatives <-> (40 <= s < 60)%Z) /\
     (V1.determineScoreCategory s = not_recommended <-> (s < 40)%Z)) /\
  (V1.determineScoreCategory 39 = not_recommended /\
   V1.determineScoreCategory 40 = consider_alternatives /\
   V1.determineScoreCategory 59 = consider_alternatives /\
   V1.determineScoreCategory 60 = moderate_fit /\
   V1.determineScoreCategory 74 = moderate_fit /\
   V1.determineScoreCategory 75 = strong_candidate) /\
  (forall p v,
     V1.scoreCategory (V1.calculateScore p v)
     = V1.determineScoreCategory (V1.score (V1.calculateScore p v))) /\
  (forall s docs v,
     V2.score (V2.calculateBasicScore s docs v) <> 40%Z ->
     V2.score (V2.calculateBasicScore s docs v) <> 60%Z ->
     V2.score (V2.calculateBasicScore s docs v) <> 75%Z ->
     V2.scoreCategory (V2.calculateBasicScore s docs v)
     = V1.determineScoreCategory (V2.score (V2.calculateBasicScore s docs v))) /\
  (forall oracle s dc docs v n,
     exists r n',
       V2.calculateO1AScore oracle s dc docs v n = (Ok r, n') /\
       (r = V2.calculateBasicScore s docs v \/
        exists a,
          V2.aiAnalysis r = Some a /\
          V2.scoreCategory r
          = V2.categoryOfLikelihood (V2.ai_approvalLikelihood a))).
Proof.
  split.
  { intros s. unfold V1.determineScoreCategory.
    destruct (75 <=? s)%Z eqn:E1; [apply Z.leb_le in E1 | apply Z.leb_gt in E1];
    destruct (60 <=? s)%Z eqn:E2; [apply Z.leb_le in E2 | apply Z.leb_gt in E2
                                  | apply Z.leb_le in E2 | apply Z.leb_gt in E2];
    destruct (40 <=? s)%Z eqn:E3;
      try apply Z.leb_le in E3; try apply Z.leb_gt in E3;
    repeat split; intros; try discriminate; try lia; try reflexivity. }
  split; [repeat split |].
  split.
  { intros p v. unfold V1.calculateScore;
      cbn [V1.score V1.scoreCategory]. reflexivity. }
  split.
  { intros s docs v. unfold V2.calculateBasicScore;
      cbn [V2.score V2.scoreCategory].
    apply categoryOfCapped_round. }
  intros oracle s dc docs v n.
  destruct (calculateO1AScore_cases oracle s dc docs v n)
    as (r & n' & Hr & _ & [Hb | (a & k & _ & _ & Ha & _ & Hc)]);
    exists r, n'; (split; [exact Hr |]); [now left | right].
  exists a. now split.
Qed.

Lemma C3_category_assignment_witness :
  V2.scoreCategory (V2.calculateBasicScore "12 years, phd, science" [] Examples.o1a)
  = V1.determineScoreCategory
      (V2.score (V2.calculateBasicScore "12 years, phd, science" [] Examples.o1a)).
Proof.
  apply (proj1 (proj2 (proj2 (proj2 C3_category_assignment))));
    vm_compute; discriminate.
Defined.

(** C3 as stated fails on the oracle path: the final score 62 comes with
    the category consider_alternatives, because the oracle answered the
    likelihood "low"; the threshold function gives moderate_fit. *)
Lemma C3_counterexample :
  exists r,
    V2.calculateO1AScore
      (Examples.answering (Examples.analysis Examples.allCriteria 62 "low"))
      Examples.summary8 EmptyString [] Examples.o1a 0%nat = (Ok r, 2%nat) /\
    V2.score r = 62%Z /\
    V2.scoreCategory r = consider_alternatives /\
    V1.determineScoreCategory 62 = moderate_fit.
Proof.
  eexists. split; [vm_compute; reflexivity |].
  repeat split.
Qed.

(** At a boundary the fallback path can disagree with the threshold
    function of its own final score: the capped score 74.75 is reported as
    75 and classified moderate_fit. *)
Lemma V2_basic_category_at_boundary :
  V2.score (V2.calculateBasicScore Examples.summary8 [] Examples.o1a) = 75%Z /\
  V2.scoreCategory (V2.calculateBasicScore Examples.summary8 [] Examples.o1a)
  = moderate_fit.
Proof. split; vm_compute; reflexivity. Qed.

(** C5, as amended.  [calculateScoreWithAI] always returns a result,
    after at most six requests.  Whenever the analysis call fails (no key,
    a request rejected for good or timed out, an empty or unparsable
    answer) or the answer has no [o1aCriteria] array, [calculateO1AScore],
    and with it [calculateScoreWithAI] for an O-1 visa type, returns the
    result of the deterministic fallback [calculateBasicScore].  The
    scorer makes that one call and does not repeat it; the client it
    builds with default options sends a request again while it fails
    transiently, up to twice.  So a failed analysis costs one request when
    the first failure is not transient, three when the first two are, and
    never more than three. *)
Theorem C5_oracle_failure_falls_back
    (oracle : V2.Oracle) (s : string) (docs : list ParsedDocument)
    (v : IVisaType) (n : nat) :
  (exists r n',
     V2.calculateScoreWithAI oracle s docs v n = (Ok r, n') /\
     (n' <= n + 6)%nat) /\
  (forall dc,
     analysisFails oracle (requestOf s dc v) n ->
     V2.calculateO1AScore oracle s dc docs v n
     = (Ok (V2.calculateBasicScore s docs v),
        afterAnalysis oracle (requestOf s dc v) n) /\
     (n <= afterAnalysis oracle (requestOf s dc v) n <= n + 3)%nat /\
     (V2.hasApiKey oracle = false ->
      afterAnalysis oracle (requestOf s dc v) n = n) /\
     (V2.hasApiKey oracle = true ->
      match V2.analysisReply oracle (requestOf s dc v) n with
      | V2.Rejected _ => V2.transient oracle n = false
      | _ => True
      end ->
      afterAnalysis oracle (requestOf s dc v) n = S n) /\
     (V2.hasApiKey oracle = true ->
      (forall k, (k < 2)%nat ->
         V2.transient oracle (n + k) = true /\
         exists e,
           V2.analysisReply oracle (requestOf s dc v) (n + k) = V2.Rejected e) ->
      afterAnalysis oracle (requestOf s dc v) n = (n + 3)%nat)) /\
  (V2.isO1 v = true ->
   analysisFails oracle (requestOf s (V2.documentContents docs) v) n ->
   V2.calculateScoreWithAI oracle s docs v n
   = (Ok (V2.calculateBasicScore s docs v),
      afterAnalysis oracle (requestOf s (V2.documentContents docs) v) n)).
Proof.
  split; [| split].
  - exact (calculateScoreWithAI_total oracle s docs v n).
  - intros dc Hf. split; [now apply calculateO1AScore_fallback |].
    split; [apply afterAnalysis_bounds |].
    unfold afterAnalysis, analysisCall. split; [| split].
    + now intros ->.
    + intros -> H. now rewrite (send_once oracle _ _ n H).
    + intros -> H. unfold V2.maxRetries.
      destruct (H 0%nat ltac:(lia)) as (T0 & e0 & R0).
      destruct (H 1%nat ltac:(lia)) as (T1 & e1 & R1).
      rewrite Nat.add_0_r in T0, R0. rewrite Nat.add_1_r in T1, R1.
      cbn [V2.send]. rewrite R0, T0, R1, T1.
      destruct (V2.analysisReply oracle (requestOf s dc v) (S (S n)));
        cbn; lia.
  - intros Ho Hf. unfold V2.calculateScoreWithAI. rewrite Ho.
    now apply calculateO1AScore_fallback.
Qed.

Lemma C5_oracle_failure_falls_back_witness :
  V2.calculateO1AScore Examples.timingOut Examples.summary8 EmptyString []
    Examples.o1a 0%nat
  = (Ok (V2.calculateBasicScore Examples.summary8 [] Examples.o1a), 3%nat).
Proof.
  destruct (proj1 (proj2 (C5_oracle_failure_falls_back Examples.timingOut
                            Examples.summary8 [] Examples.o1a 0%nat))
                  EmptyString) as (H & _).
  - right. exact I.
  - exact H.
Defined.

(** C5 as stated fails twice.  An answer whose [o1aCriteria] array is
    empty, so that every criterion assessment is missing, is accepted, and
    the result is built from it instead of the fallback.  And an analysis
    request that times out is sent three times before the fallback is
    taken. *)
Lemma C5_counterexample :
  (criterionMissing (Examples.analysis [] 25 "low") = true /\
   exists r,
     V2.calculateO1AScore
       (Examples.answering (Examples.analysis [] 25 "low"))
       Examples.summary8 EmptyString [] Examples.o1a 0%nat = (Ok r, 2%nat) /\
     V2.aiAnalysis r = Some (Examples.analysis [] 25 "low") /\
     r <> V2.calculateBasicScore Examples.summary8 [] Examples.o1a) /\
  snd (V2.calculateO1AScore Examples.timingOut Examples.summary8 EmptyString
         [] Examples.o1a 0%nat) = 3%nat.
Proof.
  split; [| vm_compute; reflexivity].
  split; [reflexivity |].
  eexists. split; [vm_compute; reflexivity |].
  split; [reflexivity |].
  intros H. apply (f_equal V2.aiAnalysis) in H. discriminate H.
Qed.

End CategoryAndFallback.

(* ------------------------------------------------------------------ *)
(** ** The claims on the dimension scores *)

Section Dimensions.
Import JS Model DocParse Props.

(** C4, as amended.  For non-negative years, V1
    [calculateExperienceScore] is round((years/minRequired) * 50) below the
    minimum and round(50 + min(yearsAboveMin,10)/10 * 50) at or above it,
    hence exactly 50 at the minimum and exactly 100 from minimum + 10 on.
    V2 [calculateExperienceFromAI] is a step function instead: 70 at the
    minimum, 90 from minimum + 5 on, and max(0, (years/minRequired) * 40),
    not rounded, more than two years below the minimum. *)
Theorem C4_experience_score (years minRequired : Q) :
  0 <= years ->
  (years < minRequired ->
     V1.calculateExperienceScore years minRequired
     = Math_round ((years / minRequired) * 50)) /\
  (minRequired <= years ->
     V1.calculateExperienceScore years minRequired
     = Math_round (50 + Math_min (years - minRequired) 10 / 10 * 50)) /\
  (years == minRequired ->
     V1.calculateExperienceScore years minRequired = 50%Z) /\
  (minRequired + 10 <= years ->
     V1.calculateExperienceScore years minRequired = 100%Z) /\
  (years == minRequired ->
     V2.calculateExperienceFromAI years minRequired = 70) /\
  (minRequired + 5 <= years ->
     V2.calculateExperienceFromAI years minRequired = 90) /\
  (years < minRequired - 2 ->
     V2.calculateExperienceFromAI years minRequired
     = Math_max 0 ((years / minRequired) * 40)).
Proof.
  intros Hy. unfold V1.calculateExperienceScore, V2.calculateExperienceFromAI.
  repeat split.
  - intros H. apply ltb_true_iff in H. now rewrite H.
  - intros H. apply ltb_false_iff in H. rewrite H.
    destruct (geb years (minRequired + 10)) eqn:G.
    + apply geb_true_iff in G. symmetry.
      rewrite (Math_round_comp _ (inject_Z 100)).
      * apply Math_round_ofZ.
      * unfold Math_min. rewrite Q.min_r by lra. reflexivity.
    + apply geb_false_iff in G. apply Math_round_comp.
      unfold Math_min. rewrite Q.min_l by lra. reflexivity.
  - intros H.
    assert (L : ltb years minRequired = false) by (apply ltb_false_iff; lra).
    assert (G : geb years (minRequired + 10) = false)
      by (apply geb_false_iff; lra).
    rewrite L, G. rewrite (Math_round_comp _ (inject_Z 50)).
    + apply Math_round_ofZ.
    + rewrite H. field.
  - intros H.
    assert (L : ltb years minRequired = false) by (apply ltb_false_iff; lra).
    assert (G : geb years (minRequired + 10) = true)
      by (apply geb_true_iff; lra).
    now rewrite L, G.
  - intros H.
    assert (G5 : geb years (minRequired + 5) = false)
      by (apply geb_false_iff; lra).
    assert (G3 : geb years (minRequired + 3) = false)
      by (apply geb_false_iff; lra).
    assert (G0 : geb years minRequired = true) by (apply geb_true_iff; lra).
    now rewrite G5, G3, G0.
  - intros H.
    assert (G5 : geb years (minRequired + 5) = true)
      by (apply geb_true_iff; lra).
    now rewrite G5.
  - intros H.
    assert (G5 : geb years (minRequired + 5) = false)
      by (apply geb_false_iff; lra).
    assert (G3 : geb years (minRequired + 3) = false)
      by (apply geb_false_iff; lra).
    assert (G0 : geb years minRequired = false) by (apply geb_false_iff; lra).
    assert (G1 : geb years (minRequired - 1) = false)
      by (apply geb_false_iff; lra).
    assert (G2 : geb years (minRequired - 2) = false)
      by (apply geb_false_iff; lra).
    now rewrite G5, G3, G0, G1, G2.
Qed.

Lemma C4_experience_score_witness :
  V1.calculateExperienceScore 3 5 = Math_round ((3 / 5) * 50) /\
  V1.calculateExperienceScore 5 5 = 50%Z /\
  V1.calculateExperienceScore 15 5 = 100%Z /\
  V2.calculateExperienceFromAI 5 5 = 70.
Proof.
  assert (H3 : 0 <= 3) by (vm_compute; discriminate).
  assert (H5 : 0 <= 5) by (vm_compute; discriminate).
  assert (H15 : 0 <= 15) by (vm_compute; discriminate).
  destruct (C4_experience_score 3 5 H3) as (Hbelow & _).
  destruct (C4_experience_score 5 5 H5) as (_ & _ & Hat & _ & Hat2 & _).
  destruct (C4_experience_score 15 5 H15) as (_ & _ & _ & Hsat & _).
  split; [apply Hbelow; reflexivity |].
  split; [apply Hat; reflexivity |].
  split; [apply Hsat; vm_compute; discriminate |].
  apply Hat2; reflexivity.
Defined.

(** C4 as stated fails: one year against a minimum of two scores 25 in
    V1, not round((1/2) * 40) = 20; and in V2 five years against a minimum
    of five score 70, not 50. *)
Lemma C4_counterexample :
  V1.calculateExperienceScore 1 2 = 25%Z /\
  Math_round ((1 / 2) * 40) = 20%Z /\
  V2.calculateExperienceFromAI 5 5 = 70.
Proof. repeat split. Qed.

(** C6, as amended.  For all CEFR levels of applicant and requirement:
    V1 scores exactly 80 on equal levels, 80 plus 5 per level above capped
    at 100, and 60 minus 10 per level below floored at 30; V2 scores 70 on
    equal levels, 70 plus 10 per level for up to three levels above (at
    most 100), and 60 minus 15 per level below floored at 20. *)
Theorem C6_language_score (user required : CEFR) :
  (cefr_rank user = cefr_rank required ->
     V1.calculateLanguageScore (cefr_code user) (cefr_code required) = 80%Z /\
     V2.calculateLanguageScore (cefr_code user) (cefr_code required) = 70) /\
  ((cefr_rank required < cefr_rank user)%Z ->
     V1.calculateLanguageScore (cefr_code user) (cefr_code required)
     = Z.min 100 (80 + 5 * (cefr_rank user - cefr_rank required))) /\
  ((cefr_rank required < cefr_rank user <= cefr_rank required + 3)%Z ->
     V2.calculateLanguageScore (cefr_code user) (cefr_code required)
     = ofZ (70 + 10 * (cefr_rank user - cefr_rank required)) /\
     V2.calculateLanguageScore (cefr_code user) (cefr_code required) <= 100) /\
  ((cefr_rank user < cefr_rank required)%Z ->
     V1.calculateLanguageScore (cefr_code user) (cefr_code required)
     = Z.max 30 (60 - 10 * (cefr_rank required - cefr_rank user)) /\
     V2.calculateLanguageScore (cefr_code user) (cefr_code required)
     = ofZ (Z.max 20 (60 - 15 * (cefr_rank required - cefr_rank user)))).
Proof.
  destruct user, required; cbn [cefr_rank];
    (split; [| split; [| split]]); intros H; try lia;
    repeat split; try (vm_compute; reflexivity); vm_compute; discriminate.
Qed.

Lemma C6_language_score_witness :
  V1.calculateLanguageScore "b2" "b2" = 80%Z /\
  V1.calculateLanguageScore "c2" "a1" = 100%Z /\
  V2.calculateLanguageScore "c1" "b1" = 90 /\
  V1.calculateLanguageScore "a1" "c2" = 30%Z /\
  V2.calculateLanguageScore "a1" "c2" = 20.
Proof.
  destruct (C6_language_score B2 B2) as [Heq _].
  destruct (C6_language_score C2 A1) as (_ & Habove & _).
  destruct (C6_language_score C1 B1) as (_ & _ & Habove3 & _).
  destruct (C6_language_score A1 C2) as (_ & _ & _ & Hbelow).
  split; [exact (proj1 (Heq eq_refl)) |].
  split; [exact (Habove eq_refl) |].
  split; [apply Habove3; cbn; lia |].
  apply Hbelow. reflexivity.
Defined.

(** C6 as stated fails in V2: equal levels score 70, not 80. *)
Lemma C6_counterexample :
  V2.calculateLanguageScore (cefr_code B1) (cefr_code B1) = 70 /\
  ~ 70 == 80.
Proof. split; [reflexivity | discriminate]. Qed.

(** More than three levels above the requirement, the V2 score leaves the
    range 0..100. *)
Lemma V2_language_above_100 :
  V2.calculateLanguageScore (cefr_code C2) (cefr_code A1) = 120.
Proof. reflexivity. Qed.

End Dimensions.

(* ------------------------------------------------------------------ *)
(** ** The claims on the specialization dimension *)

Section Specialization.
Import JS Model DocParse Props.

Lemma V2_specialization_exact field allowed :
  exactMatch field allowed ->
  V2.calculateSpecializationScore field allowed = 100.
Proof.
  intros (spec & Hin & Heq). unfold V2.calculateSpecializationScore.
  assert (E : existsb (fun spec0 => String.eqb (toLowerCase field)
                                             (toLowerCase spec0)) allowed
              = true).
  { apply existsb_exists. exists spec. split; [exact Hin |].
    now apply String.eqb_eq. }
  now rewrite E.
Qed.

(** In V2 the three tiers are 100, 70 and 40, and the top one is exactly
    the case-insensitive exact match. *)
Lemma V2_specialization_tiers field allowed :
  (V2.calculateSpecializationScore field allowed = 100 /\
   exactMatch field allowed) \/
  (V2.calculateSpecializationScore field allowed = 70 /\
   ~ exactMatch field allowed) \/
  (V2.calculateSpecializationScore field allowed = 40 /\
   ~ exactMatch field allowed).
Proof.
  unfold V2.calculateSpecializationScore.
  destruct (existsb _ allowed) eqn:E.
  - left. split; [reflexivity |].
    apply existsb_exists in E. destruct E as (spec & Hin & Heq).
    exists spec. split; [exact Hin | now apply String.eqb_eq].
  - assert (N : ~ exactMatch field allowed).
    { intros (spec & Hin & Heq).
      assert (T : existsb (fun spec0 => String.eqb (toLowerCase field)
                                                 (toLowerCase spec0)) allowed
                  = true).
      { apply existsb_exists. exists spec. split; [exact Hin |].
        now apply String.eqb_eq. }
      congruence. }
    right.
    match goal with
    | |- context [if existsb ?f allowed then 70 else 40] =>
        destruct (existsb f allowed)
    end; [left | right]; (split; [reflexivity | exact N]).
Qed.

(** V1 gives an exact match the top score when the allowed set is stored
    in lower case. *)
Lemma V1_specialization_exact_lowercase userSpec allowed :
  allLowerCase allowed -> exactMatch userSpec allowed ->
  V1.calculateSpecializationScore userSpec (Some allowed) = 100%Z.
Proof.
  intros Hl (spec & Hin & Heq). unfold V1.calculateSpecializationScore.
  destruct allowed as [| a0 rest]; [contradiction |].
  assert (E : arrIncludes (a0 :: rest) (toLowerCase userSpec) = true).
  { apply existsb_exists. exists spec. split; [exact Hin |].
    apply String.eqb_eq. rewrite Heq. now apply Hl. }
  now rewrite E.
Qed.

(** C8, evaluated where the code departs from it.  "technology" matches
    the allowed entry "Technology" exactly up to case; V2 scores it 100,
    but V1 compares with the entry as stored and scores it 75, the same as
    the partial match "tech"; so does the breakdown of [calculateScore]. *)
Theorem C8_V1_exact_match_ignores_case_on_one_side :
  exactMatch "technology" ["Technology"] /\
  V1.calculateSpecializationScore "technology" (Some ["Technology"]) = 75%Z /\
  V1.calculateSpecializationScore "tech" (Some ["Technology"]) = 75%Z /\
  V1.calculateSpecializationScore "law" (Some ["Technology"]) = 50%Z /\
  V2.calculateSpecializationScore "technology" ["Technology"] = 100 /\
  specialization
    (V1.scoreBreakdown (V1.calculateScore Examples.profile Examples.capitalised))
  = 75.
Proof.
  split.
  - exists "Technology". split; [now left | reflexivity].
  - repeat split.
Qed.

(** A separator at either end of the applicant's specialization leaves an
    empty keyword, which every allowed entry contains: V1 then reports a
    partial match whatever the specialization. *)
Lemma V1_specialization_empty_keyword :
  V1.calculateSpecializationScore "law " (Some ["technology"]) = 75%Z /\
  V1.calculateSpecializationScore "law" (Some ["technology"]) = 50%Z.
Proof. split; reflexivity. Qed.

(** C10.  With an absent or empty list of allowed specializations the V1
    specialization scorer returns 80 for every applicant specialization,
    and so does the specialization entry of the breakdown of
    [calculateScore]. *)
Theorem C10_no_required_specializations (userSpec : string) :
  V1.calculateSpecializationScore userSpec None = 80%Z /\
  V1.calculateSpecializationScore userSpec (Some []) = 80%Z /\
  (forall p v,
     p_specialization p = userSpec ->
     specializations (eligibilityCriteria v) = [] ->
     specialization (V1.scoreBreakdown (V1.calculateScore p v)) = 80).
Proof.
  repeat split. intros p v _ Hs.
  unfold V1.calculateScore, V1.computeBreakdown;
    cbn [V1.scoreBreakdown specialization].
  now rewrite Hs.
Qed.

Lemma C10_no_required_specializations_witness :
  specialization
    (V1.scoreBreakdown (V1.calculateScore Examples.profile Examples.anyField))
  = 80.
Proof.
  destruct (C10_no_required_specializations "technology") as (_ & _ & H).
  apply H; reflexivity.
Defined.

End Specialization.

(* ------------------------------------------------------------------ *)
(** ** The claims on document extraction *)

Section Documents.
Import JS Model DocParse Props.

(** *** Counting words *)

Lemma split_counts (s : string) :
  (forall inRun,
     List.length (filter nonEmpty (fst (splitRuns isSpace inRun s)
                                   :: snd (splitRuns isSpace inRun s)))
     = countRuns false s) /\
  List.length (filter nonEmpty (snd (splitRuns isSpace false s)))
  = countRuns true s.
Proof.
  induction s as [| c r [IHa IHb]]; [split; [intros []|]; reflexivity |].
  split.
  - intros inRun. cbn [splitRuns countRuns].
    destruct (isSpace c).
    + destruct inRun.
      * apply IHa.
      * specialize (IHa true).
        destruct (splitRuns isSpace true r) as [w ws]. exact IHa.
    + destruct (splitRuns isSpace false r) as [w ws].
      cbn [fst snd filter nonEmpty List.length] in *. now rewrite IHb.
  - cbn [splitRuns countRuns].
    destruct (isSpace c).
    + specialize (IHa true).
      destruct (splitRuns isSpace true r) as [w ws]. exact IHa.
    + destruct (splitRuns isSpace false r) as [w ws].
      cbn [fst snd] in *. exact IHb.
Qed.

(** The word count of the code is the number of maximal runs of
    non-whitespace characters. *)
Lemma countWords_spec (s : string) : countWords s = spec_wordCount s.
Proof.
  unfold countWords, split, spec_wordCount.
  pose proof (proj1 (split_counts s) false) as H.
  destruct (splitRuns isSpace false s) as [w ws]. exact H.
Qed.

Lemma countRuns_dropWhile (s : string) :
  countRuns false (dropWhile isSpace s) = countRuns false s.
Proof.
  induction s as [| c r IH]; [reflexivity |].
  cbn [dropWhile countRuns]. destruct (isSpace c) eqn:E; [exact IH |].
  cbn [countRuns]. now rewrite E.
Qed.

Lemma countRuns_trimEnd (s : string) :
  forall b, countRuns b (trimEnd s) = countRuns b s.
Proof.
  induction s as [| c r IH]; [reflexivity |].
  intros b. cbn [trimEnd].
  destruct (trimEnd r) as [| c' r'] eqn:E.
  - destruct (isSpace c) eqn:Ec; cbn [countRuns]; rewrite Ec.
    + now rewrite <- IH.
    + now rewrite <- (IH true).
  - cbn [countRuns]. destruct (isSpace c); now rewrite <- IH.
Qed.

Lemma spec_wordCount_trim (s : string) :
  spec_wordCount (trim s) = spec_wordCount s.
Proof.
  unfold spec_wordCount, trim.
  now rewrite countRuns_trimEnd, countRuns_dropWhile.
Qed.

(** *** One document *)

Lemma isImageExt_cases ext :
  isImageExt ext = true -> ext = ".jpg" \/ ext = ".jpeg" \/ ext = ".png".
Proof.
  unfold isImageExt. intros H.
  apply orb_true_iff in H. destruct H as [H | H];
    [apply orb_true_iff in H; destruct H as [H | H] |];
    apply String.eqb_eq in H; auto.
Qed.

Lemma dispatch_image env ext filePath :
  isImageExt ext = true ->
  dispatch env ext filePath
  = Ok {| l_extractedText := "[Image file - OCR not implemented]";
          l_parseSuccess := false;
          l_error := Some "Image file requires OCR for text extraction" |}.
Proof.
  intros H. destruct (isImageExt_cases ext H) as [-> | [-> | ->]]; reflexivity.
Qed.

Lemma dispatch_unsupported env ext filePath :
  isImageExt ext = false -> isTextExt ext = false ->
  dispatch env ext filePath
  = Ok {| l_extractedText := EmptyString;
          l_parseSuccess := false;
          l_error := Some ("Unsupported file type: " ++ ext) |}.
Proof.
  unfold isTextExt, dispatch. intros Hi Ht. rewrite Hi.
  repeat (apply orb_false_iff in Ht; destruct Ht as [Ht ?]).
  repeat match goal with H : String.eqb _ _ = false |- _ => rewrite H; clear H end.
  reflexivity.
Qed.

(** After a [switch] that ran to its end, a failure flag comes with no
    text, except for the placeholder text of an image. *)
Lemma dispatch_failed_text env ext filePath l :
  dispatch env ext filePath = Ok l -> l_parseSuccess l = false ->
  isImageExt ext = false -> l_extractedText l = EmptyString.
Proof.
  unfold dispatch, extracted. intros H Hs Hi. rewrite Hi in H.
  repeat match type of H with
  | (if ?b then _ else _) = _ => destruct b
  | match ?x with _ => _ end = _ => destruct x
  end; try discriminate; injection H as <-; try discriminate; reflexivity.
Qed.

Lemma parseDocument_returns env filePath fileName documentType :
  exists l,
    (dispatch env (toLowerCase (extname fileName)) filePath = Ok l \/
     exists e,
       dispatch env (toLowerCase (extname fileName)) filePath = Throw e /\
       l = {| l_extractedText := EmptyString;
              l_parseSuccess := false;
              l_error := Some (messageOr "Unknown parsing error" e) |}) /\
    parseDocument env filePath fileName documentType
    = Ok {| fileName := fileName;
            documentType := documentType;
            extractedText := trim (l_extractedText l);
            wordCount := countWords (l_extractedText l);
            parseSuccess := l_parseSuccess l;
            error := l_error l |}.
Proof.
  unfold parseDocument.
  destruct (dispatch env (toLowerCase (extname fileName)) filePath) as [l | e].
  - exists l. split; [now left | reflexivity].
  - eexists. split; [right; exists e; split; reflexivity | reflexivity].
Qed.

Lemma parseUploads_entries env files :
  List.length (parseUploads env files) = List.length files /\
  map fileName (parseUploads env files) = map originalname files /\
  Forall (fun d => wordCount d = spec_wordCount (extractedText d))
         (parseUploads env files).
Proof.
  induction files as [| f rest (IHl & IHn & IHw)]; [repeat split; constructor |].
  cbn [parseUploads List.length map].
  destruct (parseDocument_returns env (path f) (originalname f) (fieldOrOther f))
    as (l & _ & ->).
  cbn [fileName]. rewrite IHl, IHn. repeat split.
  constructor; [| exact IHw].
  cbn [wordCount extractedText].
  now rewrite countWords_spec, spec_wordCount_trim.
Qed.

(** C7, as amended.  [parseDocument] returns a ParsedDocument for every
    file and never throws.  An image extension yields parseSuccess=false
    with the OCR message, and an extension outside the supported ones
    yields parseSuccess=false with the unsupported-type message.  A failed
    extraction yields parseSuccess=false, no text and the message of the
    failure: for .pdf when the read or the PDF library throws, for .docx
    when the Word library throws, for .txt when the read throws, and for
    .doc when both the Word library and the read of the raw text throw.
    The upload loop pushes exactly one entry per uploaded file, in order. *)
Theorem C7_extraction_never_throws
    (env : FileEnv) (filePath fileName documentType : string) :
  (exists d,
     parseDocument env filePath fileName documentType = Ok d /\
     (isImageExt (toLowerCase (extname fileName)) = true ->
        parseSuccess d = false /\
        error d = Some "Image file requires OCR for text extraction") /\
     (isImageExt (toLowerCase (extname fileName)) = false ->
      isTextExt (toLowerCase (extname fileName)) = false ->
        parseSuccess d = false /\
        error d = Some ("Unsupported file type: "
                        ++ toLowerCase (extname fileName))) /\
     (forall message,
        extractionFails env filePath (toLowerCase (extname fileName)) message ->
        parseSuccess d = false /\ error d = Some message /\
        extractedText d = EmptyString /\ wordCount d = 0%nat)) /\
  (forall files,
     List.length (parseUploads env files) = List.length files /\
     map DocParse.fileName (parseUploads env files) = map originalname files).
Proof.
  split.
  - destruct (parseDocument_returns env filePath fileName documentType)
      as (l & Hl & ->).
    eexists. split; [reflexivity |].
    cbn [parseSuccess error extractedText wordCount].
    split; [| split].
    + intros Hi. rewrite (dispatch_image env _ filePath Hi) in Hl.
      destruct Hl as [Hl | (e & Hl & _)]; [| discriminate].
      injection Hl as <-. now split.
    + intros Hi Ht. rewrite (dispatch_unsupported env _ filePath Hi Ht) in Hl.
      destruct Hl as [Hl | (e & Hl & _)]; [| discriminate].
      injection Hl as <-. now split.
    + intros message Hf.
      assert (D : exists thrown,
                 dispatch env (toLowerCase (extname fileName)) filePath
                 = Throw thrown /\
                 messageOr "Unknown parsing error" thrown = message).
      { destruct Hf as [e He | buf e Hb He | e He | e e' He He' | e He];
          unfold dispatch, extracted, parsePDF, parseDOCX, parseDOC, rethrow;
          cbn [String.eqb Ascii.eqb Bool.eqb andb];
          rewrite ?Hb, ?He, ?He'; eexists; split; reflexivity. }
      destruct D as (thrown & D & <-). rewrite D in Hl.
      destruct Hl as [Hl | (e' & Hl & ->)]; [discriminate |].
      injection Hl as <-. repeat split.
  - intros files. destruct (parseUploads_entries env files) as (H1 & H2 & _).
    now split.
Qed.

Lemma C7_extraction_never_throws_witness :
  exists d,
    parseDocument Examples.brokenFiles "uploads/cv.pdf" "cv.pdf" "resume" = Ok d /\
    parseSuccess d = false /\
    error d
    = Some "Failed to parse PDF: ENOENT: no such file or directory".
Proof.
  destruct (C7_extraction_never_throws Examples.brokenFiles
              "uploads/cv.pdf" "cv.pdf" "resume")
    as [(d & Hd & _ & _ & Hfail) _].
  exists d. split; [exact Hd |].
  destruct (Hfail "Failed to parse PDF: ENOENT: no such file or directory")
    as (Hs & He & _).
  - exact (pdf_unreadable Examples.brokenFiles "uploads/cv.pdf"
             (ErrorObj "ENOENT: no such file or directory") eq_refl).
  - now split.
Defined.

(** C7 as stated fails for the legacy Word format: a .doc file that the
    Word library rejects, but whose bytes can be read, is reported with
    parseSuccess=true and without an error. *)
Lemma C7_counterexample :
  mammoth_extractRawText Examples.legacyFiles "uploads/cv.doc"
  = Throw (ErrorObj "Can't find end of central directory") /\
  exists d,
    parseDocument Examples.legacyFiles "uploads/cv.doc" "cv.doc" "resume"
    = Ok d /\
    parseSuccess d = true /\ error d = None /\
    extractedText d = "Curriculum vitae".
Proof.
  split; [reflexivity |].
  eexists. split; [reflexivity |]. repeat split.
Qed.

(** C9, as amended.  The word count of every ParsedDocument is the
    number of non-empty whitespace-separated tokens of its extracted text.
    It is zero whenever extraction failed on a file that is not an image;
    for an image the count is that of the placeholder text, 6. *)
Theorem C9_word_count
    (env : FileEnv) (filePath fileName documentType : string) :
  (exists d,
     parseDocument env filePath fileName documentType = Ok d /\
     wordCount d = spec_wordCount (extractedText d) /\
     (parseSuccess d = false ->
      isImageExt (toLowerCase (extname fileName)) = false ->
      wordCount d = 0%nat) /\
     (isImageExt (toLowerCase (extname fileName)) = true ->
      wordCount d = 6%nat)) /\
  (forall files,
     Forall (fun d => wordCount d = spec_wordCount (extractedText d))
            (parseUploads env files)).
Proof.
  split.
  - destruct (parseDocument_returns env filePath fileName documentType)
      as (l & Hl & ->).
    eexists. split; [reflexivity |].
    cbn [wordCount extractedText parseSuccess].
    split; [now rewrite countWords_spec, spec_wordCount_trim |].
    split.
    + intros Hs Hi. destruct Hl as [Hl | (e & _ & ->)]; [| reflexivity].
      now rewrite (dispatch_failed_text env _ _ _ Hl Hs Hi).
    + intros Hi. rewrite (dispatch_image env _ filePath Hi) in Hl.
      destruct Hl as [Hl | (e & Hl & _)]; [| discriminate].
      injection Hl as <-. reflexivity.
  - intros files. apply parseUploads_entries.
Qed.

Lemma C9_word_count_witness :
  exists d,
    parseDocument Examples.brokenFiles "uploads/cv.pdf" "cv.pdf" "resume" = Ok d /\
    wordCount d = 0%nat.
Proof.
  destruct (C9_word_count Examples.brokenFiles
              "uploads/cv.pdf" "cv.pdf" "resume")
    as [(d & Hd & _ & Hzero & _) _].
  exists d. split; [exact Hd |].
  apply Hzero; [| reflexivity].
  vm_compute in Hd. injection Hd as <-. reflexivity.
Defined.

(** C9 as stated fails for an image: extraction fails and the word count
    is 6, the number of tokens of the placeholder text. *)
Lemma C9_counterexample :
  exists d,
    parseDocument Examples.brokenFiles "uploads/photo.png" "photo.png" "resume"
    = Ok d /\
    parseSuccess d = false /\
    extractedText d = "[Image file - OCR not implemented]" /\
    wordCount d = 6%nat.
Proof. eexists. split; [vm_compute; reflexivity | repeat split]. Qed.

End Documents.

(* ================================================================== *)
(** * Further properties of the code *)

(* ------------------------------------------------------------------ *)
(** ** Ranges of the first scorer *)

Section V1Ranges.
Import JS Model Props Scales.

(** X1.  Every entry of the breakdown computed by V1 [calculateScore] lies
    in 0..100, for every profile and every visa type. *)
Theorem X1_V1_breakdown_in_range (p : UserProfile) (v : IVisaType) :
  breakdown_in_range (V1.scoreBreakdown (V1.calculateScore p v)).
Proof. apply V1_breakdown_in_range. Qed.



End V1Ranges.

(* ------------------------------------------------------------------ *)
(** ** The education and document dimensions *)


Section DimensionFacts.
Import JS Model DocParse Props Scales.


(** X3.  V1 [calculateEducationScore] on the four education levels: an
    applicant at or above the required level scores the baseline of the
    own level (40, 65, 85, 100); one below it scores under 50; and for a
    fixed requirement the score never decreases with the applicant's
    level.  A string that is neither one of the four levels nor a name
    inherited from [Object.prototype] scores 0 against any of them. *)
Theorem X3_V1_education_score (user user' required : EducationLevel) :
  ((education_rank required <= education_rank user)%Z ->
     V1.calculateEducationScore (education_code user) (education_code required)
     = match user with
       | HighSchool => 40 | Bachelor => 65 | Master => 85 | PhD => 100
       end%Z) /\
  ((education_rank user < education_rank required)%Z ->
     (V1.calculateEducationScore (education_code user)
                                 (education_code required) < 50)%Z) /\
  ((education_rank user <= education_rank user')%Z ->
     (V1.calculateEducationScore (education_code user) (education_code required)
      <= V1.calculateEducationScore (education_code user')
                                    (education_code required))%Z) /\
  (forall other,
     V1.levels other = None -> inherited other = false ->
     V1.calculateEducationScore other (education_code required) = 0%Z).
Proof.
  split; [| split; [| split]].
  - destruct user, required; cbn [education_rank]; intros H; try lia;
      vm_compute; reflexivity.
  - destruct user, required; cbn [education_rank]; intros H; try lia;
      vm_compute; reflexivity.
  - destruct user, user', required; cbn [education_rank]; intros H; try lia;
      vm_compute; discriminate.
  - intros other Ho _. unfold V1.calculateEducationScore. rewrite Ho.
    destruct required; reflexivity.
Qed.

Lemma X3_V1_education_score_witness :
  V1.calculateEducationScore "master" "bachelor" = 85%Z /\
  (V1.calculateEducationScore "bachelor" "phd" < 50)%Z /\
  V1.calculateEducationScore "certificate" "bachelor" = 0%Z.
Proof.
  destruct (X3_V1_education_score Master Master Bachelor) as (Hmeet & _).
  destruct (X3_V1_education_score Bachelor Bachelor PhD) as (_ & Hshort & _).
  destruct (X3_V1_education_score Bachelor Bachelor Bachelor)
    as (_ & _ & _ & Hother).
  split; [apply Hmeet; cbn; lia |].
  split; [apply Hshort; cbn; lia |].
  apply Hother; reflexivity.
Defined.

(** X4.  V2 [calculateEducationFromAI] lies in (0, 100] for all strings
    except the names inherited from [Object.prototype].  A level it does
    not know counts as high school and a requirement it does not know as
    bachelor. *)
Theorem X4_V2_education_score (level required : string) :
  inherited level = false -> inherited required = false ->
  0 < V2.calculateEducationFromAI level required /\
  V2.calculateEducationFromAI level required <= 100 /\
  (V2.levels level = None ->
     V2.calculateEducationFromAI level required
     = V2.calculateEducationFromAI "high_school" required) /\
  (V2.levels required = None ->
     V2.calculateEducationFromAI level required
     = V2.calculateEducationFromAI level "bachelor").
Proof.
  intros _ _.
  assert (B : forall k d, 0 < d -> d <= 100 ->
            0 < match V2.levels k with Some n => n | None => d end /\
            match V2.levels k with Some n => n | None => d end <= 100).
  { intros k d H0 H1. unfold V2.levels.
    repeat match goal with |- context [if ?b then _ else _] => destruct b end;
      split; lra. }
  split; [| split; [| split]].
  - unfold V2.calculateEducationFromAI.
    destruct (B level 30) as [Hu _]; try lra.
    destruct (B required 60) as [Hr _]; try lra.
    destruct (geb _ _); [exact Hu |].
    apply Qmult_lt_0_compat; [| lra].
    apply Qlt_shift_div_l; lra.
  - unfold V2.calculateEducationFromAI.
    destruct (B level 30) as [Hu Hu']; try lra.
    destruct (B required 60) as [Hr Hr']; try lra.
    destruct (geb _ _) eqn:G; [exact Hu' |].
    apply geb_false_iff in G.
    assert (H : match V2.levels level with Some n => n | None => 30 end
                / match V2.levels required with Some n => n | None => 60 end
                <= 1) by (apply Qdiv_le_1; lra).
    lra.
  - intros H. unfold V2.calculateEducationFromAI. now rewrite H.
  - intros H. unfold V2.calculateEducationFromAI. now rewrite H.
Qed.

Lemma X4_V2_education_score_witness :
  V2.calculateEducationFromAI "certificate" "master"
  = V2.calculateEducationFromAI "high_school" "master".
Proof.
  apply (X4_V2_education_score "certificate" "master"); reflexivity.
Defined.

(** X5.  V1 [calculateDocumentScore] lies in 40..100, never decreases with
    the number of documents, and gives a profile with all required
    documents a higher score than any profile without them. *)
Theorem X5_V1_document_score (count count' : nat) (hasAll : bool) :
  (40 <= V1.calculateDocumentScore count hasAll <= 100)%Z /\
  ((count <= count')%nat ->
     (V1.calculateDocumentScore count hasAll
      <= V1.calculateDocumentScore count' hasAll)%Z) /\
  (V1.calculateDocumentScore count false
   < V1.calculateDocumentScore count' true)%Z.
Proof.
  unfold V1.calculateDocumentScore. cbv zeta.
  destruct (Nat.leb_spec 5 count); destruct (Nat.leb_spec 3 count);
  destruct (Nat.leb_spec 5 count'); destruct (Nat.leb_spec 3 count');
  destruct hasAll; cbv iota; repeat split; intros; lia.
Qed.

Lemma X5_V1_document_score_witness :
  (V1.calculateDocumentScore 2 true <= V1.calculateDocumentScore 6 true)%Z.
Proof.
  apply (X5_V1_document_score 2 6 true). lia.
Defined.

Lemma parsedCount_app docs docs' :
  V2.parsedCount (docs ++ docs')
  = (V2.parsedCount docs + V2.parsedCount docs')%nat.
Proof.
  unfold V2.parsedCount. now rewrite filter_app, length_app.
Qed.

(** X6.  V2 [calculateDocumentQualityFromAI] lies in 25..100; it depends
    on the documents only through the number that parsed successfully, and
    never decreases when more documents are uploaded. *)
Theorem X6_V2_document_quality
    (quality : option string) (docs more : list ParsedDocument) :
  25 <= V2.calculateDocumentQualityFromAI quality docs /\
  V2.calculateDocumentQualityFromAI quality docs <= 100 /\
  V2.calculateDocumentQualityFromAI quality docs
  <= V2.calculateDocumentQualityFromAI quality (docs ++ more) /\
  (forall docs',
     V2.parsedCount docs' = V2.parsedCount docs ->
     V2.calculateDocumentQualityFromAI quality docs'
     = V2.calculateDocumentQualityFromAI quality docs).
Proof.
  assert (B : 25 <= match quality with
                    | Some q =>
                        if String.eqb q "excellent" then 95
                        else if String.eqb q "good" then 75
                        else if String.eqb q "fair" then 50
                        else if String.eqb q "poor" then 25
                        else 40
                    | None => 40
                    end).
  { destruct quality as [q|]; [| lra].
    repeat match goal with |- context [if ?b then _ else _] => destruct b end;
      lra. }
  unfold V2.calculateDocumentQualityFromAI.
  rewrite parsedCount_app.
  set (base := match quality with Some q => _ | None => 40 end) in *.
  set (n := V2.parsedCount docs). set (m := V2.parsedCount more).
  split; [| split; [| split]].
  - unfold Math_min. apply Q.min_glb; [lra |].
    destruct (5 <=? n)%nat, (8 <=? n)%nat; lra.
  - unfold Math_min. apply Q.le_min_l.
  - unfold Math_min. apply Q.min_le_compat_l.
    destruct (Nat.leb_spec 5 n); destruct (Nat.leb_spec 8 n);
    destruct (Nat.leb_spec 5 (n + m)); destruct (Nat.leb_spec 8 (n + m));
    try lia; lra.
  - intros docs' H. now rewrite H.
Qed.

Lemma X6_V2_document_quality_witness :
  V2.calculateDocumentQualityFromAI (Some "good")
    (DocParse.parseUploads Examples.brokenFiles [Examples.upload "cv.pdf"])
  = V2.calculateDocumentQualityFromAI (Some "good") [].
Proof.
  apply (X6_V2_document_quality (Some "good") [] []). reflexivity.
Defined.

End DimensionFacts.

(* ------------------------------------------------------------------ *)
(** ** Profile extraction *)

Section ExtractionFacts.
Import JS Model DocParse Props Scales.

Lemma matchCEFR_shape (s l : string) :
  matchCEFR s = Some l ->
  exists a b, l = String a (String b EmptyString) /\
              isABC a = true /\ is12 b = true.
Proof.
  revert l. induction s as [| a r IH]; intros l H; [discriminate |].
  destruct r as [| b r']; [discriminate |].
  cbn [matchCEFR] in H.
  destruct (isABC a && is12 b) eqn:E.
  - apply andb_true_iff in E. destruct E as [Ea Eb].
    injection H as <-. now exists a, b.
  - now apply IH.
Qed.

Lemma lowered_level_is_CEFR (a b : ascii) :
  isABC a = true -> is12 b = true ->
  exists l : CEFR,
    toLowerCase (String a (String b EmptyString)) = cefr_code l.
Proof.
  unfold isABC, is12. intros Ha Hb. cbn [toLowerCase].
  apply orb_true_iff in Hb.
  assert (Hb' : b = "1"%char \/ b = "2"%char)
    by (destruct Hb as [Hb | Hb]; apply Ascii.eqb_eq in Hb; auto).
  apply orb_true_iff in Ha. destruct Ha as [Ha | Ha];
    [apply orb_true_iff in Ha; destruct Ha as [Ha | Ha] |];
    apply Ascii.eqb_eq in Ha; rewrite Ha;
    destruct Hb' as [-> | ->].
  - now exists A1.
  - now exists A2.
  - now exists B1.
  - now exists B2.
  - now exists C1.
  - now exists C2.
Qed.

Lemma extracted_level_is_CEFR (summary : string) :
  exists l : CEFR,
    match matchCEFR summary with
    | Some l0 => toLowerCase l0
    | None => "b2"
    end = cefr_code l.
Proof.
  destruct (matchCEFR summary) as [l0 |] eqn:E; [| now exists B2].
  destruct (matchCEFR_shape _ _ E) as (a & b & -> & Ha & Hb).
  now apply lowered_level_is_CEFR.
Qed.

(** X7.  Whatever the summary, the language level that [extractUserProfile]
    reports (in both services) is one of the six CEFR codes; so against a
    CEFR requirement the V1 language score is never 60, the value kept for
    levels that are not recognised. *)
Theorem X7_extracted_language_is_CEFR
    (A : Type) (professionalSummary : string) (documents : list A) :
  (exists l : CEFR,
     p_languageLevel (V1.extractUserProfile professionalSummary documents)
     = cefr_code l) /\
  (exists l : CEFR,
     p_languageLevel (V2.extractUserProfile professionalSummary documents)
     = cefr_code l) /\
  (forall required : CEFR,
     V1.calculateLanguageScore
       (p_languageLevel (V1.extractUserProfile professionalSummary documents))
       (cefr_code required) <> 60%Z).
Proof.
  unfold V1.extractUserProfile, V2.extractUserProfile; cbn [p_languageLevel].
  destruct (extracted_level_is_CEFR (toLowerCase professionalSummary))
    as (l & Hl).
  split; [now exists l |]. split; [now exists l |].
  intros required. rewrite Hl.
  destruct l, required; vm_compute; discriminate.
Qed.

(** X8.  The two [extractUserProfile] functions return the same years of
    experience, specialization, language level and document fields for
    every summary; they may differ on the education level only, where the
    first service never reports a lower level than the second. *)
Theorem X8_extractors_agree
    (A : Type) (professionalSummary : string) (documents : list A) :
  let p1 := V1.extractUserProfile professionalSummary documents in
  let p2 := V2.extractUserProfile professionalSummary documents in
  p_experience p1 = p_experience p2 /\
  p_specialization p1 = p_specialization p2 /\
  p_languageLevel p1 = p_languageLevel p2 /\
  p_documentCount p1 = p_documentCount p2 /\
  p_hasAllRequiredDocs p1 = p_hasAllRequiredDocs p2 /\
  exists l1 l2 : EducationLevel,
    p_education p1 = education_code l1 /\
    p_education p2 = education_code l2 /\
    (education_rank l2 <= education_rank l1)%Z.
Proof.
  cbv zeta. unfold V1.extractUserProfile, V2.extractUserProfile;
    cbn [p_experience p_specialization p_languageLevel p_documentCount
         p_hasAllRequiredDocs p_education].
  repeat (split; [reflexivity |]).
  unfold V1.extractEducation.
  repeat match goal with
         | |- context [includes ?s ?k] => destruct (includes s k)
         end; cbn [orb];
  first [ exists PhD, PhD; repeat split; cbn; lia
        | exists PhD, Master; repeat split; cbn; lia
        | exists PhD, Bachelor; repeat split; cbn; lia
        | exists PhD, HighSchool; repeat split; cbn; lia
        | exists Master, Master; repeat split; cbn; lia
        | exists Master, Bachelor; repeat split; cbn; lia
        | exists Master, HighSchool; repeat split; cbn; lia
        | exists Bachelor, Bachelor; repeat split; cbn; lia
        | exists Bachelor, HighSchool; repeat split; cbn; lia
        | exists HighSchool, HighSchool; repeat split; cbn; lia ].
Qed.

(** X9.  For a profile extracted by the first service, whose
    all-documents flag is set exactly when three documents were uploaded,
    the document quality of the V1 breakdown is 40 below three documents,
    95 for three or four, and 100 from five on. *)
Theorem X9_V1_document_quality_of_extracted_profile
    (A : Type) (professionalSummary : string) (documents : list A)
    (v : IVisaType) :
  documentQuality
    (V1.scoreBreakdown
       (V1.calculateScore
          (V1.extractUserProfile professionalSummary documents) v))
  = if (List.length documents <? 3)%nat then 40
    else if (List.length documents <? 5)%nat then 95
    else 100.
Proof.
  unfold V1.calculateScore, V1.computeBreakdown, V1.extractUserProfile;
    cbn [V1.scoreBreakdown documentQuality p_documentCount
         p_hasAllRequiredDocs].
  unfold V1.calculateDocumentScore. cbv zeta.
  destruct (Nat.leb_spec 3 (List.length documents));
  destruct (Nat.leb_spec 5 (List.length documents));
  destruct (Nat.ltb_spec (List.length documents) 3);
  destruct (Nat.ltb_spec (List.length documents) 5);
  try lia; reflexivity.
Qed.

End ExtractionFacts.

(* ------------------------------------------------------------------ *)
(** ** Insights of the rule based scorer *)

Section InsightFacts.
Import JS Model Props Scales.
Variable numberToString : Q -> string.

(** X10.  [generateInsights] always returns four next steps.  The last one
    points to the official link of the visa type, or to the immigration
    authority when the link is empty; the first one follows the category of
    the final score: the full application for strong_candidate, the
    improvement areas for moderate_fit, and building qualifications for the
    two lower categories. *)
Theorem X10_next_steps_follow_category
    (b : Breakdown) (p : UserProfile) (v : IVisaType) (finalScore : Z) :
  let steps := V1.nextSteps (V1.generateInsights numberToString b p v finalScore) in
  List.length steps = 4%nat /\
  nth 3 steps EmptyString
  = "Visit official website: "
    ++ (if nonEmpty (officialLink v) then officialLink v
        else "Contact immigration authority") /\
  (nth 0 steps EmptyString
   = "Prepare comprehensive application for " ++ visaName v
   <-> V1.determineScoreCategory finalScore = strong_candidate) /\
  (nth 0 steps EmptyString = "Address the improvement areas mentioned above"
   <-> V1.determineScoreCategory finalScore = moderate_fit) /\
  (nth 0 steps EmptyString
   = "Focus on building qualifications in key areas (experience, education)"
   <-> (V1.determineScoreCategory finalScore = consider_alternatives \/
        V1.determineScoreCategory finalScore = not_recommended)).
Proof.
  cbv zeta. unfold V1.generateInsights, V1.determineScoreCategory;
    cbn [V1.nextSteps].
  destruct (75 <=? finalScore)%Z; [| destruct (60 <=? finalScore)%Z;
                                     [| destruct (40 <=? finalScore)%Z]];
    cbn [app List.length nth append];
    repeat split; intros H; try reflexivity; try discriminate H;
    try (destruct H as [H | H]; discriminate H); auto.
Qed.

Lemma pushIf_length c m :
  List.length (V1.pushIf c m) = if c then 1%nat else 0%nat.
Proof. now destruct c. Qed.

Lemma strength_or_improvement (x hi lo : Q) :
  lo <= hi ->
  ((if geb x hi then 1 else 0) + (if ltb x lo then 1 else 0) <= 1)%nat.
Proof.
  intros H. destruct (geb x hi) eqn:G; destruct (ltb x lo) eqn:L; try lia.
  apply geb_true_iff in G. apply ltb_true_iff in L. lra.
Qed.

Ltac pushed H :=
  rewrite !in_app_iff in H; unfold V1.pushIf in H;
  repeat match type of H with
         | _ \/ _ => destruct H as [H | H]
         | In _ (if ?c then _ else _) =>
             let E := fresh "E" in destruct c eqn:E
         | In _ [] => destruct H
         | In _ [_] => destruct H as [H | []]
         end;
  try (cbn [append] in H; discriminate H).

(** X11.  In the insights of [generateInsights] every dimension of the
    breakdown contributes at most one message: its strength and its
    improvement are never both present, whatever the scores.  The two
    lists hold at most five messages together. *)
Theorem X11_one_message_per_dimension
    (b : Breakdown) (p : UserProfile) (v : IVisaType) (finalScore : Z) :
  let insights := V1.generateInsights numberToString b p v finalScore in
  let c := eligibilityCriteria v in
  ~ (In ("Strong professional background with "
         ++ numberToString (ofN (p_experience p)) ++ " years of experience")
        (V1.strengths insights) /\
     In ("Gain more relevant work experience (minimum "
         ++ numberToString (minExperienceYears c) ++ " years required)")
        (V1.improvements insights)) /\
  ~ (In ("Advanced educational qualification ("
         ++ V1.replaceFirst "_" " " (p_education p) ++ " degree)")
        (V1.strengths insights) /\
     In ("Consider pursuing higher education (minimum "
         ++ V1.replaceFirst "_" " " (minEducationLevel c) ++ " required)")
        (V1.improvements insights)) /\
  ~ (In ("Excellent specialization match for " ++ visaName v)
        (V1.strengths insights) /\
     In "Consider gaining experience in specialized areas relevant to this visa type"
        (V1.improvements insights)) /\
  ~ (In ("Strong language proficiency ("
         ++ toUpperCase (p_languageLevel p) ++ ")")
        (V1.strengths insights) /\
     In ("Improve language proficiency to "
         ++ toUpperCase (languageRequirement c) ++ " level")
        (V1.improvements insights)) /\
  ~ (In "Comprehensive documentation provided" (V1.strengths insights) /\
     In "Ensure all required documents are complete and up-to-date"
        (V1.improvements insights)) /\
  (List.length (V1.strengths insights)
   + List.length (V1.improvements insights) <= 5)%nat.
Proof.
  cbv zeta. unfold V1.generateInsights; cbn [V1.strengths V1.improvements].
  repeat split.
  1-5: intros [Hs Hi]; pushed Hs; pushed Hi;
       repeat match goal with
              | E : geb _ _ = true |- _ => apply geb_true_iff in E
              | E : ltb _ _ = true |- _ => apply ltb_true_iff in E
              | E : _ = false |- _ => clear E
              end; lra.
  rewrite !length_app, !pushIf_length.
  assert (H1 := strength_or_improvement (experience b) 80 60 ltac:(lra)).
  assert (H2 := strength_or_improvement (education b) 85 65 ltac:(lra)).
  assert (H3 := strength_or_improvement (specialization b) 90 60 ltac:(lra)).
  assert (H4 := strength_or_improvement (language b) 85 70 ltac:(lra)).
  assert (H5 := strength_or_improvement (documentQuality b) 80 70 ltac:(lra)).
  lia.
Qed.
Lemma Math_round_lt (x : Q) (k : Z) :
  (Math_round x < k)%Z <-> x + (1 # 2) < inject_Z k.
Proof.
  unfold Math_round. set (y := x + (1 # 2)).
  pose proof (Qfloor_le y) as Hle. pose proof (Qlt_floor y) as Hlt.
  split; intros H.
  - assert (H' : (Qfloor y + 1 <= k)%Z) by lia.
    rewrite Zle_Qle in H'. lra.
  - rewrite Zlt_Qlt. lra.
Qed.

Lemma V1_experience_below_60 (years m : Q) :
  0 <= years ->
  (ltb (ofZ (V1.calculateExperienceScore years m)) 60 = true
   <-> years < m + (19 # 10)).
Proof.
  intros Hy. rewrite ltb_true_iff. unfold ofZ.
  change 60 with (inject_Z 60). rewrite <- Zlt_Qlt.
  unfold V1.calculateExperienceScore.
  destruct (ltb years m) eqn:L.
  - apply ltb_true_iff in L. split; [intros _; lra | intros _].
    apply Math_round_lt.
    assert (H : years / m <= 1) by (apply Qdiv_le_1; lra).
    change (inject_Z 60) with 60. lra.
  - apply ltb_false_iff in L.
    destruct (geb years (m + 10)) eqn:G.
    + apply geb_true_iff in G. split; [lia | lra].
    + rewrite Math_round_lt. change (inject_Z 60) with 60.
      assert (E : (years - m) / 10 * 50 == 5 * (years - m)) by field.
      rewrite E. split; lra.
Qed.

(** X12.  The improvement "Gain more relevant work experience" is part of
    the insights returned by [calculateScore] exactly when the applicant
    has less than 1.9 years above the required minimum; in particular an
    applicant with exactly the minimum receives it. *)
Theorem X12_experience_advice (p : UserProfile) (v : IVisaType) :
  In ("Gain more relevant work experience (minimum "
      ++ numberToString (minExperienceYears (eligibilityCriteria v))
      ++ " years required)")
     (V1.improvements (V1.insightsOf numberToString p v))
  <-> ofN (p_experience p)
      < minExperienceYears (eligibilityCriteria v) + (19 # 10).
Proof.
  rewrite <- (V1_experience_below_60 _ _ (ofN_nonneg (p_experience p))).
  unfold V1.insightsOf, V1.generateInsights; cbn [V1.improvements].
  unfold V1.computeBreakdown at 1; cbn [experience].
  destruct (ltb (ofZ (V1.calculateExperienceScore _ _)) 60).
  - split; [reflexivity | intros _]. now left.
  - split; [| discriminate]. cbn [V1.pushIf app].
    intros H. rewrite !in_app_iff in H. unfold V1.pushIf in H.
    repeat match type of H with
           | _ \/ _ => destruct H as [H | H]
           | In _ (if ?c then _ else _) => destruct c
           | In _ [] => destruct H
           | In _ [_] => destruct H as [H | []]
           end; cbn [append] in H; discriminate H.
Qed.

End InsightFacts.

(* ------------------------------------------------------------------ *)
(** ** The oracle backed scorer: success, malformed answers, routing *)

Section OracleFacts.
Import JS Model DocParse Props.
Variable oracle : V2.Oracle.

Ltac as_request s dc v :=
  change {| V2.q_professionalSummary := s;
     V2.q_documentContents := dc;
     V2.q_requiredYears := minExperienceYears (eligibilityCriteria v);
     V2.q_requiredEducation := minEducationLevel (eligibilityCriteria v);
     V2.q_fieldOfWork := join ", " (specializations (eligibilityCriteria v)) |}
    with (requestOf s dc v).

Lemma criteriaPrintable_complete cs :
  forallb V2.criterionComplete cs = true -> V2.criteriaPrintable cs = Ok tt.
Proof.
  induction cs as [| c r IH]; [reflexivity |].
  cbn [forallb V2.criteriaPrintable]. intros H.
  apply andb_prop in H. destruct H as [Hc Hr].
  unfold V2.criterionComplete in Hc.
  destruct (V2.evidenceFound c); [| discriminate].
  destruct (V2.evidenceQuality c); [| discriminate].
  destruct (V2.specificGaps c); [| discriminate].
  cbn. now apply IH.
Qed.

Lemma weakCriteriaLines_complete cs :
  forallb V2.criterionComplete cs = true ->
  exists ls, V2.weakCriteriaLines cs = Ok ls.
Proof.
  induction cs as [| c r IH]; [now exists [] |].
  cbn [forallb V2.weakCriteriaLines]. intros H.
  apply andb_prop in H. destruct H as [Hc Hr].
  destruct (IH Hr) as [ls Hls]. rewrite Hls.
  unfold V2.criterionComplete in Hc.
  destruct (V2.evidenceFound c); [| discriminate].
  destruct (V2.evidenceQuality c); [| discriminate].
  destruct (V2.specificGaps c); [| discriminate].
  cbn. destruct (ltb (V2.c_score c) 60); eauto.
Qed.

Lemma criteriaPrintable_incomplete cs :
  forallb V2.criterionComplete cs = false ->
  exists e, V2.criteriaPrintable cs = Throw e.
Proof.
  induction cs as [| c r IH]; [discriminate |].
  cbn [forallb V2.criteriaPrintable]. intros H.
  unfold V2.criterionComplete in H.
  destruct (V2.evidenceFound c); destruct (V2.evidenceQuality c);
    destruct (V2.specificGaps c); cbn in *; eauto.
Qed.

(** X13.  When a key is configured and the analysis call ends with JSON in
    which no field the scorer dereferences is missing, [calculateO1AScore]
    makes the recommendation call and returns a result built from the
    analysis: score, category, strengths, weaknesses and next steps are the
    oracle's.  A recommendation call that fails does not discard the
    analysis: the canned recommendations are attached instead.  Each of
    the two calls costs one request when that request does not fail
    transiently, and never more than three. *)
Theorem X13_oracle_success_path
    (s dc : string) (docs : list ParsedDocument) (v : IVisaType) (n : nat)
    (a : V2.AIProfileAnalysis) :
  V2.hasApiKey oracle = true ->
  fst (analysisCall oracle (requestOf s dc v) n) = V2.Json a ->
  V2.wellFormed a = true ->
  let n1 := snd (analysisCall oracle (requestOf s dc v) n) in
  let n2 := snd (recommendationsCall oracle a n1) in
  exists r,
    V2.calculateO1AScore oracle s dc docs v n = (Ok r, n2) /\
    oracleBacked r a v /\
    V2.strengths r = V2.ai_strengths a /\
    Some (V2.improvements r) = V2.ai_criticalWeaknesses a /\
    V2.nextSteps r = V2.ai_nextSteps a /\
    V2.detailedRecommendations r
    = Some match fst (recommendationsCall oracle a n1) with
           | V2.Json recs => recs
           | _ => V2.fallbackRecommendations
           end /\
    (S n <= n1 <= n + 3)%nat /\ (S n1 <= n2 <= n1 + 3)%nat /\
    (V2.analysisReply oracle (requestOf s dc v) n = V2.Json a -> n1 = S n) /\
    (match V2.recommendationsReply oracle a
             (V2.shown (V2.ai_fieldOfExpertise a)) n1 with
     | V2.Rejected _ => V2.transient oracle n1 = false
     | _ => True
     end -> n2 = S n1).
Proof.
  intros Hk Hr Hw. cbv zeta.
  pose proof (analysisCall_bounds oracle (requestOf s dc v) n) as B1.
  set (n1 := snd (analysisCall oracle (requestOf s dc v) n)) in *.
  pose proof (recommendationsCall_bounds oracle a n1) as B2.
  assert (O1 : V2.analysisReply oracle (requestOf s dc v) n = V2.Json a ->
               n1 = S n).
  { intros H. unfold n1, analysisCall.
    rewrite (send_once oracle _ _ n) by (now rewrite H). reflexivity. }
  assert (O2 : match V2.recommendationsReply oracle a
                       (V2.shown (V2.ai_fieldOfExpertise a)) n1 with
               | V2.Rejected _ => V2.transient oracle n1 = false
               | _ => True
               end -> snd (recommendationsCall oracle a n1) = S n1).
  { intros H. unfold recommendationsCall.
    now rewrite (send_once oracle _ _ n1 H). }
  assert (Ha : V2.analyzeO1AApplication oracle (requestOf s dc v) n
               = (Ok a, n1)).
  { destruct (analyze_cases oracle (requestOf s dc v) n)
      as [(a' & Ha & _ & Hr' & _) | (e & _ & [Hf | Hf])].
    - rewrite Hr' in Hr. injection Hr as ->. exact Ha.
    - congruence.
    - rewrite Hr in Hf. unfold V2.wellFormed in Hw. rewrite Hf in Hw.
      discriminate Hw. }
  unfold V2.wellFormed in Hw.
  destruct (V2.ai_o1aCriteria a) as [cs |] eqn:Ecs; [| discriminate].
  destruct (V2.ai_criticalWeaknesses a) as [ws |] eqn:Ews; [| discriminate].
  destruct (V2.ai_fieldOfExpertise a) as [fd |] eqn:Efd; [| discriminate].
  destruct (V2.ai_languageProficiency a) as [lg |] eqn:Elg; [| discriminate].
  destruct (V2.ai_approvalLikelihood a) as [lk |] eqn:Elk; [| discriminate].
  destruct (V2.ai_educationLevel a) as [ed |] eqn:Eed; [| discriminate].
  destruct (V2.ai_documentQuality a) as [dq |] eqn:Edq; [| discriminate].
  destruct (weakCriteriaLines_complete cs Hw) as [ls Hls].
  pose proof (criteriaPrintable_complete cs Hw) as Hp.
  assert (Hg : V2.generatePersonalizedRecommendations oracle a (visaName v)
                 (V2.shown (V2.ai_fieldOfExpertise a)) n1
               = (Ok match fst (recommendationsCall oracle a n1) with
                     | V2.Json recs => recs
                     | _ => V2.fallbackRecommendations
                     end, snd (recommendationsCall oracle a n1))).
  { destruct (recommendations_cases oracle a (visaName v) n1 Hk)
      as [(e & He) | Hg]; [exfalso | exact Hg].
    unfold V2.generatePersonalizedRecommendations, V2.bind, V2.lift,
      V2.tryCatch, V2.getOpenAIClient, V2.create, V2.ret in He.
    rewrite Hk, Ews, Ecs in He. cbn -[V2.send] in He. rewrite Hls in He.
    destruct (V2.send oracle V2.maxRetries _ n1) as [[e0 | | msg | recs] n'];
      discriminate He. }
  unfold V2.calculateO1AScore. as_request s dc v.
  unfold V2.tryCatch at 1. unfold V2.bind at 1.
  rewrite Ha. unfold V2.bind at 1. rewrite Hg.
  unfold V2.bind, V2.lift, V2.ret, V2.o1aBreakdownOf, V2.buildO1AReasoning.
  rewrite Efd, Elg, Elk, Ecs, Eed, Edq, Ews. cbn -[V2.send]. rewrite Hp.
  cbn -[V2.send].
  eexists. split; [reflexivity |]. cbn -[V2.send].
  unfold oracleBacked; cbn -[V2.send]. rewrite Elk.
  repeat split; auto; lia.
Qed.

(** X14.  When the analysis call ends with JSON in which a field the
    scorer dereferences is missing (the field itself, or the evidence,
    quality or gaps of one criterion), [calculateO1AScore] discards the
    analysis and returns the rule based result, after the requests of the
    analysis call and at most those of one recommendation call. *)
Theorem X14_malformed_analysis_falls_back
    (s dc : string) (docs : list ParsedDocument) (v : IVisaType) (n : nat)
    (a : V2.AIProfileAnalysis) :
  V2.hasApiKey oracle = true ->
  fst (analysisCall oracle (requestOf s dc v) n) = V2.Json a ->
  V2.wellFormed a = false ->
  let n1 := snd (analysisCall oracle (requestOf s dc v) n) in
  exists n',
    V2.calculateO1AScore oracle s dc docs v n
    = (Ok (V2.calculateBasicScore s docs v), n') /\
    (S n <= n1 <= n + 3)%nat /\
    (n' = n1 \/ n' = snd (recommendationsCall oracle a n1)) /\
    (n1 <= n' <= n1 + 3)%nat.
Proof.
  intros Hk Hr Hw. cbv zeta.
  pose proof (analysisCall_bounds oracle (requestOf s dc v) n) as B1.
  set (n1 := snd (analysisCall oracle (requestOf s dc v) n)) in *.
  pose proof (recommendationsCall_bounds oracle a n1) as B2.
  unfold V2.calculateO1AScore. as_request s dc v.
  unfold V2.tryCatch at 1. unfold V2.bind at 1.
  destruct (analyze_cases oracle (requestOf s dc v) n)
    as [(a' & Ha & _ & Hr' & Hc) | (e & He & _)].
  2:{ rewrite He. unfold afterAnalysis. rewrite Hk. fold n1. cbn.
      eexists; split; [reflexivity |]. split; [lia |]. split; [now left | lia]. }
  assert (a' = a) by congruence. subst a'.
  fold n1 in Ha. rewrite Ha. unfold V2.bind at 1.
  destruct (recommendations_cases oracle a (visaName v) n1 Hk)
    as [(e & Hg) | Hg]; rewrite Hg;
    set (n2 := snd (recommendationsCall oracle a n1)) in *;
    clearbody n2 n1;
    [cbn; eexists; split; [reflexivity |];
     split; [lia |]; split; [now left | lia] |].
  unfold V2.bind, V2.lift, V2.ret.
  destruct (V2.o1aBreakdownOf a docs v) as [bd | e2] eqn:Eb;
    [| cbn; eexists; split; [reflexivity |];
       split; [lia |]; split; [now right | lia]].
  destruct (V2.buildO1AReasoning a) as [u | e2] eqn:Er;
    [| cbn; eexists; split; [reflexivity |];
       split; [lia |]; split; [now right | lia]].
  destruct (V2.defined (V2.ai_criticalWeaknesses a)) as [w | e2] eqn:Ed;
    [| cbn; eexists; split; [reflexivity |];
       split; [lia |]; split; [now right | lia]].
  exfalso.
  unfold V2.wellFormed in Hw.
  unfold V2.o1aBreakdownOf in Eb. unfold V2.buildO1AReasoning in Er.
  destruct (V2.ai_o1aCriteria a) as [cs |]; [| congruence].
  destruct (V2.ai_criticalWeaknesses a); [| discriminate Ed].
  destruct (V2.ai_fieldOfExpertise a); [| discriminate Eb].
  destruct (V2.ai_languageProficiency a); [| discriminate Eb].
  destruct (V2.ai_approvalLikelihood a); [| discriminate Er].
  cbn in Er.
  destruct (criteriaPrintable_incomplete cs) as [e Hp].
  { destruct (V2.ai_educationLevel a); [| discriminate Er ||
      (destruct (V2.criteriaPrintable cs); discriminate Er)].
    destruct (V2.ai_documentQuality a); [exact Hw |].
    destruct (V2.criteriaPrintable cs); discriminate Er. }
  rewrite Hp in Er. discriminate Er.
Qed.

Lemma startsWith_app s p q :
  startsWith s (p ++ q) = true -> startsWith s p = true.
Proof.
  revert s; induction p as [| a p IH]; intros s H; [now destruct s |].
  destruct s as [| b s]; [discriminate |].
  cbn in H |- *. apply andb_prop in H. destruct H as [H1 H2].
  rewrite H1. now apply IH.
Qed.

Lemma includes_app s p q :
  includes s (p ++ q) = true -> includes s p = true.
Proof.
  induction s as [| c s IH]; cbn [includes]; intros H.
  - apply orb_prop in H. destruct H as [H | H]; [| discriminate].
    now rewrite (startsWith_app _ _ _ H).
  - apply orb_prop in H. destruct H as [H | H].
    + now rewrite (startsWith_app _ _ _ H).
    + rewrite (IH H). apply orb_true_r.
Qed.

(** X15.  [calculateScoreWithAI] routes on the visa name alone, and the
    test for "O-1A" is subsumed by the test for "O-1": a visa whose name
    contains "O-1" is handed to [calculateO1AScore] with the combined text
    of the documents, and any other visa gets the rule based result
    without a request being sent. *)
Theorem X15_routing_by_visa_name
    (s : string) (docs : list ParsedDocument) (v : IVisaType) (n : nat) :
  V2.isO1 v = includes (visaName v) "O-1" /\
  V2.calculateScoreWithAI oracle s docs v n
  = if includes (visaName v) "O-1"
    then V2.calculateO1AScore oracle s (V2.documentContents docs) docs v n
    else (Ok (V2.calculateBasicScore s docs v), n).
Proof.
  assert (E : V2.isO1 v = includes (visaName v) "O-1").
  { unfold V2.isO1.
    destruct (includes (visaName v) "O-1A") eqn:H; [| reflexivity].
    symmetry. apply (includes_app _ "O-1" "A"). exact H. }
  unfold V2.calculateScoreWithAI. rewrite E.
  split; [reflexivity |]. now destruct (includes (visaName v) "O-1").
Qed.

End OracleFacts.

Section OracleWitnesses.
Import JS Model DocParse Props.

Lemma X13_oracle_success_path_witness :
  exists r,
    V2.calculateO1AScore
      (Examples.answering (Examples.analysis Examples.allCriteria 82 "high"))
      Examples.summary8 EmptyString [] Examples.o1a 0%nat
    = (Ok r, 2%nat) /\
    V2.detailedRecommendations r = Some V2.fallbackRecommendations.
Proof.
  destruct (X13_oracle_success_path
              (Examples.answering (Examples.analysis Examples.allCriteria 82 "high"))
              Examples.summary8 EmptyString [] Examples.o1a 0%nat
              (Examples.analysis Examples.allCriteria 82 "high")
              eq_refl eq_refl eq_refl)
    as (r & H & _ & _ & _ & _ & Hd & _).
  exists r. split; [exact H | exact Hd].
Defined.

Lemma X14_malformed_analysis_falls_back_witness :
  exists n',
    V2.calculateO1AScore
      (Examples.answering
         (Examples.withoutLanguage Examples.allCriteria 82 "high"))
      Examples.summary8 EmptyString [] Examples.o1a 0%nat
    = (Ok (V2.calculateBasicScore Examples.summary8 [] Examples.o1a), n').
Proof.
  destruct (X14_malformed_analysis_falls_back
              (Examples.answering
                 (Examples.withoutLanguage Examples.allCriteria 82 "high"))
              Examples.summary8 EmptyString [] Examples.o1a 0%nat
              (Examples.withoutLanguage Examples.allCriteria 82 "high")
              eq_refl eq_refl eq_refl)
    as (n' & H & _).
  exists n'. exact H.
Defined.

End OracleWitnesses.

Section BasicFacts.
Import JS Model DocParse Props.

Lemma findSpecialization_found summary specs :
  existsb (fun spec => includes summary (toLowerCase spec)) specs = true ->
  In (V2.findSpecialization summary specs) specs.
Proof.
  induction specs as [| x r IH]; [discriminate |].
  cbn [existsb V2.findSpecialization].
  destruct (includes summary (toLowerCase x)); [now left |].
  intros H. right. now apply IH.
Qed.

Lemma findSpecialization_none summary specs :
  existsb (fun spec => includes summary (toLowerCase spec)) specs = false ->
  V2.findSpecialization summary specs = "general".
Proof.
  induction specs as [| x r IH]; [reflexivity |].
  cbn [existsb V2.findSpecialization].
  destruct (includes summary (toLowerCase x)); [discriminate |].
  exact IH.
Qed.

(** X16.  In the rule based result of the second scorer the specialization
    score is 100 as soon as the lower-cased summary contains one allowed
    specialization (lower-cased); otherwise it is the score of the literal
    field "general" against the allowed list. *)
Theorem X16_basic_specialization
    (s : string) (docs : list ParsedDocument) (v : IVisaType) :
  specialization (V2.scoreBreakdown (V2.calculateBasicScore s docs v))
  = if existsb (fun spec => includes (toLowerCase s) (toLowerCase spec))
               (specializations (eligibilityCriteria v))
    then 100
    else V2.calculateSpecializationScore "general"
           (specializations (eligibilityCriteria v)).
Proof.
  unfold V2.calculateBasicScore; cbn [V2.scoreBreakdown].
  unfold V2.basicBreakdown; cbn [specialization].
  set (specs := specializations (eligibilityCriteria v)).
  destruct (existsb _ specs) eqn:E.
  - apply findSpecialization_found in E.
    unfold V2.calculateSpecializationScore.
    set (f := V2.findSpecialization (toLowerCase s) specs) in *.
    assert (H : existsb (fun spec => String.eqb (toLowerCase f) (toLowerCase spec))
                        specs = true).
    { apply existsb_exists. exists f. split; [exact E | apply String.eqb_refl]. }
    now rewrite H.
  - now rewrite (findSpecialization_none _ _ E).
Qed.

End BasicFacts.

(* ------------------------------------------------------------------ *)
(** ** Legacy Word files and the text handed to the oracle *)

Section DocumentFacts.
Import JS Model DocParse Props.

Lemma printable_space : printable " "%char = true.
Proof. reflexivity. Qed.

Lemma allChars_stripNonPrintable s :
  allChars printable (stripNonPrintable s) = true.
Proof.
  induction s as [| c r IH]; [reflexivity |].
  cbn [stripNonPrintable allChars]. rewrite IH, andb_true_r.
  destruct (printable c) eqn:E; [exact E | reflexivity].
Qed.

Lemma allChars_dropWhile p q s :
  allChars p s = true -> allChars p (dropWhile q s) = true.
Proof.
  induction s as [| c r IH]; [reflexivity |].
  cbn [dropWhile]. intros H. destruct (q c); [| exact H].
  cbn [allChars] in H. apply andb_prop in H. now apply IH.
Qed.

Lemma allChars_trimEnd p s :
  allChars p s = true -> allChars p (trimEnd s) = true.
Proof.
  induction s as [| c r IH]; [reflexivity |].
  cbn [allChars trimEnd]. intros H. apply andb_prop in H. destruct H as [Hc Hr].
  specialize (IH Hr). destruct (trimEnd r).
  - destruct (isSpace c); [reflexivity |]. cbn [allChars]. now rewrite Hc.
  - cbn [allChars] in IH |- *. now rewrite Hc.
Qed.

Lemma allChars_trim p s : allChars p s = true -> allChars p (trim s) = true.
Proof. intros H. apply allChars_trimEnd, allChars_dropWhile, H. Qed.

(** X17.  A file with the extension .doc (in any letter case) that the
    extraction library rejects is read as plain text: the document is
    reported as parsed, and its text is the trimmed file content with every
    character outside the printable ASCII range, line feed and carriage
    return replaced by a space.  Only when the read fails as well is the
    document reported as failed, and the error then carries the message of
    the extraction library, not that of the read. *)
Theorem X17_legacy_doc_fallback
    (env : FileEnv) (filePath fileName documentType : string) (e : Thrown) :
  toLowerCase (extname fileName) = ".doc" ->
  mammoth_extractRawText env filePath = Throw e ->
  exists d,
    parseDocument env filePath fileName documentType = Ok d /\
    match readFileSync env filePath with
    | Ok text =>
        parseSuccess d = true /\ error d = None /\
        extractedText d = trim (stripNonPrintable text) /\
        allChars printable (extractedText d) = true /\
        wordCount d = countWords (stripNonPrintable text)
    | Throw _ =>
        parseSuccess d = false /\ extractedText d = EmptyString /\
        wordCount d = 0%nat /\
        error d = Some ("Failed to parse DOC: " ++ messageOr "Unknown error" e)
    end.
Proof.
  intros Hext Hm. unfold parseDocument. rewrite Hext.
  unfold dispatch. cbn [String.eqb Ascii.eqb Bool.eqb andb].
  change (String.eqb ".doc" ".pdf") with false.
  change (String.eqb ".doc" ".docx") with false.
  change (String.eqb ".doc" ".doc") with true. cbv iota.
  unfold parseDOC. rewrite Hm.
  destruct (readFileSync env filePath) as [text | e']; cbn.
  - eexists. split; [reflexivity |]. cbn.
    repeat split. apply allChars_trim, allChars_stripNonPrintable.
  - eexists. split; [reflexivity |]. cbn. repeat split.
Qed.

Lemma X17_legacy_doc_fallback_witness :
  exists d,
    parseDocument Examples.legacyFiles "uploads/cv.DOC" "cv.DOC" "resume" = Ok d /\
    parseSuccess d = true /\ extractedText d = "Curriculum vitae" /\
    wordCount d = 2%nat.
Proof.
  destruct (X17_legacy_doc_fallback Examples.legacyFiles "uploads/cv.DOC"
              "cv.DOC" "resume"
              (ErrorObj "Can't find end of central directory")
              eq_refl eq_refl) as (d & Hd & H).
  cbn in H. destruct H as (Hs & _ & Ht & _ & Hw).
  exists d. repeat split; [exact Hd | exact Hs | |].
  - rewrite Ht. vm_compute. reflexivity.
  - rewrite Hw. vm_compute. reflexivity.
Defined.

Lemma unreadable_upload env f :
  isTextExt (toLowerCase (extname (originalname f))) = false ->
  exists d,
    parseDocument env (path f) (originalname f) (fieldOrOther f) = Ok d /\
    parseSuccess d = false.
Proof.
  intros Ht.
  destruct (parseDocument_returns env (path f) (originalname f) (fieldOrOther f))
    as (l & Hl & Hd).
  eexists. split; [exact Hd |]. cbn [parseSuccess].
  destruct (isImageExt (toLowerCase (extname (originalname f)))) eqn:Hi.
  - rewrite (dispatch_image env _ (path f) Hi) in Hl.
    destruct Hl as [Hl | (e & Hl & _)]; [| discriminate Hl].
    now injection Hl as <-.
  - rewrite (dispatch_unsupported env _ (path f) Hi Ht) in Hl.
    destruct Hl as [Hl | (e & Hl & _)]; [| discriminate Hl].
    now injection Hl as <-.
Qed.

(** X18.  The exported [combineDocumentText] builds, for every list of
    parsed documents, the same text as the local variable of
    [calculateScoreWithAI].  Uploads none of which has a text extension
    (.pdf, .docx, .doc, .txt) contribute nothing to it: after the upload
    loop of [createEvaluation] the combined document text is empty,
    although every image carries its placeholder text, and no document
    counts as parsed. *)
Theorem X18_unreadable_uploads_leave_prompt_empty
    (env : FileEnv) (files : list UploadedFile) :
  (forall parsedDocuments,
     combineDocumentText parsedDocuments
     = V2.documentContents parsedDocuments) /\
  ((forall f, In f files ->
              isTextExt (toLowerCase (extname (originalname f))) = false) ->
   V2.documentContents (parseUploads env files) = EmptyString /\
   combineDocumentText (parseUploads env files) = EmptyString /\
   V2.parsedCount (parseUploads env files) = 0%nat).
Proof.
  split; [reflexivity |].
  intros H.
  assert (F : filter parseSuccess (parseUploads env files) = [] /\
              filter (fun doc => parseSuccess doc && nonEmpty (extractedText doc))
                     (parseUploads env files) = []).
  { induction files as [| f rest IH]; [split; reflexivity |].
    cbn [parseUploads].
    destruct (unreadable_upload env f (H f (or_introl eq_refl)))
      as (d & -> & Hs).
    cbn [filter]. rewrite Hs. cbn [andb].
    apply IH. intros g Hg. apply H. now right. }
  destruct F as [F1 F2].
  unfold V2.documentContents, V2.parsedCount, combineDocumentText.
  rewrite F1, F2. repeat split.
Qed.

Lemma X18_unreadable_uploads_leave_prompt_empty_witness :
  V2.documentContents
    (parseUploads Examples.brokenFiles
       [Examples.upload "passport.png"; Examples.upload "notes.rtf"])
  = EmptyString.
Proof.
  destruct (X18_unreadable_uploads_leave_prompt_empty Examples.brokenFiles
              [Examples.upload "passport.png"; Examples.upload "notes.rtf"])
    as (_ & H).
  destruct H as (H & _ & _); [| exact H].
  intros f [<- | [<- | []]]; reflexivity.
Defined.

End DocumentFacts.

(* ------------------------------------------------------------------ *)
(** ** Error responses and partner authentication *)

Section HttpFacts.
Import JS Model Http Auth.

(** X19.  Whatever is thrown, the error middleware answers with
    success=false and a body whose statusCode is the HTTP status.  Outside
    development the body never holds a stack trace nor the error object,
    and in production an error that is neither a known kind nor an ApiError
    is answered with status 500 and the fixed message "Internal server
    error". *)
Theorem X19_error_response_hides_internals
    (NODE_ENV : option string) (err : JsError) :
  let r := errorHandler NODE_ENV err in
  success r = false /\ status r = e_statusCode (error r) /\
  (envIs NODE_ENV "development" = false ->
   e_stack (error r) = None /\ e_details (error r) <> Some (ErrorItself err)) /\
  (envIs NODE_ENV "production" = true -> kind err = IsError ->
   status r = 500%Z ->
   e_message (error r) = "Internal server error").
Proof.
  cbv zeta. unfold errorHandler.
  destruct (kind err) as [errors | code details op |] eqn:K;
    [| destruct (String.eqb (name err) "ValidationError");
       [| destruct (String.eqb (name err) "CastError");
          [| destruct (String.eqb (name err) "MulterError")]] ..];
    cbn; (split; [reflexivity |]); (split; [reflexivity |]);
    (split;
     [ intros Hd; rewrite ?Hd; (split; [reflexivity |]); try discriminate
     | intros Hp HK Hs; try discriminate HK; try discriminate Hs;
       rewrite ?Hp; reflexivity ]).
  unfold truthyText. destruct details as [t |]; [| discriminate].
  destruct (nonEmpty t); discriminate.
Qed.

Lemma X19_error_response_hides_internals_witness :
  e_message (error (errorHandler (Some "production")
                      {| kind := IsError; name := "TypeError";
                         message := "Cannot read properties of undefined";
                         stack := Some "at createEvaluation" |}))
  = "Internal server error" /\
  e_stack (error (errorHandler (Some "production")
                     {| kind := IsError; name := "TypeError";
                        message := "Cannot read properties of undefined";
                        stack := Some "at createEvaluation" |})) = None.
Proof.
  destruct (X19_error_response_hides_internals (Some "production")
              {| kind := IsError; name := "TypeError";
                 message := "Cannot read properties of undefined";
                 stack := Some "at createEvaluation" |})
    as (_ & _ & Hdev & Hprod).
  split.
  - apply Hprod; reflexivity.
  - apply Hdev. reflexivity.
Defined.

Section WithDirectory.
Variable trace : option string.
Variable hashApiKey : string -> string.
Variable findOne : string -> JsError + option Partner.

Lemma apiError_response NODE_ENV code msg details op :
  let r := errorHandler NODE_ENV (newApiError trace code msg details op) in
  status r = code /\ e_message (error r) = msg /\
  e_details (error r) = truthyText details.
Proof. cbv zeta. unfold errorHandler, newApiError. cbn. repeat split. Qed.

(** X20.  An ApiError built by one of the static constructors is answered
    with the constructor's own status (400, 401, 403, 404, 422, 500) and
    with its message, the default one when none is given; this holds in
    every environment, so the message of [ApiError.internal] is not
    replaced in production. *)
Theorem X20_api_errors_keep_status_and_message
    (NODE_ENV : option string) (msg : string) (given details : option string) :
  let answer e := (status (errorHandler NODE_ENV e),
                   e_message (error (errorHandler NODE_ENV e))) in
  answer (badRequest trace msg details) = (400%Z, msg) /\
  answer (unauthorized trace given details)
  = (401%Z, orDefault "Unauthorized" given) /\
  answer (forbidden trace given details)
  = (403%Z, orDefault "Forbidden" given) /\
  answer (notFound trace given details)
  = (404%Z, orDefault "Resource not found" given) /\
  answer (unprocessableEntity trace msg details) = (422%Z, msg) /\
  answer (internal trace given details)
  = (500%Z, orDefault "Internal server error" given).
Proof.
  cbv zeta. unfold badRequest, unauthorized, forbidden, notFound,
    unprocessableEntity, internal.
  repeat split;
    match goal with
    | |- (status (errorHandler _ (newApiError _ ?c ?m ?d ?o)), _) = _ =>
        destruct (apiError_response NODE_ENV c m d o) as (-> & -> & _);
        reflexivity
    end.
Qed.

Lemma activePartner_inr apiKey p :
  activePartner trace hashApiKey findOne apiKey = inr p ->
  findOne (hashApiKey apiKey) = inr (Some p) /\ isActive p = true.
Proof.
  unfold activePartner.
  destruct (findOne (hashApiKey apiKey)) as [e | [q |]]; try discriminate.
  destruct (isActive q) eqn:E; [| discriminate].
  intros H. injection H as <-. now split.
Qed.

(** X21.  When [requireApiKey] hands over with next(), the request carries
    a key whose hash the partner collection holds, the partner found is
    active and is the one attached to the request, and the guard that opens
    every partner controller succeeds with that partner. *)
Theorem X21_required_key_attaches_active_partner (req req' : Request) :
  requireApiKey trace hashApiKey findOne req = Next req' ->
  exists apiKey p,
    given (header_x_api_key req) = Some apiKey /\
    findOne (hashApiKey apiKey) = inr (Some p) /\
    isActive p = true /\
    req' = attach req p /\
    partnerGuard trace req' = inr p.
Proof.
  unfold requireApiKey.
  destruct (given (header_x_api_key req)) as [apiKey |]; [| discriminate].
  destruct (activePartner trace hashApiKey findOne apiKey) as [e | p] eqn:E;
    [discriminate |].
  intros H. injection H as <-.
  destruct (activePartner_inr apiKey p E) as [Hf Ha].
  exists apiKey, p. repeat split; auto.
Qed.

(** X22.  A request that carries a key but no Origin header is treated by
    [validateApiKey] exactly as by [requireApiKey]: the allowed origins of
    the partner are not consulted.  With an Origin header, a partner that
    [validateApiKey] lets through is let through by [requireApiKey] as
    well. *)
Theorem X22_origin_check_needs_origin_header (req : Request) (apiKey : string) :
  given (header_x_api_key req) = Some apiKey ->
  (given (header_origin req) = None ->
   validateApiKey trace hashApiKey findOne req
   = requireApiKey trace hashApiKey findOne req) /\
  (forall req', validateApiKey trace hashApiKey findOne req = Next req' ->
                requireApiKey trace hashApiKey findOne req = Next req').
Proof.
  intros Hk. unfold validateApiKey, requireApiKey. rewrite Hk.
  destruct (activePartner trace hashApiKey findOne apiKey) as [e | p].
  - split; [reflexivity | discriminate].
  - split.
    + intros Ho. unfold originRejected. rewrite Ho.
      now destruct (allowedOrigins p) as [[| o os] |].
    + intros req'. destruct (originRejected p (header_origin req));
        [discriminate | auto].
Qed.

(** X23.  The errors that [requireApiKey] hands to the error middleware
    are answered with status 401 when the key is missing or unknown and
    with status 403 when the partner is inactive; any other error is one
    that the partner lookup itself threw. *)
Theorem X23_rejected_partner_requests
    (NODE_ENV : option string) (req : Request) (e : JsError) :
  requireApiKey trace hashApiKey findOne req = NextError e ->
  (given (header_x_api_key req) = None /\
   status (errorHandler NODE_ENV e) = 401%Z /\
   e_message (error (errorHandler NODE_ENV e)) = "API key is required") \/
  (exists apiKey,
     given (header_x_api_key req) = Some apiKey /\
     match findOne (hashApiKey apiKey) with
     | inl thrown => e = thrown
     | inr None =>
         status (errorHandler NODE_ENV e) = 401%Z /\
         e_message (error (errorHandler NODE_ENV e)) = "Invalid API key"
     | inr (Some p) =>
         isActive p = false /\
         status (errorHandler NODE_ENV e) = 403%Z /\
         e_message (error (errorHandler NODE_ENV e))
         = "Partner account is inactive"
     end).
Proof.
  unfold requireApiKey.
  destruct (given (header_x_api_key req)) as [apiKey |].
  - intros H. right. exists apiKey. split; [reflexivity |].
    unfold activePartner in H.
    destruct (findOne (hashApiKey apiKey)) as [thrown | [p |]].
    + now injection H as <-.
    + destruct (isActive p); [discriminate |].
      injection H as <-. repeat split.
    + injection H as <-. repeat split.
  - intros H. injection H as <-. left. repeat split.
Qed.

End WithDirectory.

Lemma X21_required_key_attaches_active_partner_witness :
  exists p,
    partnerGuard None
      (attach (Samples.request (Some "vsk_acme") (Some "https://other.example"))
              Samples.acme)
    = inr p /\ isActive p = true.
Proof.
  destruct (X21_required_key_attaches_active_partner None Samples.hash
              Samples.directory
              (Samples.request (Some "vsk_acme") (Some "https://other.example"))
              (attach (Samples.request (Some "vsk_acme")
                                       (Some "https://other.example"))
                      Samples.acme)
              eq_refl)
    as (k & p & _ & _ & Ha & _ & Hg).
  exists p. split; [exact Hg | exact Ha].
Defined.

Lemma X22_origin_check_needs_origin_header_witness :
  validateApiKey None Samples.hash Samples.directory
    (Samples.request (Some "vsk_acme") None)
  = requireApiKey None Samples.hash Samples.directory
      (Samples.request (Some "vsk_acme") None).
Proof.
  destruct (X22_origin_check_needs_origin_header None Samples.hash
              Samples.directory (Samples.request (Some "vsk_acme") None)
              "vsk_acme" eq_refl) as [H _].
  apply H. reflexivity.
Defined.

Lemma X23_rejected_partner_requests_witness :
  status (errorHandler (Some "production")
            (forbidden None (Some "Partner account is inactive") None))
  = 403%Z.
Proof.
  destruct (X23_rejected_partner_requests None Samples.hash Samples.directory
              (Some "production")
              (Samples.request (Some "vsk_dormant") None)
              (forbidden None (Some "Partner account is inactive") None)
              eq_refl)
    as [(H & _) | (k & Hk & H)].
  - discriminate H.
  - cbn in Hk. injection Hk as <-. vm_compute in H.
    destruct H as (_ & H & _). vm_compute. exact H.
Defined.

End HttpFacts.

(* ------------------------------------------------------------------ *)
(** ** The catalogue of countries *)

Section CatalogFacts.
Import JS Model Catalog.

Lemma has_In m key : has m key = true <-> In key (map fst m).
Proof.
  induction m as [| [k c] r IH]; cbn [has map fst In]; [split; [discriminate | tauto] |].
  rewrite orb_true_iff, IH, String.eqb_eq. tauto.
Qed.

Lemma arrIncludes_In arr x : arrIncludes arr x = true <-> In x arr.
Proof.
  unfold arrIncludes. rewrite existsb_exists. split.
  - intros (y & Hy & E). apply String.eqb_eq in E. now subst.
  - intros H. exists x. split; [exact H | apply String.eqb_refl].
Qed.

Lemma firstCodes_ext vs : forall s1 s2,
  (forall x, In x s1 <-> In x s2) -> firstCodes s1 vs = firstCodes s2 vs.
Proof.
  induction vs as [| v r IH]; intros s1 s2 H; [reflexivity |].
  cbn [firstCodes].
  assert (E : arrIncludes s1 (countryCode v) = arrIncludes s2 (countryCode v)).
  { apply eq_true_iff_eq. rewrite !arrIncludes_In. apply H. }
  rewrite E. destruct (arrIncludes s2 (countryCode v)).
  - now apply IH.
  - f_equal. apply IH. intros x. cbn [In]. rewrite H. tauto.
Qed.

Lemma firstCodes_fresh vs : forall seen c,
  In c (firstCodes seen vs) -> ~ In c seen.
Proof.
  induction vs as [| v r IH]; intros seen c; cbn [firstCodes]; [intros [] |].
  destruct (arrIncludes seen (countryCode v)) eqn:E.
  - apply IH.
  - intros [<- | H].
    + intros Hin. apply arrIncludes_In in Hin. congruence.
    + intros Hin. apply (IH _ _ H). now right.
Qed.

Lemma firstCodes_NoDup vs : forall seen, NoDup (firstCodes seen vs).
Proof.
  induction vs as [| v r IH]; intros seen; cbn [firstCodes]; [constructor |].
  destruct (arrIncludes seen (countryCode v)); [apply IH |].
  constructor; [| apply IH].
  intros H. apply firstCodes_fresh in H. apply H. now left.
Qed.

Lemma firstCodes_complete vs : forall seen v,
  In v vs -> In (countryCode v) seen \/ In (countryCode v) (firstCodes seen vs).
Proof.
  induction vs as [| w r IH]; intros seen v; [intros [] |].
  cbn [firstCodes In]. intros [-> | H].
  - destruct (arrIncludes seen (countryCode v)) eqn:E.
    + left. now apply arrIncludes_In.
    + right. now left.
  - destruct (arrIncludes seen (countryCode w)) eqn:E.
    + now apply IH.
    + destruct (IH (countryCode w :: seen) v H) as [[<- | Hs] | Hf].
      * right. now left.
      * now left.
      * right. now right.
Qed.

Lemma groupOf_cons v r code :
  code <> countryCode v -> groupOf (v :: r) code = groupOf r code.
Proof.
  intros H. unfold groupOf, nameOf, ofCountry. cbn [find filter].
  destruct (String.eqb_spec (countryCode v) code) as [E | _];
    [now elim H | reflexivity].
Qed.

Lemma withVisas_nil entry : withVisas [] entry = entry.
Proof.
  destruct entry as [k [cc cn cv]]. unfold withVisas. cbn.
  now rewrite app_nil_r.
Qed.

Lemma withVisas_other v r entry :
  fst entry <> countryCode v -> withVisas (v :: r) entry = withVisas r entry.
Proof.
  intros H. unfold withVisas, ofCountry. cbn [filter].
  destruct (String.eqb_spec (countryCode v) (fst entry)) as [E | _];
    [now elim H | reflexivity].
Qed.

Lemma withVisas_others v r m :
  ~ In (countryCode v) (map fst m) ->
  map (withVisas (v :: r)) m = map (withVisas r) m.
Proof.
  intros H. apply map_ext_in. intros entry He. apply withVisas_other.
  intros E. apply H. rewrite <- E. now apply in_map.
Qed.

Lemma pushVisa_keys m code sv : map fst (pushVisa m code sv) = map fst m.
Proof.
  induction m as [| [k c] m IH]; [reflexivity |].
  cbn [pushVisa]. destruct (String.eqb k code); cbn [map fst];
    [reflexivity | now rewrite IH].
Qed.

Lemma pushVisa_known v r m :
  NoDup (map fst m) -> In (countryCode v) (map fst m) ->
  map (withVisas r) (pushVisa m (countryCode v) (summarize v))
  = map (withVisas (v :: r)) m.
Proof.
  induction m as [| [k c] m IH]; intros Hm Hin; [destruct Hin |].
  cbn [map fst] in Hm. inversion Hm as [| ? ? Hnot Hnd]; subst.
  cbn [pushVisa].
  destruct (String.eqb_spec k (countryCode v)) as [E | E].
  - cbn [map]. rewrite E in Hnot. rewrite (withVisas_others v r m Hnot).
    f_equal. unfold withVisas, ofCountry.
    cbn [fst snd filter c_countryCode c_countryName c_visaTypes].
    rewrite E, String.eqb_refl. cbn [map].
    now rewrite <- app_assoc.
  - cbn [map]. rewrite (withVisas_other v r (k, c)) by exact E.
    f_equal. apply IH; [exact Hnd |].
    destruct Hin as [Hin | Hin]; [now elim E | exact Hin].
Qed.

Lemma set_new m code c0 :
  ~ In code (map fst m) -> set m code c0 = (m ++ [(code, c0)])%list.
Proof.
  induction m as [| [k c] m IH]; intros Hn; [reflexivity |].
  cbn [set app]. destruct (String.eqb_spec k code) as [E | _].
  - exfalso. apply Hn. now left.
  - f_equal. apply IH. intros H. apply Hn. now right.
Qed.

Lemma pushVisa_last m code c0 sv :
  ~ In code (map fst m) ->
  pushVisa (m ++ [(code, c0)])%list code sv
  = (m ++ [(code, {| c_countryCode := c_countryCode c0;
                     c_countryName := c_countryName c0;
                     c_visaTypes := c_visaTypes c0 ++ [sv] |})])%list.
Proof.
  induction m as [| [k c] m IH]; intros Hn.
  - cbn [app pushVisa]. now rewrite String.eqb_refl.
  - cbn [pushVisa app]. destruct (String.eqb_spec k code) as [E | _].
    + exfalso. apply Hn. now left.
    + f_equal. apply IH. intros H. apply Hn. now right.
Qed.

(** The entries of a map after the visa types [vs] were added. *)
Lemma fold_addVisa vs : forall m,
  NoDup (map fst m) ->
  fold_left addVisa vs m
  = (map (withVisas vs) m
     ++ map (fun code => (code, groupOf vs code))
            (firstCodes (map fst m) vs))%list.
Proof.
  induction vs as [| v r IH]; intros m Hm.
  - cbn [fold_left firstCodes map]. rewrite app_nil_r.
    rewrite (map_ext _ (fun e => e) withVisas_nil). now rewrite map_id.
  - cbn [fold_left]. unfold addVisa at 2.
    destruct (has m (countryCode v)) eqn:Hh.
    + (* a known country: the summary is pushed onto its entry *)
      apply has_In in Hh.
      rewrite IH by (now rewrite pushVisa_keys).
      rewrite pushVisa_keys, (pushVisa_known v r m Hm Hh).
      cbn [firstCodes].
      rewrite (proj2 (arrIncludes_In _ _) Hh). f_equal.
      apply map_ext_in. intros code Hc. f_equal. symmetry.
      apply groupOf_cons. intros ->.
      apply firstCodes_fresh in Hc. now apply Hc.
    + (* a new country: its entry is appended, then the summary pushed *)
      assert (Hn : ~ In (countryCode v) (map fst m)).
      { intros H. apply has_In in H. congruence. }
      rewrite (set_new _ _ _ Hn), (pushVisa_last _ _ _ _ Hn).
      cbn [c_countryCode c_countryName c_visaTypes app].
      rewrite IH.
      2:{ rewrite map_app. cbn [map fst]. apply NoDup_app; [exact Hm | | ].
          - constructor; [intros [] | constructor].
          - intros x Hx [<- | []]. now apply Hn. }
      rewrite !map_app. cbn [map fst firstCodes].
      assert (Ha : arrIncludes (map fst m) (countryCode v) = false).
      { destruct (arrIncludes (map fst m) (countryCode v)) eqn:E;
          [| reflexivity]. apply arrIncludes_In in E. now elim Hn. }
      rewrite Ha, <- app_assoc. cbn [app map].
      rewrite (withVisas_others v r m Hn). f_equal. f_equal.
      * unfold withVisas, groupOf, nameOf, ofCountry.
        cbn [fst snd find filter c_countryCode c_countryName c_visaTypes].
        now rewrite String.eqb_refl.
      * rewrite (firstCodes_ext r (map fst m ++ [countryCode v])%list
                   (countryCode v :: map fst m)).
        2:{ intros x. rewrite in_app_iff. cbn [In]. tauto. }
        apply map_ext_in. intros code Hc. f_equal. symmetry.
        apply groupOf_cons. intros ->.
        apply firstCodes_fresh in Hc. apply Hc. now left.
Qed.

(** X24.  [getAllCountries] answers with one entry per country code, in
    the order in which the codes first occur in the query result and
    without repetition.  The entry of a code lists the summaries of all
    visa types stored under it, in query order, and carries the country
    name of the first of them; every visa type is listed under its code. *)
Theorem X24_countries_are_grouped_by_code (visaTypes : list VisaDocument) :
  getAllCountries visaTypes
  = map (groupOf visaTypes) (firstCodes [] visaTypes) /\
  NoDup (map c_countryCode (getAllCountries visaTypes)) /\
  Forall (fun visa =>
            exists country,
              In country (getAllCountries visaTypes) /\
              c_countryCode country = countryCode visa /\
              In (summarize visa) (c_visaTypes country))
         visaTypes.
Proof.
  assert (E : getAllCountries visaTypes
              = map (groupOf visaTypes) (firstCodes [] visaTypes)).
  { unfold getAllCountries. rewrite (fold_addVisa visaTypes []) by constructor.
    cbn [map app]. rewrite map_map. reflexivity. }
  rewrite E. split; [reflexivity |]. split.
  - rewrite map_map. cbn [groupOf c_countryCode]. rewrite map_id.
    apply firstCodes_NoDup.
  - apply Forall_forall. intros visa Hv.
    exists (groupOf visaTypes (countryCode visa)). split; [| split].
    + apply in_map.
      destruct (firstCodes_complete visaTypes [] visa Hv) as [[] | H]; exact H.
    + reflexivity.
    + cbn [groupOf c_visaTypes]. apply in_map. apply filter_In.
      split; [exact Hv |]. unfold ofCountry. apply String.eqb_refl.
Qed.

End CatalogFacts.

(* ------------------------------------------------------------------ *)
(** ** Bounds of the rule based breakdown of the second scorer *)

Section BasicBounds.
Import JS Model DocParse Props.

(** X25.  In the rule based result of the second scorer the experience
    score lies in 0..90, the education score in 0..100, the specialization
    score is 40, 70 or 100, the language score lies in 20..120 (so it can
    exceed 100), and the document score is 40 or 70. *)
Theorem X25_V2_basic_breakdown_bounds
    (s : string) (docs : list ParsedDocument) (v : IVisaType) :
  let b := V2.scoreBreakdown (V2.calculateBasicScore s docs v) in
  (0 <= experience b /\ experience b <= 90) /\
  (0 <= education b /\ education b <= 100) /\
  (specialization b = 40 \/ specialization b = 70 \/ specialization b = 100) /\
  (20 <= language b /\ language b <= 120) /\
  (documentQuality b = 40 \/ documentQuality b = 70).
Proof.
  cbv zeta. unfold V2.calculateBasicScore; cbn [V2.scoreBreakdown].
  unfold V2.basicBreakdown;
    cbn [experience education specialization language documentQuality].
  repeat split.
  - apply V2_experience_nonneg.
  - apply V2_experience_le_90, ofN_nonneg.
  - apply V2_education_nonneg.
  - apply V2_education_le_100.
  - unfold V2.calculateSpecializationScore.
    repeat match goal with |- context [if ?b then _ else _] => destruct b end;
      auto.
  - apply V2_language_bounds.
  - apply V2_language_bounds.
  - destruct (_ <=? _)%nat; auto.
Qed.

End BasicBounds.

(* ------------------------------------------------------------------ *)
(** ** What the reports show *)

Section ReportFacts.
Import JS Model Scales Reports.

Lemma geb_ofZ (z k : Z) : geb (ofZ z) (inject_Z k) = (k <=? z)%Z.
Proof.
  apply eq_true_iff_eq. rewrite geb_true_iff, Z.leb_le. unfold ofZ.
  now rewrite <- Zle_Qle.
Qed.

(** X26.  The three report generators agree on how a category is shown:
    for every category string the colour lookup gives the same in all
    three, the labels of the second and third generator are the same, and
    they are the upper-cased label of the first.  The lookups yield no
    string exactly for the names inherited from [Object.prototype]; any
    other unknown category is shown in grey as "Evaluated". *)
Theorem X26_report_generators_agree (category : string) :
  PdfV1.getScoreColor category = PdfV2.getScoreColor category /\
  PdfV2.getScoreColor category = PdfV3.getScoreColor category /\
  PdfV2.getCategoryLabel category = PdfV3.getCategoryLabel category /\
  PdfV2.getCategoryLabel category
  = option_map toUpperCase (PdfV1.getCategoryLabel category) /\
  (PdfV1.getScoreColor category = None <-> inherited category = true) /\
  (PdfV1.getCategoryLabel category = None <-> inherited category = true) /\
  (inherited category = false ->
   (forall c : ScoreCategory, category <> categoryName c) ->
   PdfV1.getScoreColor category = Some "#6b7280" /\
   PdfV1.getCategoryLabel category = Some "Evaluated").
Proof.
  split; [reflexivity |]. split; [reflexivity |]. split; [reflexivity |].
  unfold PdfV2.getCategoryLabel, PdfV1.getCategoryLabel, PdfV1.getScoreColor,
    byCategory.
  destruct (String.eqb_spec category "strong_candidate") as [-> | N1].
  { split; [reflexivity |]. split; [split; discriminate |].
    split; [split; discriminate |].
    intros _ H. now elim (H strong_candidate). }
  destruct (String.eqb_spec category "moderate_fit") as [-> | N2].
  { split; [reflexivity |]. split; [split; discriminate |].
    split; [split; discriminate |].
    intros _ H. now elim (H moderate_fit). }
  destruct (String.eqb_spec category "consider_alternatives") as [-> | N3].
  { split; [reflexivity |]. split; [split; discriminate |].
    split; [split; discriminate |].
    intros _ H. now elim (H consider_alternatives). }
  destruct (String.eqb_spec category "not_recommended") as [-> | N4].
  { split; [reflexivity |]. split; [split; discriminate |].
    split; [split; discriminate |].
    intros _ H. now elim (H not_recommended). }
  destruct (inherited category).
  - split; [reflexivity |]. split; [now split |]. split; [now split |].
    discriminate.
  - split; [reflexivity |]. split; [split; discriminate |].
    split; [split; discriminate |]. now split.
Qed.

(** X27.  For a result of the first scorer the likelihood line of the
    second and third report is in the tier of the category: "High" for
    strong_candidate, "Moderate" for moderate_fit, "Low" for
    consider_alternatives and "Very Low" for not_recommended. *)
Theorem X27_likelihood_follows_category (p : UserProfile) (v : IVisaType) :
  let r := V1.calculateScore p v in
  PdfV2.getApprovalLikelihood (ofZ (V1.score r))
  = match V1.scoreCategory r with
    | strong_candidate => "High - Strong application"
    | moderate_fit => "Moderate - Competitive with improvements"
    | consider_alternatives => "Low - Significant improvements needed"
    | not_recommended => "Very Low - Consider alternative visa options"
    end /\
  PdfV3.getApprovalLikelihood (ofZ (V1.score r))
  = match V1.scoreCategory r with
    | strong_candidate => "High Approval Likelihood"
    | moderate_fit => "Moderate Approval Likelihood"
    | consider_alternatives => "Low Approval Likelihood"
    | not_recommended => "Very Low Approval Likelihood"
    end.
Proof.
  cbv zeta. unfold V1.calculateScore; cbn [V1.score V1.scoreCategory].
  set (z := Math_round _).
  unfold PdfV2.getApprovalLikelihood, PdfV3.getApprovalLikelihood,
    V1.determineScoreCategory.
  change 75 with (inject_Z 75). change 60 with (inject_Z 60).
  change 40 with (inject_Z 40). rewrite !geb_ofZ.
  destruct (75 <=? z)%Z; [split; reflexivity |].
  destruct (60 <=? z)%Z; [split; reflexivity |].
  destruct (40 <=? z)%Z; split; reflexivity.
Qed.

(** X28.  The filled part of a score bar stays within the background bar
    exactly when the score lies in 0..100, in the second report as in the
    third. *)
Theorem X28_score_bar_fill (y score : Q) :
  (fillInside (PdfV2.drawScoreBar y score) <-> within_0_100 score) /\
  (fillInside (PdfV3.drawCompactScoreBar y score) <-> within_0_100 score).
Proof.
  unfold fillInside, within_0_100, PdfV2.drawScoreBar,
    PdfV3.drawCompactScoreBar;
    cbn [filled background rect_x rect_y rect_width rect_height].
  assert (E2 : score / 100 * 300 == 3 * score) by field.
  assert (E3 : score / 100 * 250 == (5 # 2) * score) by field.
  rewrite E2, E3. split; split.
  - intros (_ & _ & _ & H1 & H2). lra.
  - intros [H1 H2]. repeat split; try reflexivity; lra.
  - intros (_ & _ & _ & H1 & H2). lra.
  - intros [H1 H2]. repeat split; try reflexivity; lra.
Qed.

End ReportFacts.

(* ------------------------------------------------------------------ *)
(** ** The result page and the wizard of the web client *)

Section FrontendFacts.
Import JS Model Scales Frontend.

(** X29.  On the result page a result of the first scorer is shown as
    "strong" from 75 points, as "moderate" from 60 and as "consider" below:
    consider_alternatives and not_recommended are not told apart.  The
    score is drawn in green exactly when the result is shown as strong. *)
Theorem X29_result_page_category (p : UserProfile) (v : IVisaType) :
  let r := V1.calculateScore p v in
  mapScoreCategory (categoryName (V1.scoreCategory r))
  = (if (75 <=? V1.score r)%Z then "strong"
     else if (60 <=? V1.score r)%Z then "moderate" else "consider") /\
  (getColor (ofZ (V1.score r)) = "text-green-500"
   <-> mapScoreCategory (categoryName (V1.scoreCategory r)) = "strong").
Proof.
  cbv zeta. unfold V1.calculateScore; cbn [V1.score V1.scoreCategory].
  set (z := Math_round _).
  unfold getColor, V1.determineScoreCategory.
  change 75 with (inject_Z 75). change 50 with (inject_Z 50).
  rewrite !geb_ofZ.
  destruct (75 <=? z)%Z eqn:E75; [split; [reflexivity | split; reflexivity] |].
  assert (N : forall c, mapScoreCategory (categoryName c) = "strong" ->
                        c = strong_candidate)
    by (intros []; cbn; intros H; try discriminate H; reflexivity).
  destruct (60 <=? z)%Z; [| destruct (40 <=? z)%Z];
    (split; [reflexivity |]); destruct (50 <=? z)%Z;
    split; intros H; discriminate H.
Qed.

Lemma find_none_notin (docs : list UploadedFile) documentId0 :
  find (fun doc => String.eqb (documentId doc) documentId0) docs = None ->
  ~ In documentId0 (map documentId docs).
Proof.
  induction docs as [| d r IH]; cbn [find map In]; [tauto |].
  destruct (String.eqb_spec (documentId d) documentId0) as [E | E];
    [discriminate |].
  intros H [H1 | H1]; [now elim E | now apply IH].
Qed.

Lemma NoDup_map_filter (f : UploadedFile -> bool) docs :
  NoDup (map documentId docs) -> NoDup (map documentId (filter f docs)).
Proof.
  induction docs as [| d r IH]; cbn [map filter]; [auto |].
  intros H. inversion H as [| ? ? Hn Hr]; subst.
  destruct (f d); [| now apply IH].
  cbn [map]. constructor; [| now apply IH].
  intros Hin. apply Hn. apply in_map_iff in Hin.
  destruct Hin as (x & Hx & Hf). apply filter_In in Hf.
  apply in_map_iff. exists x. tauto.
Qed.

(** X30.  In every state a session of the wizard can reach, the current
    step is one of 1..4, a country and a visa type are chosen whenever the
    step is 3 or 4, and no two uploaded files belong to the same required
    document. *)
Theorem X30_wizard_invariant (state : EvaluationState) :
  reachable state ->
  (1 <= currentStep state <= 4)%Z /\
  ((3 <= currentStep state)%Z ->
   nonEmpty (targetCountry state) = true /\ nonEmpty (visaType state) = true) /\
  NoDup (map documentId (uploadedDocuments state)).
Proof.
  induction 1 as [| state a state' Hr (Hs & Hc & Hd) Ha].
  - cbn. repeat split; try lia. constructor.
  - destruct a; cbn [act] in Ha.
    + destruct (Z.eqb_spec (currentStep state) 1) as [E |]; [| discriminate].
      injection Ha as <-. cbn. rewrite E. repeat split; try lia. exact Hd.
    + destruct (Z.eqb_spec (currentStep state) 2) as [E |]; [| discriminate].
      destruct (nonEmpty countryCode) eqn:Ec; [| discriminate].
      destruct (nonEmpty visaId) eqn:Ev; [| discriminate].
      injection Ha as <-. cbn. rewrite E. repeat split; try lia; auto.
    + destruct (Z.eqb_spec (currentStep state) 3) as [E |]; [| discriminate].
      destruct (getUploadedDoc state documentId0) eqn:G; [discriminate |].
      injection Ha as <-. cbn. repeat split; try lia; try (apply Hc; lia).
      rewrite map_app. cbn [map documentId].
      apply NoDup_app; [exact Hd | | ].
      * constructor; [intros [] | constructor].
      * intros x Hx [<- | []]. now apply (find_none_notin _ _ G).
    + destruct (Z.eqb_spec (currentStep state) 3) as [E |]; [| discriminate].
      destruct (getUploadedDoc state documentId0).
      * injection Ha as <-. cbn. repeat split; try lia; try (apply Hc; lia).
        now apply NoDup_map_filter.
      * injection Ha as <-. exact (conj Hs (conj Hc Hd)).
    + destruct (Z.eqb_spec (currentStep state) 3) as [E |]; [| discriminate].
      destruct (allRequiredDocsUploaded state requiredDocs); [| discriminate].
      injection Ha as <-. cbn. rewrite E.
      repeat split; try lia; try (apply Hc; lia). exact Hd.
    + destruct (Z.leb_spec 2 (currentStep state)); [| discriminate].
      destruct (Z.leb_spec (currentStep state) 4); [| discriminate].
      injection Ha as <-. cbn.
      repeat split; try lia; try (intros; apply Hc; lia). exact Hd.
    + destruct (Z.eqb_spec (currentStep state) 4) as [E |]; [| discriminate].
      injection Ha as <-. cbn. repeat split; try lia. exact Hd.
    + destruct (Z.eqb_spec (currentStep state) 4) as [E |]; [| discriminate].
      injection Ha as <-. cbn. repeat split; try lia. exact Hd.
    + destruct (Z.eqb_spec (currentStep state) 4) as [E |]; [| discriminate].
      injection Ha as <-. cbn. repeat split; try lia; try (apply Hc; lia).
      exact Hd.
    + destruct (Z.eqb_spec (currentStep state) 4) as [E |]; [| discriminate].
      injection Ha as <-. cbn. repeat split; try lia; try (apply Hc; lia).
      exact Hd.
    + destruct (Z.eqb_spec (currentStep state) 4) as [E |]; [| discriminate].
      injection Ha as <-. destruct response; cbn;
        repeat split; try lia; try (apply Hc; lia); exact Hd.
Qed.

Lemma X30_wizard_invariant_witness :
  (1 <= currentStep
          (handleNext
             (selectCountryAndVisa
                (handleNext (updatePersonalInfo initialState
                               (personalInfo initialState)))
                "us" "o1a")) <= 4)%Z.
Proof.
  apply (X30_wizard_invariant
           (handleNext
              (selectCountryAndVisa
                 (handleNext (updatePersonalInfo initialState
                                (personalInfo initialState)))
                 "us" "o1a"))).
  apply (reach_act
           (handleNext (updatePersonalInfo initialState
                          (personalInfo initialState)))
           (ChooseCountryAndVisa "us" "o1a")).
  - apply (reach_act initialState (SubmitPersonal (personalInfo initialState))).
    + apply reach_initial.
    + reflexivity.
  - reflexivity.
Defined.

End FrontendFacts.
